(** * AmazonQA-Suite: a shallow embedding of the test-suite utilities

    The development follows the layout of the repository:
    - [PyStr], [PyNum]: the fragments of Python's [str] and numeric
      semantics the sources rely on (ASCII text such as selectors, flags
      and menu choices; floats are IEEE-754 binary64, computed with the
      Standard Library's [SpecFloat]);
    - [Text]: text read from pages, as code points, with the digits,
      whitespace and lowering of the interpreter;
    - [Helpers], [Prices]: [utils/test_helpers.py];
    - [BrowserConfig]: [utils/browser_config.py];
    - [Reporting]: [utils/enhanced_reporting.py];
    - [Validators], [Workflow]: [tests/test_amazon_complete.py];
    - [Runner]: [run_tests.py].
    Definitions come first, the theorems about them follow. *)

From Stdlib Require Import ZArith Ascii Floats.SpecFloat.
From stdpp Require Import base tactics option list strings pretty gmap.

Local Open Scope string_scope.

(* ===================================================================== *)
(** * Python strings (ASCII fragment) *)
(* ===================================================================== *)

Module PyStr.

(** [s.startswith(p)] *)
Fixpoint startswith (s p : string) {struct p} : bool :=
  match p with
  | EmptyString => true
  | String c p' =>
      match s with
      | EmptyString => false
      | String d s' => Ascii.eqb c d && startswith s' p'
      end
  end.

(** [sub in s] *)
Fixpoint contains (s sub : string) : bool :=
  startswith s sub ||
  match s with
  | EmptyString => false
  | String _ s' => contains s' sub
  end.

(** [s[n:]] *)
Fixpoint slice_from (n : nat) (s : string) : string :=
  match n, s with
  | O, _ => s
  | S _, EmptyString => EmptyString
  | S n', String _ s' => slice_from n' s'
  end.

(** [s[:n]] *)
Fixpoint slice_to (n : nat) (s : string) : string :=
  match n, s with
  | O, _ => EmptyString
  | S _, EmptyString => EmptyString
  | S n', String c s' => String c (slice_to n' s')
  end.

Definition code (c : ascii) : N := Ascii.N_of_ascii c.

Definition lower_char (c : ascii) : ascii :=
  if ((65 <=? code c) && (code c <=? 90))%N
  then Ascii.ascii_of_N (code c + 32) else c.

(** [s.lower()] *)
Fixpoint lower (s : string) : string :=
  match s with
  | EmptyString => EmptyString
  | String c s' => String (lower_char c) (lower s')
  end.

(** The characters [str.strip()] removes: tab, newline, vertical tab,
    form feed, carriage return, the four separators 0x1c-0x1f and space. *)
Definition is_space (c : ascii) : bool :=
  (((9 <=? code c) && (code c <=? 13)) ||
   ((28 <=? code c) && (code c <=? 32)))%N.

Fixpoint lstrip (s : string) : string :=
  match s with
  | EmptyString => EmptyString
  | String c s' => if is_space c then lstrip s' else s
  end.

Fixpoint rstrip (s : string) : string :=
  match s with
  | EmptyString => EmptyString
  | String c s' =>
      match rstrip s' with
      | EmptyString => if is_space c then EmptyString else String c EmptyString
      | r => String c r
      end
  end.

(** [s.strip()] *)
Definition strip (s : string) : string := rstrip (lstrip s).

(** [s.replace(c, '')] for a one-character [c] *)
Fixpoint remove_char (c : ascii) (s : string) : string :=
  match s with
  | EmptyString => EmptyString
  | String d s' =>
      if Ascii.eqb c d then remove_char c s' else String d (remove_char c s')
  end.

(** Truthiness of a string: non-empty. *)
Definition truthy (s : string) : bool :=
  match s with EmptyString => false | _ => true end.

Definition is_digit (c : ascii) : bool :=
  ((48 <=? code c) && (code c <=? 57))%N.

Fixpoint take_while (p : ascii -> bool) (s : string) : string :=
  match s with
  | EmptyString => EmptyString
  | String c s' => if p c then String c (take_while p s') else EmptyString
  end.

(** [re.search('[cls]+', s).group()]: the leftmost, longest run of
    characters of the class; [None] when no character is in the class. *)
Fixpoint search_run (p : ascii -> bool) (s : string) : option string :=
  match s with
  | EmptyString => None
  | String c s' => if p c then Some (take_while p s) else search_run p s'
  end.

(** [re.sub('<[^>]+>', '', s)].  [pending = Some b] while the scan is
    inside a candidate tag whose characters after the opening bracket are
    [b]; a candidate that is never closed, or that is closed at once
    ([<>]), is kept as it stands. *)
Fixpoint remove_tags_from (pending : option string) (s : string) : string :=
  match s with
  | EmptyString =>
      match pending with
      | None => EmptyString
      | Some b => String "<"%char b
      end
  | String c s' =>
      match pending with
      | None =>
          if Ascii.eqb c "<"%char then remove_tags_from (Some EmptyString) s'
          else String c (remove_tags_from None s')
      | Some b =>
          if Ascii.eqb c ">"%char then
            match b with
            | EmptyString => String "<"%char (String ">"%char (remove_tags_from None s'))
            | _ => remove_tags_from None s'
            end
          else remove_tags_from (Some (b ++ String c EmptyString)) s'
      end
  end.

Definition remove_tags (s : string) : string := remove_tags_from None s.

Definition digit_value (c : ascii) : Z := Z.of_N (code c) - 48.

Fixpoint digits_value (acc : Z) (s : string) : Z :=
  match s with
  | EmptyString => acc
  | String c s' => digits_value (10 * acc + digit_value c) s'
  end.

Fixpoint all_digits (s : string) : bool :=
  match s with
  | EmptyString => true
  | String c s' => is_digit c && all_digits s'
  end.

(** [int(s)] on the strings the sources pass to it (runs of decimal
    digits): [None] stands for [ValueError]. *)
Definition int_of_string (s : string) : option Z :=
  if truthy s && all_digits s then Some (digits_value 0 s) else None.

End PyStr.

(* ===================================================================== *)
(** * Python numbers: unbounded [int] and binary64 [float] *)
(* ===================================================================== *)

Module PyNum.

Local Open Scope Z_scope.

Definition prec : Z := 53.
Definition emax : Z := 1024.

Inductive num : Type :=
| Int (z : Z)
| Float (f : spec_float).

(** [float(z)]: the double nearest to [z] (ties to even).  Where the
    result is an infinity Python raises [OverflowError] instead; the
    theorems that depend on such a conversion assume a finite result. *)
Definition float_of_int (z : Z) : spec_float :=
  binary_normalize prec emax z 0 false.

(** An integer as an unrounded binary float (mantissa [|z|], exponent 0). *)
Definition exact_of_int (z : Z) : spec_float :=
  match z with
  | Z0 => S754_zero false
  | Zpos p => S754_finite false p 0
  | Zneg p => S754_finite true p 0
  end.

Definition to_float (a : num) : spec_float :=
  match a with
  | Int z => float_of_int z
  | Float f => f
  end.

(** [a + b] *)
Definition add (a b : num) : num :=
  match a, b with
  | Int x, Int y => Int (x + y)
  | _, _ => Float (SFadd prec emax (to_float a) (to_float b))
  end.

(** [a * b] *)
Definition mul (a b : num) : num :=
  match a, b with
  | Int x, Int y => Int (x * y)
  | _, _ => Float (SFmul prec emax (to_float a) (to_float b))
  end.

(** [a / b] (true division) for a non-zero divisor: two integers give the
    correctly rounded quotient, rounded once; otherwise the operands are
    converted and divided as doubles.  Python raises [ZeroDivisionError]
    on a zero divisor: every division in the sources is by a literal or
    sits under a guard that excludes it. *)
Definition truediv (a b : num) : num :=
  match a, b with
  | Int x, Int y => Float (SFdiv prec emax (exact_of_int x) (exact_of_int y))
  | _, _ => Float (SFdiv prec emax (to_float a) (to_float b))
  end.

Definition is_finite (f : spec_float) : bool :=
  match f with
  | S754_zero _ | S754_finite _ _ _ => true
  | _ => false
  end.

(** Exact comparison of an integer with a double, as Python compares an
    [int] with a [float]; [None] when the double is a NaN. *)
Definition compare_int_float (z : Z) (f : spec_float) : option comparison :=
  match f with
  | S754_nan => None
  | S754_infinity false => Some Lt
  | S754_infinity true => Some Gt
  | S754_zero _ => Some (z ?= 0)
  | S754_finite s m e =>
      let v := if s then Zneg m else Zpos m in
      match e with
      | Zneg k => Some (Z.shiftl z (Zpos k) ?= v)
      | _ => Some (z ?= Z.shiftl v e)
      end
  end.

(** [a <= b] *)
Definition le (a b : num) : bool :=
  match a, b with
  | Int x, Int y => x <=? y
  | Int x, Float g =>
      match compare_int_float x g with
      | Some Lt | Some Eq => true
      | _ => false
      end
  | Float f, Int y =>
      match compare_int_float y f with
      | Some Gt | Some Eq => true
      | _ => false
      end
  | Float f, Float g => SFleb f g
  end.

(** [a >= b] *)
Definition ge (a b : num) : bool := le b a.

(** Truthiness: zero (of either type) is false, everything else true. *)
Definition truthy (a : num) : bool :=
  match a with
  | Int z => negb (z =? 0)
  | Float (S754_zero _) => false
  | Float _ => true
  end.

(** [sum(xs)]: a left fold from the integer 0. *)
Definition sum (xs : list num) : num := fold_left add xs (Int 0).

End PyNum.

(* ===================================================================== *)
(** * utils/test_helpers.py *)
(* ===================================================================== *)

Module Helpers.

Import PyStr.

(** The locator strategies of the browser driver ([By]). *)
Inductive By : Type :=
| ID | XPATH | LINK_TEXT | PARTIAL_LINK_TEXT
| NAME | TAG_NAME | CLASS_NAME | CSS_SELECTOR.

(** [auto_detect_selector_type]: the first branch that applies decides. *)
Definition auto_detect_selector_type (selector_string : string) : By * string :=
  if startswith selector_string "#" then
    (ID, slice_from 1 selector_string)
  else if startswith selector_string "." then
    (CLASS_NAME, slice_from 1 selector_string)
  else if startswith selector_string "//" then
    (XPATH, selector_string)
  else if contains selector_string "[" && contains selector_string "]" then
    (CSS_SELECTOR, selector_string)
  else if startswith selector_string "name=" then
    (NAME, slice_from 5 selector_string)
  else
    (CSS_SELECTOR, selector_string).

(** Both brackets occur somewhere in the string. *)
Definition bracketed (s : string) : bool := contains s "[" && contains s "]".

(** ** Price extraction *)

(** A node matched by a price selector: what [.text] and the attributes
    [textContent] and [innerHTML] give ([None]: the attribute is absent).
    A [Stale] node raises on any access. *)
Inductive price_element : Type :=
| Stale
| Live (text : string) (textContent innerHTML : option string).

Definition is_digit_or_comma (c : ascii) : bool :=
  is_digit c || Ascii.eqb c ","%char.

End Helpers.

(* ===================================================================== *)
(** * Text: Python [str] values as sequences of code points *)
(* ===================================================================== *)

Module Text.

Local Open Scope Z_scope.

(** A [str]: its code points. *)
Definition str : Type := list N.

(** What the interpreter that runs the suite knows of characters and of
    integer conversion.  [decimal c]: the value of [c] when it is a decimal
    digit (Unicode category Nd), the characters that [\d] of [re] matches
    and that [int()] reads; [space c]: [c] is whitespace for [str.strip()]
    and [str.split()]; [lower]: [str.lower()]; [max_str_digits]: the limit
    [int()] puts on the number of digits of its argument, 0 for none.
    Every statement below holds whatever these are. *)
Record interpreter : Type := {
  decimal : N -> option Z;
  space : N -> bool;
  lower : str -> str;
  max_str_digits : Z
}.

(** A literal of the sources, which are written in ASCII here. *)
Fixpoint literal (s : string) : str :=
  match s with
  | EmptyString => []
  | String c s' => Ascii.N_of_ascii c :: literal s'
  end.

Definition comma : N := 44.
Definition less_than : N := 60.
Definition greater_than : N := 62.

(** Truthiness of a [str]: non-empty. *)
Definition truthy (s : str) : bool :=
  match s with [] => false | _ => true end.

(** [s.replace(c, '')] for a one-character [c] *)
Definition remove_char (c : N) (s : str) : str :=
  List.filter (fun x => negb (x =? c)%N) s.

Fixpoint take_while (p : N -> bool) (s : str) : str :=
  match s with
  | [] => []
  | c :: s' => if p c then c :: take_while p s' else []
  end.

(** [re.search('[cls]+', s).group()]: the leftmost, longest run of
    characters of the class; [None] when no character is in the class. *)
Fixpoint search_run (p : N -> bool) (s : str) : option str :=
  match s with
  | [] => None
  | c :: s' => if p c then Some (take_while p s) else search_run p s'
  end.

(** [re.sub('<[^>]+>', '', s)].  [pending = Some b] while the scan is
    inside a candidate tag whose characters after the opening bracket are
    [b]; a candidate that is never closed, or that is closed at once
    ([<>]), is kept as it stands. *)
Fixpoint remove_tags_from (pending : option str) (s : str) : str :=
  match s with
  | [] =>
      match pending with
      | None => []
      | Some b => less_than :: b
      end
  | c :: s' =>
      match pending with
      | None =>
          if (c =? less_than)%N then remove_tags_from (Some []) s'
          else c :: remove_tags_from None s'
      | Some b =>
          if (c =? greater_than)%N then
            match b with
            | [] => less_than :: greater_than :: remove_tags_from None s'
            | _ => remove_tags_from None s'
            end
          else remove_tags_from (Some (b ++ [c])%list) s'
      end
  end.

Definition remove_tags (s : str) : str := remove_tags_from None s.

Section WithInterpreter.

Context (py : interpreter).

Definition is_digit (c : N) : bool :=
  match decimal py c with Some _ => true | None => false end.

(** The class [[\d,]]. *)
Definition is_digit_or_comma (c : N) : bool :=
  is_digit c || (c =? comma)%N.

Fixpoint lstrip (s : str) : str :=
  match s with
  | [] => []
  | c :: s' => if space py c then lstrip s' else s
  end.

Fixpoint rstrip (s : str) : str :=
  match s with
  | [] => []
  | c :: s' =>
      match rstrip s' with
      | [] => if space py c then [] else [c]
      | r => c :: r
      end
  end.

(** [s.strip()] *)
Definition strip (s : str) : str := rstrip (lstrip s).

Definition digit_value (c : N) : Z := default 0 (decimal py c).

Fixpoint digits_value (acc : Z) (s : str) : Z :=
  match s with
  | [] => acc
  | c :: s' => digits_value (10 * acc + digit_value c) s'
  end.

(** [int()] refuses more digits than the limit allows. *)
Definition too_many_digits (s : str) : bool :=
  (640 <? Z.of_nat (length s)) && (0 <? max_str_digits py)
  && (max_str_digits py <? Z.of_nat (length s)).

(** [int(s)] on the strings the sources pass to it, which hold digits
    and nothing else unless they are empty: [None] stands for
    [ValueError]. *)
Definition int_of_digits (s : str) : option Z :=
  if truthy s && forallb is_digit s && negb (too_many_digits s)
  then Some (digits_value 0 s) else None.

End WithInterpreter.

(** An interpreter for the examples: the ASCII digits and the Devanagari
    digits, ASCII whitespace and the no-break space, ASCII lowering, and
    the default limit of 4300 digits. *)
Definition sample_interpreter : interpreter :=
  {| decimal := fun c =>
       if ((48 <=? c) && (c <=? 57))%N then Some (Z.of_N c - 48)
       else if ((2406 <=? c) && (c <=? 2415))%N then Some (Z.of_N c - 2406)
       else None;
     space := fun c =>
       (((9 <=? c) && (c <=? 13)) || ((28 <=? c) && (c <=? 32))
        || (c =? 133) || (c =? 160))%N;
     lower := map (fun c => if ((65 <=? c) && (c <=? 90))%N
                            then (c + 32)%N else c);
     max_str_digits := 4300 |}.

End Text.

(* ===================================================================== *)
(** * utils/test_helpers.py: price extraction *)
(* ===================================================================== *)

Module Prices.

Import Text.

Local Open Scope Z_scope.

(** A node matched by a price selector: what [.text] and the attributes
    [textContent] and [innerHTML] give ([None]: the attribute is absent).
    A [Stale] node raises on any access. *)
Inductive price_element : Type :=
| Stale
| Live (text : str) (textContent innerHTML : option str).

(** A product element, seen through [find_elements(By.CSS_SELECTOR, _)]:
    [None] when the driver raises. *)
Record product_element : Type := {
  find_elements : string -> option (list price_element)
}.

Record price_data : Type := {
  price : Z;
  original_text : str;
  selector_used : string
}.

Definition price_selectors : list string :=
  [ ".a-price-whole";
    ".a-price .a-offscreen";
    ".a-price-range .a-offscreen";
    ".a-price-symbol + .a-price-whole";
    "[data-a-price] .a-offscreen";
    ".a-price-display .a-offscreen";
    ".a-price .a-price-whole";
    ".a-price-range .a-price-whole";
    "*[class*='price'] *[class*='whole']";
    "*[class*='price'] *[class*='amount']";
    "*[data-testid*='price']";
    "*[aria-label*='price']" ].

Definition attr_truthy (a : option str) : bool :=
  match a with
  | Some s => truthy s
  | None => false
  end.

Definition in_price_range (price_value : Z) : bool :=
  (50 <=? price_value) && (price_value <=? 10000000).

(** How the inner loop over the nodes of one selector ends. *)
Inductive scan_result : Type :=
| Returned (r : price_data)
| Exhausted
| Raised.

Section WithInterpreter.

Context (py : interpreter).

(** The three ways of reading the price text, in the order tried.
    Outer [None]: the access raised; inner [None]: [price_text] stays
    [None]. *)
Definition read_price_text (el : price_element) : option (option str) :=
  match el with
  | Stale => None
  | Live text textContent innerHTML =>
      if truthy (strip py text) then Some (Some (strip py text))
      else if attr_truthy textContent then
        Some (strip py <$> textContent)
      else if attr_truthy innerHTML then
        Some ((fun html_content => strip py (remove_tags html_content))
                <$> innerHTML)
      else Some None
  end.

(** [re.search('[\d,]+', price_text.replace(',', ''))] followed by
    [int(match.group().replace(',', ''))]: the commas leave the text
    before the search.  [None]: no match, or [ValueError]. *)
Definition numeric_price (price_text : str) : option Z :=
  match search_run (is_digit_or_comma py) (remove_char comma price_text) with
  | Some group => int_of_digits py (remove_char comma group)
  | None => None
  end.

(** The body of the inner loop for one node: [Some] when it returns. *)
Definition price_of_text (selector : string) (price_text : str)
  : option price_data :=
  if truthy price_text then
    match numeric_price price_text with
    | Some price_value =>
        if in_price_range price_value then
          Some {| price := price_value;
                  original_text := price_text;
                  selector_used := selector |}
        else None
    | None => None
    end
  else None.

Fixpoint scan_price_elements (selector : string) (els : list price_element)
  : scan_result :=
  match els with
  | [] => Exhausted
  | el :: rest =>
      match read_price_text el with
      | None => Raised
      | Some None => scan_price_elements selector rest
      | Some (Some price_text) =>
          match price_of_text selector price_text with
          | Some r => Returned r
          | None => scan_price_elements selector rest
          end
      end
  end.

(** The outer loop: an exception inside the [try] moves to the next
    selector. *)
Fixpoint extract_with_selectors (product : product_element)
    (selectors : list string) : option price_data :=
  match selectors with
  | [] => None
  | selector :: rest =>
      match find_elements product selector with
      | None => extract_with_selectors product rest
      | Some els =>
          match scan_price_elements selector els with
          | Returned r => Some r
          | Exhausted | Raised => extract_with_selectors product rest
          end
      end
  end.

Definition extract_price_from_element (product_element : product_element)
  : option price_data :=
  extract_with_selectors product_element price_selectors.

(** [smart_price_extractor]: the records of the products that have one. *)
Fixpoint smart_price_extractor (product_elements : list product_element)
  : list price_data :=
  match product_elements with
  | [] => []
  | product :: rest =>
      match extract_price_from_element product with
      | Some price_data => price_data :: smart_price_extractor rest
      | None => smart_price_extractor rest
      end
  end.

(** The extracted integer as the specification words it: the first run of
    digits and commas of the text itself, commas stripped, parsed. *)
Definition spec_extracted_integer (price_text : str) : option Z :=
  match search_run (is_digit_or_comma py) price_text with
  | Some group => int_of_digits py (remove_char comma group)
  | None => None
  end.

End WithInterpreter.

(** A product element with one price node, found by the first selector,
    with the given visible text and [textContent]. *)
Definition product_with_node (text : str) (textContent : option str)
  : product_element :=
  {| find_elements := fun selector =>
       if String.eqb selector ".a-price-whole"
       then Some [Live text textContent None] else Some [] |}.

Definition product_with_text (text : string) : product_element :=
  product_with_node (literal text) None.

End Prices.

(* ===================================================================== *)
(** * utils/browser_config.py *)
(* ===================================================================== *)

Module BrowserConfig.

Import PyStr.

(** ** Browser options *)

Inductive option_value : Type :=
| Switches (names : list string)
| Flag (b : bool)
| Prefs (entries : list (string * Z)).

Record ChromeOptions : Type := {
  arguments : list string;
  experimental_options : list (string * option_value)
}.

Definition new_ChromeOptions : ChromeOptions :=
  {| arguments := []; experimental_options := [] |}.

Definition add_argument (argument : string) (o : ChromeOptions) : ChromeOptions :=
  {| arguments := arguments o ++ [argument];
     experimental_options := experimental_options o |}.

Definition add_experimental_option (name : string) (value : option_value)
    (o : ChromeOptions) : ChromeOptions :=
  {| arguments := arguments o;
     experimental_options := experimental_options o ++ [(name, value)] |}.

(** Statements in sequence, written in the order of the source. *)
Definition configure (steps : list (ChromeOptions -> ChromeOptions))
    (o : ChromeOptions) : ChromeOptions :=
  fold_left (fun acc step => step acc) steps o.

Definition get_visible_chrome_options : ChromeOptions :=
  configure
    [ add_argument "--start-maximized";
      add_argument "--force-device-scale-factor=1";
      add_argument "--disable-background-mode";
      add_argument "--disable-background-timer-throttling";
      add_argument "--disable-backgrounding-occluded-windows";
      add_argument "--disable-renderer-backgrounding";
      add_argument "--no-sandbox";
      add_argument "--disable-dev-shm-usage";
      add_argument "--disable-extensions";
      add_argument "--disable-blink-features=AutomationControlled";
      add_experimental_option "excludeSwitches" (Switches ["enable-automation"]);
      add_experimental_option "useAutomationExtension" (Flag false);
      add_argument "--disable-notifications";
      add_argument "--disable-popup-blocking";
      add_argument "--disable-default-apps";
      add_experimental_option "prefs"
        (Prefs
           [ ("profile.default_content_setting_values.notifications", 2%Z);
             ("profile.default_content_settings.popups", 0%Z);
             ("profile.managed_default_content_settings.images", 1%Z);
             ("profile.default_content_settings.multiple-automatic-downloads", 1%Z) ]) ]
    new_ChromeOptions.

(** The fallback options of [create_visible_chrome_driver]. *)
Definition minimal_options : ChromeOptions :=
  configure
    [ add_argument "--start-maximized";
      add_argument "--disable-blink-features=AutomationControlled";
      add_experimental_option "excludeSwitches" (Switches ["enable-automation"]) ]
    new_ChromeOptions.

Inductive exception : Type :=
| ValueError (message : string)
| WebDriverException.

Inductive result (A : Type) : Type :=
| Ok (a : A)
| Raise (e : exception).
Arguments Ok {A} a.
Arguments Raise {A} e.

Definition headless_message : string :=
  "HEADLESS MODE DETECTED! All tests must run with visible browser window".

Fixpoint scan_for_headless (args : list string) : result bool :=
  match args with
  | [] => Ok true
  | arg :: rest =>
      if contains (lower arg) "--headless"
      then Raise (ValueError headless_message)
      else scan_for_headless rest
  end.

Definition validate_no_headless_mode (chrome_options : ChromeOptions)
  : result bool :=
  scan_for_headless (arguments chrome_options).

(** An argument holds the headless flag in some capitalisation. *)
Definition has_headless_flag (arg : string) : Prop :=
  exists pre flag post,
    arg = pre ++ flag ++ post /\ lower flag = "--headless".

(** ** Single-tab enforcement *)

(** The driver as far as window management goes: the open window handles
    in the order the driver reports them, the window commands are sent to,
    and, for each command still to come, whether the driver fails on it for
    a reason of its own (a lost connection, a crashed browser). *)
Record driver : Type := {
  window_handles : list string;
  current_window : string;
  faults : list bool
}.

Definition M (A : Type) : Type := driver -> result A * driver.

Definition ret {A} (a : A) : M A := fun d => (Ok a, d).

Definition bind {A B} (m : M A) (k : A -> M B) : M B :=
  fun d =>
    match m d with
    | (Ok a, d') => k a d'
    | (Raise e, d') => (Raise e, d')
    end.

Notation "'let*' x := m 'in' k" := (bind m (fun x => k))
  (at level 10, x name, m at level 100, k at level 200).
Notation "m ;; k" := (bind m (fun _ => k))
  (at level 100, k at level 200, right associativity).

Definition is_open (h : string) (d : driver) : bool :=
  bool_decide (h ∈ window_handles d).

(** Every command first meets the driver's own failures. *)
Definition command {A} (body : driver -> result A * driver) : M A :=
  fun d =>
    match faults d with
    | true :: later =>
        (Raise WebDriverException,
         {| window_handles := window_handles d;
            current_window := current_window d;
            faults := later |})
    | false :: later =>
        body {| window_handles := window_handles d;
                current_window := current_window d;
                faults := later |}
    | [] => body d
    end.

(** [driver.execute_script(...)]: needs the current window to be open.
    The injected script rewires [window.open] and link targets of the
    page; it opens and closes no window. *)
Definition execute_script : M unit :=
  command (fun d =>
    if is_open (current_window d) d then (Ok tt, d)
    else (Raise WebDriverException, d)).

(** [driver.window_handles] *)
Definition get_window_handles : M (list string) :=
  command (fun d => (Ok (window_handles d), d)).

(** [driver.switch_to.window(handle)] *)
Definition switch_to_window (handle : string) : M unit :=
  command (fun d =>
    if is_open handle d then
      (Ok tt, {| window_handles := window_handles d;
                 current_window := handle;
                 faults := faults d |})
    else (Raise WebDriverException, d)).

(** [driver.close()]: closes the current window. *)
Definition close : M unit :=
  command (fun d =>
    if is_open (current_window d) d then
      (Ok tt, {| window_handles :=
                   List.filter (fun h => negb (String.eqb h (current_window d)))
                               (window_handles d);
                 current_window := current_window d;
                 faults := faults d |})
    else (Raise WebDriverException, d)).

(** [for handle in handles[1:]: switch_to.window(handle); close()] *)
Fixpoint close_each (handles : list string) : M unit :=
  match handles with
  | [] => ret tt
  | handle :: rest =>
      switch_to_window handle ;;
      close ;;
      close_each rest
  end.

(** The body of the [try]. *)
Definition enforce_body : M bool :=
  execute_script ;;
  let* handles := get_window_handles in
  match handles with
  | main_handle :: (second :: more) =>
      close_each (second :: more) ;;
      switch_to_window main_handle ;;
      ret true
  | _ => ret true
  end.

(** [enforce_single_tab_mode]: any exception of the body is logged and
    turned into [False]. *)
Definition enforce_single_tab_mode (d : driver) : bool * driver :=
  match enforce_body d with
  | (Ok b, d') => (b, d')
  | (Raise _, d') => (false, d')
  end.

End BrowserConfig.

(* ===================================================================== *)
(** * utils/enhanced_reporting.py *)
(* ===================================================================== *)

Module Reporting.

Import PyNum.

Local Open Scope Z_scope.

(** A naive [datetime], as microseconds on the local clock.  Where the
    source keeps the ISO-8601 text of a datetime, the model keeps the
    datetime. *)
Definition datetime : Type := Z.

(** [(b - a).total_seconds()] *)
Definition total_seconds_between (a b : datetime) : num :=
  truediv (Int (b - a)) (Int 1000000).

(** The file system as the reporter sees it: the paths that exist. *)
Definition filesystem : Type := gset string.

Definition path_exists (fs : filesystem) (path : string) : bool :=
  bool_decide (path ∈ fs).

Record test_result : Type := {
  test_name : string;
  status : string;
  duration : num;
  timestamp : datetime;
  error_message : option string;
  screenshot_path : option string
}.

Record metric : Type := {
  value : num;
  unit : string;
  metric_timestamp : datetime
}.

Record screenshot : Type := {
  path : string;
  description : string;
  shot_timestamp : datetime
}.

Record EnhancedReporter : Type := {
  test_results : list test_result;
  performance_metrics : list (string * metric);
  screenshots : list screenshot;
  start_time : option datetime;
  end_time : option datetime
}.

(** [__init__] *)
Definition new_reporter : EnhancedReporter :=
  {| test_results := []; performance_metrics := []; screenshots := [];
     start_time := None; end_time := None |}.

Definition start_session (now : datetime) (self : EnhancedReporter)
  : EnhancedReporter :=
  {| test_results := test_results self;
     performance_metrics := performance_metrics self;
     screenshots := screenshots self;
     start_time := Some now;
     end_time := end_time self |}.

Definition end_session (now : datetime) (self : EnhancedReporter)
  : EnhancedReporter :=
  {| test_results := test_results self;
     performance_metrics := performance_metrics self;
     screenshots := screenshots self;
     start_time := start_time self;
     end_time := Some now |}.

(** [duration or 0] *)
Definition duration_or_zero (duration : option num) : num :=
  match duration with
  | Some d => if truthy d then d else Int 0
  | None => Int 0
  end.

Definition add_test_result (now : datetime) (name status : string)
    (duration : option num) (error_message screenshot_path : option string)
    (self : EnhancedReporter) : EnhancedReporter :=
  {| test_results :=
       test_results self ++
         [ {| test_name := name;
              status := status;
              duration := duration_or_zero duration;
              timestamp := now;
              error_message := error_message;
              screenshot_path := screenshot_path |} ];
     performance_metrics := performance_metrics self;
     screenshots := screenshots self;
     start_time := start_time self;
     end_time := end_time self |}.

(** [d[k] = v] on an insertion-ordered dict. *)
Fixpoint dict_set {V : Type} (k : string) (v : V) (d : list (string * V))
  : list (string * V) :=
  match d with
  | [] => [(k, v)]
  | (k', v') :: rest =>
      if String.eqb k k' then (k, v) :: rest else (k', v') :: dict_set k v rest
  end.

Definition add_performance_metric (now : datetime) (metric_name : string)
    (value : num) (unit : string) (self : EnhancedReporter) : EnhancedReporter :=
  {| test_results := test_results self;
     performance_metrics :=
       dict_set metric_name
         {| value := value; unit := unit; metric_timestamp := now |}
         (performance_metrics self);
     screenshots := screenshots self;
     start_time := start_time self;
     end_time := end_time self |}.

Definition add_screenshot (fs : filesystem) (now : datetime)
    (path description : string) (self : EnhancedReporter) : EnhancedReporter :=
  if path_exists fs path then
    {| test_results := test_results self;
       performance_metrics := performance_metrics self;
       screenshots :=
         screenshots self ++
           [ {| path := path; description := description;
                shot_timestamp := now |} ];
       start_time := start_time self;
       end_time := end_time self |}
  else self.

(** [sum(1 for r in results if r["status"] == wanted)] *)
Definition count_status (wanted : string) (results : list test_result) : Z :=
  fold_left
    (fun acc r => if String.eqb (status r) wanted then acc + 1 else acc)
    results 0.

(** [len(results)] *)
Definition len {A : Type} (l : list A) : Z := Z.of_nat (length l).

(** ** The HTML report *)

Record html_summary : Type := {
  total_tests : Z;
  passed_tests : Z;
  failed_tests : Z;
  skipped_tests : Z;
  success_rate : num;
  total_duration : num;
  session_duration : num
}.

(** One row of the test list. *)
Record result_row : Type := {
  row_name : string;
  row_status : string;
  row_duration : num;
  row_error : option string;
  row_screenshot_link : option string
}.

(** One card of the screenshot gallery. *)
Record gallery_item : Type := {
  src : string;
  caption : string;
  item_timestamp : datetime
}.

(** The document: the summary cards, the rows, and the two optional
    sections (rendered only for a non-empty dict or list). *)
Record html_report : Type := {
  summary : html_summary;
  rows : list result_row;
  metric_cards : option (list (string * metric));
  gallery : option (list gallery_item)
}.

Definition html_summary_of (self : EnhancedReporter) : html_summary :=
  let total_tests := len (test_results self) in
  let passed_tests := count_status "passed" (test_results self) in
  let failed_tests := count_status "failed" (test_results self) in
  let skipped_tests := count_status "skipped" (test_results self) in
  let success_rate :=
    if 0 <? total_tests
    then mul (truediv (Int passed_tests) (Int total_tests)) (Int 100)
    else Int 0 in
  let total_duration := sum (map duration (test_results self)) in
  let session_duration :=
    match start_time self, end_time self with
    | Some s, Some e => total_seconds_between s e
    | _, _ => Int 0
    end in
  {| total_tests := total_tests;
     passed_tests := passed_tests;
     failed_tests := failed_tests;
     skipped_tests := skipped_tests;
     success_rate := success_rate;
     total_duration := total_duration;
     session_duration := session_duration |}.

Definition row_of (fs : filesystem) (result : test_result) : result_row :=
  {| row_name := test_name result;
     row_status := status result;
     row_duration := duration result;
     row_error :=
       match error_message result with
       | Some m => if PyStr.truthy m then Some m else None
       | None => None
       end;
     row_screenshot_link :=
       match screenshot_path result with
       | Some p => if PyStr.truthy p && path_exists fs p then Some p else None
       | None => None
       end |}.

(** [for screenshot in self.screenshots: if os.path.exists(...)] *)
Fixpoint gallery_items (fs : filesystem) (shots : list screenshot)
  : list gallery_item :=
  match shots with
  | [] => []
  | shot :: rest =>
      if path_exists fs (path shot) then
        {| src := path shot;
           caption := if PyStr.truthy (description shot)
                      then description shot else "Test Screenshot";
           item_timestamp := shot_timestamp shot |}
        :: gallery_items fs rest
      else gallery_items fs rest
  end.

(** [generate_enhanced_html_report], up to the document it writes. *)
Definition generate_enhanced_html_report (fs : filesystem)
    (self : EnhancedReporter) : html_report :=
  {| summary := html_summary_of self;
     rows := map (row_of fs) (test_results self);
     metric_cards :=
       match performance_metrics self with
       | [] => None
       | ms => Some ms
       end;
     gallery :=
       match screenshots self with
       | [] => None
       | shots => Some (gallery_items fs shots)
       end |}.

(** ** The JSON report *)

#[warnings="-register-all"]
Inductive json : Type :=
| JNull
| JNum (n : num)
| JStr (s : string)
| JTime (t : datetime)
| JArr (items : list json)
| JObj (fields : list (string * json)).

Definition json_opt {A : Type} (f : A -> json) (o : option A) : json :=
  match o with
  | Some a => f a
  | None => JNull
  end.

Definition result_json (r : test_result) : json :=
  JObj [ ("test_name", JStr (test_name r));
         ("status", JStr (status r));
         ("duration", JNum (duration r));
         ("timestamp", JTime (timestamp r));
         ("error_message", json_opt JStr (error_message r));
         ("screenshot_path", json_opt JStr (screenshot_path r)) ].

Definition metric_json (m : metric) : json :=
  JObj [ ("value", JNum (value m));
         ("unit", JStr (unit m));
         ("timestamp", JTime (metric_timestamp m)) ].

Definition screenshot_json (s : screenshot) : json :=
  JObj [ ("path", JStr (path s));
         ("description", JStr (description s));
         ("timestamp", JTime (shot_timestamp s)) ].

(** [generate_json_report], up to [report_data]. *)
Definition generate_json_report (self : EnhancedReporter) : json :=
  JObj
    [ ("session",
       JObj [ ("start_time", json_opt JTime (start_time self));
              ("end_time", json_opt JTime (end_time self));
              ("duration",
               JNum match start_time self, end_time self with
                    | Some s, Some e => total_seconds_between s e
                    | _, _ => Int 0
                    end) ]);
      ("summary",
       JObj [ ("total_tests", JNum (Int (len (test_results self))));
              ("passed", JNum (Int (count_status "passed" (test_results self))));
              ("failed", JNum (Int (count_status "failed" (test_results self))));
              ("skipped", JNum (Int (count_status "skipped" (test_results self))));
              ("success_rate",
               JNum match test_results self with
                    | [] => Int 0
                    | _ =>
                        mul (truediv
                               (Int (count_status "passed" (test_results self)))
                               (Int (len (test_results self))))
                            (Int 100)
                    end) ]);
      ("test_results", JArr (map result_json (test_results self)));
      ("performance_metrics",
       JObj (map (fun kv => (fst kv, metric_json (snd kv)))
                 (performance_metrics self)));
      ("screenshots", JArr (map screenshot_json (screenshots self))) ].

(** [obj[key]] *)
Fixpoint assoc {V : Type} (key : string) (fields : list (string * V))
  : option V :=
  match fields with
  | [] => None
  | (k, v) :: rest => if String.eqb k key then Some v else assoc key rest
  end.

Definition get (key : string) (j : json) : option json :=
  match j with
  | JObj fields => assoc key fields
  | _ => None
  end.

(** [report[section][key]] when it is a number. *)
Definition report_number (section key : string) (report : json) : option num :=
  match get section report with
  | Some s =>
      match get key s with
      | Some (JNum n) => Some n
      | _ => None
      end
  | None => None
  end.

(** The numbers of a JSON object, whatever their keys. *)
Definition numbers_of (j : json) : list num :=
  match j with
  | JObj fields =>
      omap (fun kv => match snd kv with JNum n => Some n | _ => None end) fields
  | _ => []
  end.

(** [report[name]], [JNull] when absent. *)
Definition section (name : string) (report : json) : json :=
  default JNull (get name report).

(** The results with a given status. *)
Definition with_status (wanted : string) (results : list test_result)
  : list test_result :=
  List.filter (fun r => String.eqb (status r) wanted) results.

(** The double 50.0. *)
Definition fifty : num := Float (float_of_int 50).

(** A session of four tests with the statuses passed, passed, failed and
    skipped, three seconds each, that lasted twenty seconds. *)
Definition sample_session : EnhancedReporter :=
  end_session 20000000
    (add_test_result 4 "test_d" "skipped" (Some (Int 3)) None None
    (add_test_result 3 "test_c" "failed" (Some (Int 3)) (Some "boom") None
    (add_test_result 2 "test_b" "passed" (Some (Int 3)) None None
    (add_test_result 1 "test_a" "passed" (Some (Int 3)) None None
    (start_session 0 new_reporter))))).

End Reporting.

(* ===================================================================== *)
(** * tests/test_amazon_complete.py: the price-accuracy validators *)
(* ===================================================================== *)

Module Validators.

Import PyNum.

Local Open Scope Z_scope.

(** What a dict holds under a key: nothing, [None], or a value. *)
Inductive field (A : Type) : Type :=
| Missing
| Null
| Value (a : A).
Arguments Missing {A}.
Arguments Null {A}.
Arguments Value {A} a.

(** A product dict, as far as the validators read it. *)
Record product : Type := {
  title : field string;
  price : field num
}.

#[warnings="-register-all"]
Inductive value : Type :=
| VNum (n : num)
| VStr (s : string)
| VBool (b : bool)
| VList (items : list value)
| VDict (entries : list (string * value)).

Definition dict : Type := list (string * value).

Inductive exception : Type :=
| TypeError.

Inductive result (A : Type) : Type :=
| Ok (a : A)
| Raise (e : exception).
Arguments Ok {A} a.
Arguments Raise {A} e.

(** [d[key]] for a key that may be absent. *)
Fixpoint lookup (key : string) (d : dict) : option value :=
  match d with
  | [] => None
  | (k, v) :: rest => if String.eqb k key then Some v else lookup key rest
  end.

(** [key in d] *)
Definition has_key (key : string) (d : dict) : bool :=
  match lookup key d with
  | Some _ => true
  | None => false
  end.

Definition len {A : Type} (l : list A) : Z := Z.of_nat (length l).

(** [product.get("price")] when it is truthy. *)
Definition truthy_price (p : product) : option num :=
  match price p with
  | Value n => if truthy n then Some n else None
  | _ => None
  end.

(** [product.get("title", "Unknown")[:50]]: the default covers a missing
    key only; slicing [None] raises. *)
Definition title_prefix (p : product) : result string :=
  match title p with
  | Missing => Ok (PyStr.slice_to 50 "Unknown")
  | Null => Raise TypeError
  | Value s => Ok (PyStr.slice_to 50 s)
  end.

(** [expected_max_price + expected_max_price * (tolerance_percent / 100)] *)
Definition max_allowed (expected_max_price tolerance_percent : num) : num :=
  let tolerance_amount :=
    mul expected_max_price (truediv tolerance_percent (Int 100)) in
  add expected_max_price tolerance_amount.

(** The loop over the products, with the two lists it appends to. *)
Fixpoint partition_prices (products_data : list product)
    (max_allowed expected_max_price : num)
    (valid_prices : list num) (invalid_prices : list dict)
  : result (list num * list dict) :=
  match products_data with
  | [] => Ok (valid_prices, invalid_prices)
  | product :: rest =>
      match truthy_price product with
      | Some p =>
          if le p max_allowed then
            partition_prices rest max_allowed expected_max_price
              (valid_prices ++ [p]) invalid_prices
          else
            match title_prefix product with
            | Raise e => Raise e
            | Ok t =>
                partition_prices rest max_allowed expected_max_price
                  valid_prices
                  (invalid_prices ++
                     [ [ ("title", VStr t);
                         ("price", VNum p);
                         ("expected_max", VNum expected_max_price) ] ])
            end
      | None =>
          partition_prices rest max_allowed expected_max_price
            valid_prices invalid_prices
      end
  end.

(** [len(valid_prices) / total_with_prices * 100 if total_with_prices > 0 else 0] *)
Definition accuracy_of (valid_count total_with_prices : Z) : num :=
  if 0 <? total_with_prices
  then mul (truediv (Int valid_count) (Int total_with_prices)) (Int 100)
  else Int 0.

(** The report both validators build after the loop. *)
Definition report (products_data : list product)
    (valid_prices : list num) (invalid_prices : list dict)
    (accuracy : num) (passed : bool) : dict :=
  [ ("accuracy", VNum accuracy);
    ("valid_count", VNum (Int (len valid_prices)));
    ("invalid_count", VNum (Int (len invalid_prices)));
    ("total_products", VNum (Int (len products_data)));
    ("products_with_prices",
     VNum (Int (len valid_prices + len invalid_prices)));
    ("invalid_products", VList (map VDict (take 3 invalid_prices)));
    ("passed", VBool passed) ].

(** [validate_price_accuracy], default [tolerance_percent=25]. *)
Definition validate_price_accuracy (products_data : list product)
    (expected_max_price tolerance_percent : num) : result dict :=
  match products_data with
  | [] => Ok [ ("accuracy", VNum (Int 0));
               ("details", VStr "No products to validate") ]
  | _ =>
      match partition_prices products_data
              (max_allowed expected_max_price tolerance_percent)
              expected_max_price [] [] with
      | Raise e => Raise e
      | Ok (valid_prices, invalid_prices) =>
          let total_with_prices := len valid_prices + len invalid_prices in
          let accuracy := accuracy_of (len valid_prices) total_with_prices in
          Ok (report products_data valid_prices invalid_prices accuracy
                (ge accuracy (Int 70)))
      end
  end.

(** [validate_price_accuracy_enhanced], default [tolerance_percent=30]. *)
Definition validate_price_accuracy_enhanced (products_data : list product)
    (expected_max_price tolerance_percent : num) : result dict :=
  match products_data with
  | [] => Ok [ ("accuracy", VNum (Int 0));
               ("details", VStr "No products to validate");
               ("passed", VBool false) ]
  | _ =>
      match partition_prices products_data
              (max_allowed expected_max_price tolerance_percent)
              expected_max_price [] [] with
      | Raise e => Raise e
      | Ok (valid_prices, invalid_prices) =>
          let total_with_prices := len valid_prices + len invalid_prices in
          let accuracy := accuracy_of (len valid_prices) total_with_prices in
          let passed := ge accuracy (Int 40) || (2 <=? len valid_prices) in
          Ok (report products_data valid_prices invalid_prices accuracy passed)
      end
  end.

(** The truthy prices that are at most the ceiling, in order. *)
Definition prices_within (ceiling : num) (products_data : list product)
  : list num :=
  omap (fun p => match truthy_price p with
                 | Some n => if le n ceiling then Some n else None
                 | None => None
                 end) products_data.

(** The products whose truthy price is above the ceiling. *)
Definition over_ceiling (ceiling : num) (p : product) : bool :=
  match truthy_price p with
  | Some n => negb (le n ceiling)
  | None => false
  end.

Definition products_over (ceiling : num) (products_data : list product)
  : list product :=
  List.filter (over_ceiling ceiling) products_data.

(** The title of the product is not [None]. *)
Definition titled (p : product) : bool :=
  match title p with
  | Null => false
  | _ => true
  end.

(** Every product above the ceiling has a title that is not [None]. *)
Definition all_titled_over (ceiling : num) (products_data : list product)
  : Prop :=
  forall p, p ∈ products_data ->
    over_ceiling ceiling p = true -> titled p = true.

(** The entry recorded for a product above the ceiling. *)
Definition invalid_entry (expected_max_price : num) (p : product) : dict :=
  [ ("title", VStr match title p with
                   | Value s => PyStr.slice_to 50 s
                   | _ => PyStr.slice_to 50 "Unknown"
                   end);
    ("price", VNum match truthy_price p with
                   | Some n => n
                   | None => Int 0
                   end);
    ("expected_max", VNum expected_max_price) ].

(** A number that is not an infinity or a NaN. *)
Definition finite (a : num) : bool :=
  match a with
  | Int _ => true
  | Float f => is_finite f
  end.

(** The double 100.0. *)
Definition hundred : num := Float (float_of_int 100).

Definition default_tolerance : num := Int 25.
Definition default_tolerance_enhanced : num := Int 30.

(** A product dict with a title and an integer price. *)
Definition priced (name : string) (p : Z) : product :=
  {| title := Value name; price := Value (Int p) |}.

End Validators.

(* ===================================================================== *)
(** * tests/test_amazon_complete.py: the combined workflow test *)
(* ===================================================================== *)

Module Workflow.

Import PyNum.

Local Open Scope Z_scope.

Definition len {A : Type} (l : list A) : Z := Z.of_nat (length l).

(** [product.get("price")] is truthy. *)
Definition has_price (p : Validators.product) : bool :=
  match Validators.truthy_price p with
  | Some _ => true
  | None => false
  end.

(** [sum(1 for p in products_data if p.get("price"))] *)
Definition products_with_prices (products_data : list Validators.product) : Z :=
  fold_left
    (fun acc p =>
       match Validators.truthy_price p with
       | Some _ => acc + 1
       | None => acc
       end)
    products_data 0.

(** What the first three phases measured. *)
Record measurements : Type := {
  basic_products : Z;          (* len(basic_products) *)
  products_data : list Validators.product;
  interaction_score : Z
}.

Record phase_flags : Type := {
  basic_success : bool;
  advanced_success : bool;
  interaction_success : bool;
  price_data_success : bool
}.

Definition flags_of (m : measurements) : phase_flags :=
  {| basic_success := 1 <=? basic_products m;
     advanced_success := 1 <=? len (products_data m);
     interaction_success := 1 <=? interaction_score m;
     price_data_success :=
       (1 <=? products_with_prices (products_data m))
       || (3 <=? len (products_data m)) |}.

(** [sum([...])] of booleans: [True] counts 1. *)
Definition total_phases_passed (f : phase_flags) : Z :=
  fold_left (fun acc (b : bool) => acc + (if b then 1 else 0))
    [ basic_success f; advanced_success f;
      interaction_success f; price_data_success f ] 0.

(** The number of flags that are set. *)
Definition flags_set (f : phase_flags) : nat :=
  length (List.filter (fun b : bool => b)
            [ basic_success f; advanced_success f;
              interaction_success f; price_data_success f ]).

(** [assert total_phases_passed >= 3] *)
Definition phase4_passes (f : phase_flags) : bool :=
  3 <=? total_phases_passed f.

Inductive outcome : Type :=
| TestPassed
| AssertionError (message : string).

(** The assertions of the test from the end of Phase 1 on, in order. *)
Definition workflow_assertions (m : measurements) : outcome :=
  if negb (1 <=? basic_products m) then
    AssertionError "Basic search failed"
  else if negb (1 <=? len (products_data m)) then
    AssertionError "Advanced data extraction failed"
  else if negb (1 <=? interaction_score m) then
    AssertionError "Mouse interactions failed"
  else if negb (phase4_passes (flags_of m)) then
    AssertionError "Insufficient workflow success"
  else TestPassed.

End Workflow.

(* ===================================================================== *)
(** * run_tests.py *)
(* ===================================================================== *)

Module Runner.

Local Open Scope Z_scope.

(** What a child process ended with: [subprocess.run(cmd)] gives a
    [CompletedProcess] carrying [returncode], or raises when the program
    cannot be started. *)
Inductive launch : Type :=
| Completed (returncode : Z)
| CannotStart.

(** The machine the runner is started on. *)
Record environment : Type := {
  version_info : Z * Z;                 (* (major, minor) *)
  importable : string -> bool;          (* does [__import__(name)] succeed *)
  subprocess_run : list string -> launch;
  clock : string                        (* now, as '%Y%m%d_%H%M%S' *)
}.

(** The effects of a run that are recorded; printing is left out. *)
Inductive event : Type :=
| Makedirs (directory : string)
| Launched (cmd : list string).

Record state : Type := {
  stdin : list string;      (* the lines [input()] is still to read *)
  existing : gset string;   (* the paths that exist *)
  files : gset string;      (* those of them that are regular files *)
  trace : list event        (* oldest first *)
}.

Inductive exception : Type :=
| EOFError
| OSError
| FileExistsError
| NotADirectoryError.

Inductive result (A : Type) : Type :=
| Ok (a : A)
| Raise (e : exception).
Arguments Ok {A} a.
Arguments Raise {A} e.

Definition log (e : event) (st : state) : state :=
  {| stdin := stdin st; existing := existing st; files := files st;
     trace := trace st ++ [e] |}.

(** [sys.version_info < (3, 8)] *)
Definition version_too_old (v : Z * Z) : bool :=
  (fst v <? 3) || ((fst v =? 3) && (snd v <? 8)).

Definition required_packages : list string :=
  ["pytest"; "selenium"; "webdriver_manager"].

Definition test_files : list string :=
  ["tests/test_amazon_complete.py"; "utils/browser_config.py"].

Definition directories : list string :=
  ["screenshots"; "reports"; "logs"].

(** [os.makedirs(directory, exist_ok=True)]: a directory of that name
    may exist, a regular file may not. *)
Definition makedirs (directory : string) (st : state) : result unit * state :=
  if bool_decide (directory ∈ files st) then (Raise FileExistsError, st)
  else
    (Ok tt,
     log (Makedirs directory)
         {| stdin := stdin st;
            existing := {[ directory ]} ∪ existing st;
            files := files st;
            trace := trace st |}).

(** [for directory in ...: os.makedirs(directory, exist_ok=True)] *)
Fixpoint make_directories (names : list string) (st : state)
  : result unit * state :=
  match names with
  | [] => (Ok tt, st)
  | directory :: rest =>
      match makedirs directory st with
      | (Ok _, st1) => make_directories rest st1
      | (Raise e, st1) => (Raise e, st1)
      end
  end.

(** [check_environment] *)
Definition check_environment (env : environment) (st : state)
  : result bool * state :=
  if version_too_old (version_info env) then (Ok false, st)
  else if negb (forallb (importable env) required_packages) then (Ok false, st)
  else if negb (forallb (fun file_path => bool_decide (file_path ∈ existing st))
                        test_files)
  then (Ok false, st)
  else match make_directories directories st with
       | (Ok _, st1) => (Ok true, st1)
       | (Raise e, st1) => (Raise e, st1)
       end.

Definition run (env : environment) (cmd : list string) (st : state)
  : result Z * state :=
  match subprocess_run env cmd with
  | Completed returncode => (Ok returncode, log (Launched cmd) st)
  | CannotStart => (Raise OSError, log (Launched cmd) st)
  end.

Definition run_basic_tests (env : environment) : state -> result Z * state :=
  run env
    [ "pytest"; "tests/test_amazon_complete.py::TestAmazonBasic";
      "-m"; "basic"; "-v"; "--tb=short";
      "--html=reports/basic_test_report_" ++ clock env ++ ".html";
      "--self-contained-html" ].

Definition run_advanced_tests (env : environment) : state -> result Z * state :=
  run env
    [ "pytest"; "tests/test_amazon_complete.py::TestAmazonAdvanced";
      "-m"; "advanced"; "-v"; "--tb=short";
      "--html=reports/advanced_test_report_" ++ clock env ++ ".html";
      "--self-contained-html" ].

Definition run_both_tests (env : environment) : state -> result Z * state :=
  run env
    [ "pytest"; "tests/test_amazon_complete.py";
      "-v"; "--tb=short";
      "--html=reports/complete_test_report_" ++ clock env ++ ".html";
      "--self-contained-html" ].

(** [run_specific_test_category] for one of the three categories. *)
Definition run_specific_test_category (env : environment)
    (test_class test_name : string) : state -> result Z * state :=
  run env
    [ "pytest";
      "tests/test_amazon_complete.py::" ++ test_class ++ "::" ++ test_name;
      "-v"; "--tb=short"; "-s" ].

(** [input(...).strip()] *)
Definition input (st : state) : result string * state :=
  match stdin st with
  | [] => (Raise EOFError, st)
  | line :: rest =>
      (Ok (PyStr.strip line),
       {| stdin := rest; existing := existing st; files := files st;
          trace := trace st |})
  end.

Definition basic_tests : list string :=
  [ "test_homepage_load"; "test_basic_search"; "test_product_page_navigation" ].

Definition advanced_tests : list string :=
  [ "test_comprehensive_search_with_categories";
    "test_advanced_price_validation_with_accuracy";
    "test_advanced_product_interaction_with_mouse_automation";
    "test_performance_and_comprehensive_validation";
    "test_location_and_language_testing";
    "test_authentication_flow_simulation";
    "test_comprehensive_filter_testing";
    "test_edge_case_search_handling";
    "test_advanced_redirection_testing";
    "test_comprehensive_otp_login_simulation";
    "test_advanced_language_changing";
    "test_comprehensive_location_changing" ].

(** The test at position [choice] (1-based, written in decimal) of a menu. *)
Fixpoint menu_pick (position : Z) (choice : string) (tests : list string)
  : option string :=
  match tests with
  | [] => None
  | test_name :: rest =>
      if String.eqb choice (pretty position) then Some test_name
      else menu_pick (position + 1) choice rest
  end.

(** One pass through the selection menu: [Some] when the function is done
    (it returned or raised), [None] when the loop goes round again. *)
Definition selection_step (env : environment) (st : state)
  : option (result unit) * state :=
  match input st with
  | (Raise e, st1) => (Some (Raise e), st1)
  | (Ok category_choice, st1) =>
      let pick test_class tests :=
        match input st1 with
        | (Raise e, st2) => (Some (Raise e), st2)
        | (Ok test_choice, st2) =>
            match menu_pick 1 test_choice tests with
            | Some test_name =>
                match run_specific_test_category env test_class test_name st2 with
                | (Ok _, st3) => (Some (Ok tt), st3)
                | (Raise e, st3) => (Some (Raise e), st3)
                end
            | None => (None, st2)
            end
        end in
      if String.eqb category_choice "0" then (Some (Ok tt), st1)
      else if String.eqb category_choice "1" then pick "TestAmazonBasic" basic_tests
      else if String.eqb category_choice "2" then pick "TestAmazonAdvanced" advanced_tests
      else if String.eqb category_choice "3" then
        pick "TestAmazonBoth" ["test_complete_workflow_basic_to_advanced"]
      else (None, st1)
  end.

(** [handle_specific_test_selection]: every pass reads a line, so the
    number of lines left bounds the passes. *)
Fixpoint selection_loop (fuel : nat) (env : environment) (st : state)
  : result unit * state :=
  match selection_step env st with
  | (Some r, st') => (r, st')
  | (None, st') =>
      match fuel with
      | O => (Raise EOFError, st')
      | S fuel' => selection_loop fuel' env st'
      end
  end.

Definition handle_specific_test_selection (env : environment) (st : state)
  : result unit * state :=
  selection_loop (length (stdin st)) env st.

(** [p] names an entry of [directory]: [directory/name]. *)
Definition directly_inside (directory p : string) : bool :=
  PyStr.startswith p (directory ++ "/")
  && PyStr.truthy (PyStr.slice_from (String.length directory + 1) p)
  && negb (PyStr.contains
             (PyStr.slice_from (String.length directory + 1) p) "/").

(** The body of the loop of [clean_artifacts] for one directory:
    [os.listdir] raises when the name is that of a regular file; the
    regular files among the entries are removed. *)
Definition clean_directory (directory : string) (st : state)
  : result unit * state :=
  if bool_decide (directory ∈ existing st) then
    if bool_decide (directory ∈ files st) then (Raise NotADirectoryError, st)
    else
      let removed :=
        filter (fun p => directly_inside directory p = true) (files st) in
      (Ok tt,
       {| stdin := stdin st;
          existing := existing st ∖ removed;
          files := files st ∖ removed;
          trace := trace st |})
  else (Ok tt, st).

(** [clean_artifacts] *)
Definition clean_artifacts (st : state) : result unit * state :=
  match clean_directory "reports" st with
  | (Ok _, st1) => clean_directory "screenshots" st1
  | (Raise e, st1) => (Raise e, st1)
  end.

(** The body of the [try] of the interactive loop for one choice.
    [Ok true]: the loop ends ([break]); [Ok false]: it goes on. *)
Definition dispatch (env : environment) (choice : string) (st : state)
  : result bool * state :=
  let ignore (r : result Z * state) : result unit * state :=
    match r with
    | (Ok _, st') => (Ok tt, st')
    | (Raise e, st') => (Raise e, st')
    end in
  let body : result bool * state :=
    match
      (if String.eqb choice "1" then ignore (run_basic_tests env st)
       else if String.eqb choice "2" then ignore (run_advanced_tests env st)
       else if String.eqb choice "3" then ignore (run_both_tests env st)
       else if String.eqb choice "4" then handle_specific_test_selection env st
       else if String.eqb choice "5" then (Ok tt, st)
       else if String.eqb choice "6" then
         match check_environment env st with
         | (Ok _, st') => (Ok tt, st')
         | (Raise e, st') => (Raise e, st')
         end
       else if String.eqb choice "7" then clean_artifacts st
       else (Ok tt, st))
    with
    | (Ok _, st') => (Ok (String.eqb choice "0"), st')
    | (Raise e, st') => (Raise e, st')
    end in
  match body with
  | (Ok true, st') => (Ok true, st')
  | (Ok false, st') =>
      (* [if choice in ["1","2","3","4"] and choice != "4": input(...)] *)
      if String.eqb choice "1" || String.eqb choice "2" || String.eqb choice "3"
      then match input st' with
           | (Ok _, st'') => (Ok false, st'')
           | (Raise e, st'') => (Raise e, st'')
           end
      else (Ok false, st')
  | (Raise e, st') => (Raise e, st')
  end.

(** One pass of [while True]: the choice is read outside the [try]; an
    exception inside it is reported and followed by a pause, itself
    outside any handler. *)
Definition interactive_step (env : environment) (st : state)
  : option (result Z) * state :=
  match input st with
  | (Raise e, st1) => (Some (Raise e), st1)
  | (Ok choice, st1) =>
      match dispatch env choice st1 with
      | (Ok true, st2) => (Some (Ok 0), st2)
      | (Ok false, st2) => (None, st2)
      | (Raise _, st2) =>
          match input st2 with
          | (Ok _, st3) => (None, st3)
          | (Raise e, st3) => (Some (Raise e), st3)
          end
      end
  end.

Fixpoint interactive_loop (fuel : nat) (env : environment) (st : state)
  : result Z * state :=
  match interactive_step env st with
  | (Some r, st') => (r, st')
  | (None, st') =>
      match fuel with
      | O => (Raise EOFError, st')
      | S fuel' => interactive_loop fuel' env st'
      end
  end.

(** [main], given [sys.argv]. *)
Definition main (env : environment) (argv : list string) (st : state)
  : result Z * state :=
  match check_environment env st with
  | (Raise e, st1) => (Raise e, st1)
  | (Ok false, st1) => (Ok 1, st1)
  | (Ok true, st1) =>
      match argv with
      | _ :: a :: _ =>
          let arg := PyStr.lower a in
          if String.eqb arg "--basic" then run_basic_tests env st1
          else if String.eqb arg "--advanced" then run_advanced_tests env st1
          else if String.eqb arg "--both" || String.eqb arg "--all"
          then run_both_tests env st1
          else (Ok 1, st1)
      | _ => interactive_loop (length (stdin st1)) env st1
      end
  end.

(** The flags [main] knows, compared after [lower()]. *)
Definition recognized_flag (a : string) : bool :=
  let arg := PyStr.lower a in
  String.eqb arg "--basic" || String.eqb arg "--advanced"
  || String.eqb arg "--both" || String.eqb arg "--all".

(** [sys.exit(main())]: the status the process ends with.  An integer
    is cut to its low eight bits; an uncaught exception gives 1. *)
Definition exit_status (r : result Z) : Z :=
  match r with
  | Ok code => code mod 256
  | Raise _ => 1
  end.

Definition cli (env : environment) (argv : list string) (st : state)
  : Z * state :=
  let (r, st') := main env argv st in (exit_status r, st').

(** A machine that passes the pre-flight check, on which every test run
    ends with return code 2. *)
Definition sample_environment : environment :=
  {| version_info := (3, 11);
     importable := fun _ => true;
     subprocess_run := fun _ => Completed 2;
     clock := "20240101_093000" |}.

Definition sample_state (lines : list string) : state :=
  {| stdin := lines;
     existing := {[ "tests/test_amazon_complete.py"; "utils/browser_config.py" ]};
     files := {[ "tests/test_amazon_complete.py"; "utils/browser_config.py" ]};
     trace := [] |}.

(** The same machine with a regular file named [reports] in the working
    directory. *)
Definition blocked_state : state :=
  {| stdin := [];
     existing := {[ "tests/test_amazon_complete.py"; "utils/browser_config.py";
                    "reports" ]};
     files := {[ "tests/test_amazon_complete.py"; "utils/browser_config.py";
                 "reports" ]};
     trace := [] |}.

(** The lines [input()] has still to read. *)
Definition lines_left (st : state) : nat := length (stdin st).

(** The commands a run launched. *)
Definition launches (st : state) : list (list string) :=
  omap (fun e => match e with Launched cmd => Some cmd | _ => None end)
       (trace st).

End Runner.

(* ===================================================================== *)
(** * tests/test_amazon_complete.py: the extractors of the advanced suite *)
(* ===================================================================== *)

Module Suite.

Import PyStr Helpers.

Local Open Scope Z_scope.

(** [product_element.find_element(By.CSS_SELECTOR, selector)] *)
Inductive lookup : Type :=
| NoSuchElement
| DriverError                    (* any other driver exception *)
| Found (el : price_element).

Record product_node : Type := {
  find_element : string -> lookup
}.

(** How a call ends: with a value, or with an exception no handler of the
    function catches. *)
Inductive outcome (A : Type) : Type :=
| Return (a : A)
| Uncaught.
Arguments Return {A} a.
Arguments Uncaught {A}.

(** What the [try] body of one selector comes to. *)
Inductive attempt (A : Type) : Type :=
| Got (a : A)          (* the function returns [a] *)
| Next                 (* fall through, or a caught exception: [continue] *)
| Escapes.             (* an exception the [except] clause does not name *)
Arguments Got {A} a.
Arguments Next {A}.
Arguments Escapes {A}.

(** [element.text.strip() or element.get_attribute("textContent").strip()]:
    [None] stands for the [AttributeError] of [None.strip()]. *)
Definition text_or_content (el : price_element) : attempt string :=
  match el with
  | Stale => Escapes
  | Live text textContent _ =>
      if truthy (strip text) then Got (strip text)
      else match textContent with
           | Some content => Got (strip content)
           | None => Next
           end
  end.

Definition legacy_price_selectors : list string :=
  [ ".a-price-whole";
    ".a-price .a-offscreen";
    ".a-price-range .a-offscreen";
    ".a-price-symbol + .a-price-whole" ].

(** The body of the loop of [extract_product_price] for a character class
    [in_class] of the search: [re.search('[...]+', text.replace(',', ''))],
    then [int(group.replace(',', ''))] and the range check. *)
Definition price_attempt (in_class : ascii -> bool) (product : product_node)
    (selector : string) : attempt Z :=
  match find_element product selector with
  | NoSuchElement => Next
  | DriverError => Escapes
  | Found element =>
      match text_or_content element with
      | Escapes => Escapes
      | Next => Next
      | Got price_text =>
          match search_run in_class (remove_char ","%char price_text) with
          | None => Next
          | Some group =>
              match int_of_string (remove_char ","%char group) with
              | None => Next                      (* ValueError *)
              | Some price =>
                  if (50 <=? price) && (price <=? 1000000)
                  then Got price else Next
              end
          end
      end
  end.

Fixpoint price_loop (in_class : ascii -> bool) (product : product_node)
    (selectors : list string) : outcome (option Z) :=
  match selectors with
  | [] => Return None
  | selector :: rest =>
      match price_attempt in_class product selector with
      | Got price => Return (Some price)
      | Next => price_loop in_class product rest
      | Escapes => Uncaught
      end
  end.

(** The class of the pattern [r'[\\d,]+'] of the suite: in a raw string
    the two backslashes are an escaped backslash, so the class holds the
    backslash, the letter d and the comma. *)
Definition is_backslash_d_or_comma (c : ascii) : bool :=
  Ascii.eqb c "\"%char || Ascii.eqb c "d"%char || Ascii.eqb c ","%char.

(** [TestAmazonAdvanced.extract_product_price] *)
Definition extract_product_price (product : product_node) : outcome (option Z) :=
  price_loop is_backslash_d_or_comma product legacy_price_selectors.

(** The same method in [tests/test_amazon_complete_backup.py], whose
    pattern is [r'[\d,]+']. *)
Definition backup_extract_product_price (product : product_node)
  : outcome (option Z) :=
  price_loop is_digit_or_comma product legacy_price_selectors.

(** A product whose whole-price node shows [text]. *)
Definition node_with_text (text : string) : product_node :=
  {| find_element := fun selector =>
       if String.eqb selector ".a-price-whole"
       then Found (Live text None None) else NoSuchElement |}.

End Suite.


(* ===================================================================== *)
(** * utils/test_helpers.py: navigation and clicks in a single tab *)
(* ===================================================================== *)

Module Navigation.

Import BrowserConfig.

(** A page, while it loads or handles a click, may open windows of its
    own: [opened] are their handles, appended to the driver's list. *)
Definition open_windows (opened : list string) (d : driver) : driver :=
  {| window_handles := window_handles d ++ opened;
     current_window := current_window d;
     faults := faults d |}.

(** [driver.get(url)]: loads the page in the current window, which must
    be open. *)
Definition get (url : string) (opened : list string) : M unit :=
  command (fun d =>
    if is_open (current_window d) d then (Ok tt, open_windows opened d)
    else (Raise WebDriverException, d)).

(** [driver.execute_script("arguments[0].click();", element)] *)
Definition script_click (opened : list string) : M unit :=
  command (fun d =>
    if is_open (current_window d) d then (Ok tt, open_windows opened d)
    else (Raise WebDriverException, d)).

(** [navigate_single_tab]: the verdicts of the two enforcements are not
    looked at; only an exception, which [driver.get] alone can raise,
    gives [False]. *)
Definition navigate_single_tab (url : string) (opened : list string)
    (d : driver) : bool * driver :=
  let (_, d1) := enforce_single_tab_mode d in
  match get url opened d1 with
  | (Ok _, d2) =>
      let (_, d3) := enforce_single_tab_mode d2 in (true, d3)
  | (Raise _, d2) => (false, d2)
  end.

(** [click_element_single_tab] *)
Definition click_element_single_tab (opened : list string) (d : driver)
  : bool * driver :=
  let (_, d1) := enforce_single_tab_mode d in
  match script_click opened d1 with
  | (Ok _, d2) =>
      let (_, d3) := enforce_single_tab_mode d2 in (true, d3)
  | (Raise _, d2) => (false, d2)
  end.

(** A driver that does not fail on its own, with distinct open handles
    and its current window among them. *)
Definition healthy (d : driver) : Prop :=
  faults d = [] /\ NoDup (window_handles d) /\
  current_window d ∈ window_handles d.

(** The list [l'] descends from [l]: both start with the window [main]
    and the rest of [l'] is what is left of the rest of [l], in order. *)
Definition keeps (main : string) (l l' : list string) : Prop :=
  exists rest rest',
    l = main :: rest /\ l' = main :: rest' /\ sublist rest' rest.

End Navigation.


(* ===================================================================== *)
(** * tests/conftest.py: the hook that feeds the reporter *)
(* ===================================================================== *)

Module Conftest.

Import PyNum Reporting.

Local Open Scope Z_scope.

(** [rep.outcome]: [rep.passed], [rep.failed] and [rep.skipped] each
    compare it with one of the three words. *)
Inductive outcome : Type := Passed | Failed | Skipped.

(** A test report.  [longrepr] is [None] or an object, given by its
    truthiness and the text [str()] makes of it. *)
Record TestReport : Type := {
  when : string;
  rep_outcome : outcome;
  longrepr : option (bool * string)
}.

(** A test item: its name, and whether it has a [funcargs] attribute
    holding [browser_setup]. *)
Record Item : Type := {
  name : string;
  has_browser : bool
}.

(** What the hook works on: the files and the global reporter. *)
Record session : Type := {
  files : filesystem;
  reporter : EnhancedReporter
}.

Inductive hook_result : Type :=
| Done (s : session)
| Raised (s : session).

(** [str(rep.longrepr) if rep.longrepr else fallback] *)
Definition longrepr_or (fallback : option string) (rep : TestReport)
  : option string :=
  match longrepr rep with
  | Some (true, text) => Some text
  | _ => fallback
  end.

(** [take_screenshot] of utils/test_helpers.py.  [save] is
    [driver.save_screenshot]: it writes the file and gives [True], fails
    to write it and gives [False], or raises ([None]). *)
Definition take_screenshot (save : string -> option bool) (clock : string)
    (name : string) (fs : filesystem) : option string * filesystem :=
  let filename := "screenshots/" ++ name ++ "_" ++ clock ++ ".png" in
  let fs1 := {[ "screenshots" ]} ∪ fs in
  match save filename with
  | Some true => (Some filename, {[ filename ]} ∪ fs1)
  | Some false => (Some filename, fs1)
  | None => (None, fs1)
  end.

(** [duration > 0] for the difference of two [time.time()] readings. *)
Definition positive (duration : spec_float) : bool :=
  SFltb (S754_zero false) duration.

(** [pytest_runtest_makereport], after the [yield].  [duration] is
    [end_time - start_time]; the three instants are what [datetime.now()]
    gives inside [add_screenshot], [add_test_result] and
    [add_performance_metric]. *)
Definition pytest_runtest_makereport (save : string -> option bool)
    (clock : string) (shot_now result_now metric_now : datetime)
    (duration : spec_float) (item : Item) (rep : TestReport) (s : session)
  : hook_result :=
  if String.eqb (when rep) "call" then
    let '(status, error_message) :=
      match rep_outcome rep with
      | Passed => ("passed", None)
      | Failed => ("failed", longrepr_or (Some "Test failed") rep)
      | Skipped => ("skipped", longrepr_or None rep)
      end in
    let shot :=
      match rep_outcome rep with
      | Failed =>
          if has_browser item then
            match take_screenshot save clock ("FAILED_" ++ name item)
                                  (files s) with
            | (Some screenshot_path, fs1) =>
                inl (Some screenshot_path, fs1,
                     add_screenshot fs1 shot_now screenshot_path
                       ("Failure screenshot for " ++ name item)
                       (reporter s))
            | (None, fs1) => inr fs1
            end
          else inl (None, files s, reporter s)
      | _ => inl (None, files s, reporter s)
      end in
    match shot with
    | inr fs1 => Raised {| files := fs1; reporter := reporter s |}
    | inl (screenshot_path, fs1, reporter1) =>
        let reporter2 :=
          add_test_result result_now (name item) status
            (Some (Float duration)) error_message screenshot_path reporter1 in
        Done {| files := fs1;
                reporter :=
                  if positive duration then
                    add_performance_metric metric_now
                      ("test_" ++ name item ++ "_duration")
                      (Float duration) "seconds" reporter2
                  else reporter2 |}
    end
  else Done s.

Definition known_status (r : test_result) : Prop :=
  status r = "passed" \/ status r = "failed" \/ status r = "skipped".

(** What every result recorded by the hook looks like. *)
Definition recorded_by_hook (r : test_result) : Prop :=
  known_status r /\
  (status r = "passed" -> error_message r = None /\ screenshot_path r = None) /\
  (status r = "failed" -> error_message r <> None) /\
  (screenshot_path r <> None -> status r = "failed").

Definition hook_invariant (self : EnhancedReporter) : Prop :=
  Forall recorded_by_hook (test_results self) /\
  len (screenshots self) <= count_status "failed" (test_results self) /\
  NoDup (map fst (performance_metrics self)) /\
  (length (performance_metrics self) <= length (test_results self))%nat.

(** The sessions built from the reporter as created by starting and
    ending the session, by changes of the files, and by the hook. *)
Inductive fed_by_hook : session -> Prop :=
| fed_new (fs : filesystem) :
    fed_by_hook {| files := fs; reporter := new_reporter |}
| fed_start_session (now : datetime) (s : session) :
    fed_by_hook s ->
    fed_by_hook {| files := files s;
                   reporter := start_session now (reporter s) |}
| fed_end_session (now : datetime) (s : session) :
    fed_by_hook s ->
    fed_by_hook {| files := files s;
                   reporter := end_session now (reporter s) |}
| fed_files (fs : filesystem) (s : session) :
    fed_by_hook s ->
    fed_by_hook {| files := fs; reporter := reporter s |}
| fed_step save clock shot_now result_now metric_now duration item rep
    (s s' : session) :
    fed_by_hook s ->
    pytest_runtest_makereport save clock shot_now result_now metric_now
      duration item rep s = Done s' ->
    fed_by_hook s'.

(** A session of one failed browser test that took two seconds and whose
    screenshot was written. *)
Definition sample_hook_session : session :=
  match pytest_runtest_makereport (fun _ => Some true) "20240101_120000"
          3 4 5 (float_of_int 2)
          {| name := "test_homepage_load"; has_browser := true |}
          {| when := "call"; rep_outcome := Failed;
             longrepr := Some (true, "AssertionError") |}
          {| files := ∅; reporter := start_session 1 new_reporter |} with
  | Done s => s
  | Raised s => s
  end.

End Conftest.

(* ===================================================================== *)
(** * run_tests.py: the commands the runner starts *)
(* ===================================================================== *)

Module Launches.

Import Runner.

(** The command line [run_specific_test_category] builds. *)
Definition specific_command (test_class test_name : string) : list string :=
  [ "pytest";
    "tests/test_amazon_complete.py::" ++ test_class ++ "::" ++ test_name;
    "-v"; "--tb=short"; "-s" ].

(** The tests the selection menu offers, each with its class. *)
Definition offered : list (string * string) :=
  (map (pair "TestAmazonBasic") basic_tests
   ++ map (pair "TestAmazonAdvanced") advanced_tests
   ++ [("TestAmazonBoth", "test_complete_workflow_basic_to_advanced")])%list.

(** A command that runs pytest on the complete suite or on a part of it. *)
Definition runs_the_suite (cmd : list string) : Prop :=
  exists target rest,
    cmd = "pytest" :: target :: rest /\
    PyStr.startswith target "tests/test_amazon_complete.py" = true.

(** What one pass of the selection menu starts, and how it ends. *)
Definition pass_outcome (st st' : state) (r : option (result unit)) : Prop :=
  (launches st' = launches st /\
   (r = None \/ r = Some (Ok tt) \/ r = Some (Raise EOFError))) \/
  (exists test_class test_name,
     (test_class, test_name) ∈ offered /\
     launches st' = (launches st ++ [specific_command test_class test_name])%list /\
     (r = Some (Ok tt) \/ r = Some (Raise OSError))).





(** From [st] to [st'] only commands on the suite were started. *)
Definition started_suite_only (st st' : state) : Prop :=
  exists new,
    launches st' = (launches st ++ new)%list /\ Forall runs_the_suite new.

End Launches.

(* ===================================================================== *)
(** * utils/test_helpers.py: clicks, popups and the product finder *)
(* ===================================================================== *)

Module Finder.

Import PyStr Helpers.

Local Open Scope Z_scope.

Inductive exception : Type :=
| TimeoutException
| NoSuchElementException
| ElementClickInterceptedException
| WebDriverException.

Inductive result (A : Type) : Type :=
| Ok (a : A)
| Raise (e : exception).
Arguments Ok {A} a.
Arguments Raise {A} e.

(** A [WebElement], by its id. *)
Definition element : Type := nat.

(** A [div] of the parsed page source, with its [data-asin] attribute. *)
Record container : Type := { data_asin : option string }.

(** The browser, as the helpers use it: each call may answer or raise,
    and may change the state [W] of the page. *)
Record browser (W : Type) : Type := {
  (* wait.until(EC.presence_of_all_elements_located((By.CSS_SELECTOR, s))) *)
  wait_all : string -> W -> result (list element) * W;
  find_elements : By -> string -> W -> result (list element) * W;
  find_element : By -> string -> W -> result element * W;
  is_displayed : element -> W -> result bool * W;
  is_enabled : element -> W -> result bool * W;
  (* execute_script("arguments[0].scrollIntoView({block: 'center'});", e) *)
  scroll_into_view : element -> W -> result unit * W;
  click : element -> W -> result unit * W;
  (* execute_script("arguments[0].click();", e) *)
  script_click : element -> W -> result unit * W;
  (* BeautifulSoup(driver.page_source): what find_all('div', ...) gives
     for each of the four searches of the fallback, in their order *)
  page_source : W -> result (list (list container)) * W
}.
Arguments wait_all {W}.
Arguments find_elements {W}.
Arguments find_element {W}.
Arguments is_displayed {W}.
Arguments is_enabled {W}.
Arguments scroll_into_view {W}.
Arguments click {W}.
Arguments script_click {W}.
Arguments page_source {W}.

Definition len {A : Type} (l : list A) : Z := Z.of_nat (length l).

(** [l[:n]] *)
Definition slice_to {A : Type} (n : Z) (l : list A) : list A :=
  if n <? 0 then take (Z.to_nat (len l + n)) l else take (Z.to_nat n) l.

Section WithDriver.

Context {W : Type} (driver : browser W).

(** ** [robust_element_click] *)

Definition javascript_click (el : element) (w : W) : bool * W :=
  match script_click driver el w with
  | (Ok _, w') => (true, w')
  | (Raise _, w') => (false, w')
  end.

(** One pass of the loop: [true] when the function returns [True]. *)
Definition click_attempt (el : element) (w : W) : bool * W :=
  match scroll_into_view driver el w with
  | (Ok _, w1) =>
      match click driver el w1 with
      | (Ok _, w2) => (true, w2)
      | (Raise ElementClickInterceptedException, w2) => javascript_click el w2
      | (Raise _, w2) => (false, w2)
      end
  | (Raise ElementClickInterceptedException, w1) => javascript_click el w1
  | (Raise _, w1) => (false, w1)
  end.

Fixpoint click_attempts (el : element) (attempts : nat) (w : W) : bool * W :=
  match attempts with
  | O => (false, w)
  | S attempts' =>
      match click_attempt el w with
      | (true, w1) => (true, w1)
      | (false, w1) => click_attempts el attempts' w1
      end
  end.

(** [for attempt in range(max_attempts)] *)
Definition robust_element_click (el : element) (max_attempts : Z) (w : W)
  : bool * W :=
  click_attempts el (Z.to_nat max_attempts) w.

(** ** [intelligent_popup_dismissal] *)

Definition popup_selectors : list string :=
  [ "//button[contains(text(), 'Continue shopping')]";
    "//span[contains(text(), 'Continue shopping')]/parent::button";
    "//a[contains(text(), 'Continue shopping')]";
    "//button[contains(text(), 'Close')]";
    "//button[contains(text(), 'No thanks')]";
    "//button[contains(text(), 'Not now')]";
    "//button[contains(text(), 'Skip')]";
    "//button[contains(text(), 'Maybe later')]";
    "//button[contains(text(), 'Dismiss')]";
    "//button[contains(text(), 'Cancel')]";
    ".a-modal-close";
    ".a-button-close";
    "[data-action='close']";
    "[aria-label*='Close']";
    "[aria-label*='close']";
    ".close-button";
    ".modal-close";
    ".popup-close";
    "button[class*='close']";
    "*[role='button'][aria-label*='close']";
    ".a-button-text:contains('Close')";
    "//button[contains(text(), 'Accept')]";
    "//button[contains(text(), 'OK')]";
    "[data-testid='accept-button']";
    ".cookie-accept" ].

(** [for element in elements]: [Ok true] when a popup was dismissed (the
    loop is left), [Ok false] at the end of the list; an exception of
    [is_displayed] or [is_enabled] leaves the loop for the handler of the
    selector. *)
Fixpoint dismiss_among (els : list element) (w : W) : result bool * W :=
  match els with
  | [] => (Ok false, w)
  | el :: rest =>
      match is_displayed driver el w with
      | (Raise e, w1) => (Raise e, w1)
      | (Ok false, w1) => dismiss_among rest w1
      | (Ok true, w1) =>
          match is_enabled driver el w1 with
          | (Raise e, w2) => (Raise e, w2)
          | (Ok false, w2) => dismiss_among rest w2
          | (Ok true, w2) =>
              match scroll_into_view driver el w2 with
              | (Raise _, w3) => dismiss_among rest w3
              | (Ok _, w3) =>
                  match robust_element_click el 3 w3 with
                  | (true, w4) => (Ok true, w4)
                  | (false, w4) => dismiss_among rest w4
                  end
              end
          end
      end
  end.

(** [for selector in popup_selectors]: the value of [found_popup]. *)
Fixpoint dismiss_with (selectors : list string) (w : W) : bool * W :=
  match selectors with
  | [] => (false, w)
  | selector :: rest =>
      match find_elements driver
              (if startswith selector "//" then XPATH else CSS_SELECTOR)
              selector w with
      | (Raise _, w1) => dismiss_with rest w1
      | (Ok els, w1) =>
          match dismiss_among els w1 with
          | (Ok true, w2) => (true, w2)
          | (Ok false, w2) => dismiss_with rest w2
          | (Raise _, w2) => dismiss_with rest w2
          end
      end
  end.

(** [for attempt in range(max_attempts)], with [dismissed_count]. *)
Fixpoint dismissal_rounds (rounds : nat) (dismissed_count : Z) (w : W)
  : Z * W :=
  match rounds with
  | O => (dismissed_count, w)
  | S rounds' =>
      match dismiss_with popup_selectors w with
      | (true, w1) => dismissal_rounds rounds' (dismissed_count + 1) w1
      | (false, w1) => (dismissed_count, w1)
      end
  end.

Definition intelligent_popup_dismissal (max_attempts : Z) (w : W) : Z * W :=
  dismissal_rounds (Z.to_nat max_attempts) 0 w.

(** ** [web_scraping_product_fallback] *)

(** [for selector in selectors_to_try: ... break] *)
Fixpoint product_containers (searches : list (list container))
  : list container :=
  match searches with
  | [] => []
  | found :: rest =>
      if 3 <=? len found then slice_to 10 found else product_containers rest
  end.

(** The locator of the [i]-th container. *)
Definition container_locator (i : nat) (c : container) : By * string :=
  match data_asin c with
  | Some asin =>
      if truthy asin then (CSS_SELECTOR, "[data-asin='" ++ asin ++ "']")
      else (XPATH,
            "(//div[contains(@class, 'result') or contains(@class, 'product')])["
            ++ pretty (Z.of_nat i + 1) ++ "]")
  | None =>
      (XPATH,
       "(//div[contains(@class, 'result') or contains(@class, 'product')])["
       ++ pretty (Z.of_nat i + 1) ++ "]")
  end.

(** [for i, container in enumerate(product_containers)]: the elements
    appended so far are [found]; an exception other than
    [NoSuchElementException] leaves the function's [try]. *)
Fixpoint selenium_products (i : nat) (containers : list container)
    (found : list element) (w : W) : result (list element) * W :=
  match containers with
  | [] => (Ok found, w)
  | c :: rest =>
      if negb (match data_asin c with Some asin => truthy asin | None => false end)
         && negb (Z.of_nat i <? 10)
      then selenium_products (S i) rest found w
      else
        match find_element driver (fst (container_locator i c))
                (snd (container_locator i c)) w with
        | (Ok el, w1) => selenium_products (S i) rest (found ++ [el]) w1
        | (Raise NoSuchElementException, w1) =>
            selenium_products (S i) rest found w1
        | (Raise e, w1) => (Raise e, w1)
        end
  end.

Definition web_scraping_product_fallback (w : W) : list element * W :=
  match page_source driver w with
  | (Raise _, w1) => ([], w1)
  | (Ok searches, w1) =>
      match product_containers searches with
      | [] => ([], w1)
      | containers =>
          match selenium_products 0 containers [] w1 with
          | (Ok products, w2) => (products, w2)
          | (Raise _, w2) => ([], w2)
          end
      end
  end.

(** ** [smart_product_finder] *)

Definition product_selectors : list string :=
  [ "[data-component-type='s-search-result']";
    ".s-result-item";
    ".sg-row .sg-col-inner";
    "*[data-cy='title-recipe-fixer']";
    ".s-card-container";
    "*[data-testid='product-card']";
    "*[class*='result-item']";
    "*[class*='product-item']";
    "*[data-asin]";
    ".widgetContainer .s-card-border" ].

(** [for selector in product_selectors]: the value of [products] after
    the loop; only [TimeoutException] is handled. *)
Fixpoint products_by_selector (max_products : Z) (selectors : list string)
    (w : W) : result (list element) * W :=
  match selectors with
  | [] => (Ok [], w)
  | selector :: rest =>
      match wait_all driver selector w with
      | (Ok found_products, w1) =>
          if 3 <=? len found_products
          then (Ok (slice_to max_products found_products), w1)
          else products_by_selector max_products rest w1
      | (Raise TimeoutException, w1) =>
          products_by_selector max_products rest w1
      | (Raise e, w1) => (Raise e, w1)
      end
  end.

Definition smart_product_finder (max_products : Z) (w : W)
  : result (list element) * W :=
  match products_by_selector max_products product_selectors w with
  | (Raise e, w1) => (Raise e, w1)
  | (Ok [], w1) =>
      let (products, w2) := web_scraping_product_fallback w1 in
      (Ok products, w2)
  | (Ok products, w1) => (Ok products, w1)
  end.

End WithDriver.

(** A results page on which none of the product selectors matches in time,
    while the parsed source holds twelve result blocks that the driver then
    finds one by one. *)
Definition scraped_page : browser unit :=
  {| wait_all := fun _ w => (Raise TimeoutException, w);
     find_elements := fun _ _ w => (Ok [], w);
     find_element := fun _ selector w => (Ok (String.length selector), w);
     is_displayed := fun _ w => (Ok true, w);
     is_enabled := fun _ w => (Ok true, w);
     scroll_into_view := fun _ w => (Ok tt, w);
     click := fun _ w => (Ok tt, w);
     script_click := fun _ w => (Ok tt, w);
     page_source := fun w =>
       (Ok [ map (fun asin => {| data_asin := Some asin |})
               [ "B01"; "B02"; "B03"; "B04"; "B05"; "B06";
                 "B07"; "B08"; "B09"; "B10"; "B11"; "B12" ] ], w) |}.

End Finder.

(* ===================================================================== *)
(** * tests/test_amazon_complete.py: the relevance score of a search *)
(* ===================================================================== *)

Module Relevance.

Import Text PyNum.

Local Open Scope Z_scope.

(** What a product dict holds under ["title"]: nothing, [None], or a
    [str]. *)
Definition product : Type := Validators.field str.

Definition len {A : Type} (l : list A) : Z := Z.of_nat (length l).

Fixpoint startswith (s p : str) {struct p} : bool :=
  match p with
  | [] => true
  | c :: p' =>
      match s with
      | [] => false
      | d :: s' => (c =? d)%N && startswith s' p'
      end
  end.

(** [sub in s] *)
Fixpoint contains (s sub : str) : bool :=
  startswith s sub ||
  match s with
  | [] => false
  | _ :: s' => contains s' sub
  end.

Section WithInterpreter.

Context (py : interpreter).

(** [s.split()]: the maximal runs of characters that are not whitespace;
    [word] is the run being read. *)
Fixpoint split_words (word : str) (s : str) : list str :=
  match s with
  | [] => if Text.truthy word then [word] else []
  | c :: s' =>
      if space py c then
        if Text.truthy word then word :: split_words [] s'
        else split_words [] s'
      else split_words (word ++ [c])%list s'
  end.

Definition split (s : str) : list str := split_words [] s.





End WithInterpreter.



End Relevance.

(* ===================================================================== *)
(** * Facts about the string fragment *)
(* ===================================================================== *)

Section StringFacts.

Import PyStr.

Lemma app_nil (s : string) : "" ++ s = s.
Proof. reflexivity. Qed.

Lemma app_cons (c : ascii) (a b : string) :
  String c a ++ b = String c (a ++ b).
Proof. reflexivity. Qed.

Lemma startswith_app (s p : string) :
  startswith s p = true <-> exists rest, s = p ++ rest.
Proof.
  revert s. induction p as [|c p IH]; intros s.
  - split; [intros _; by exists s | done].
  - destruct s as [|d s]; simpl.
    + split; [done | intros [rest H]; discriminate].
    + rewrite andb_true_iff, IH. split.
      * intros [Hc [rest ->]]. apply Ascii.eqb_eq in Hc as ->. by exists rest.
      * intros [rest H]. rewrite app_cons in H. injection H as -> ->.
        split; [apply Ascii.eqb_refl | by exists rest].
Qed.

(** [sub in s] holds exactly when [s] splits around an occurrence. *)
Lemma contains_app (s sub : string) :
  contains s sub = true <-> exists pre post, s = pre ++ sub ++ post.
Proof.
  induction s as [|c s IH].
  - change (contains "" sub) with (startswith "" sub || false).
    rewrite orb_false_r, startswith_app. split.
    + intros [rest H]. by exists "", rest.
    + intros [pre [post H]]. destruct pre; [by exists post | done].
  - change (contains (String c s) sub)
      with (startswith (String c s) sub || contains s sub).
    rewrite orb_true_iff, IH, startswith_app. split.
    + intros [[rest H] | [pre [post H]]].
      * by exists "", rest.
      * exists (String c pre), post. by rewrite app_cons, H.
    + intros [pre [post H]]. destruct pre as [|d pre].
      * left. by exists post.
      * right. exists pre, post. rewrite app_cons in H. congruence.
Qed.

Lemma lower_app (a b : string) : lower (a ++ b) = lower a ++ lower b.
Proof.
  induction a as [|c a IH]; [done |].
  rewrite app_cons. simpl. by rewrite IH.
Qed.

(** A split of [lower s] comes from a split of [s]. *)
Lemma lower_split (s a b : string) :
  lower s = a ++ b ->
  exists a' b', s = a' ++ b' /\ lower a' = a /\ lower b' = b.
Proof.
  revert s. induction a as [|c a IH]; intros s H.
  - by exists "", s.
  - destruct s as [|d s]; [done |].
    rewrite app_cons in H. simpl in H.
    injection H as Hc Hs. destruct (IH _ Hs) as (a' & b' & -> & Ha & Hb).
    exists (String d a'), b'. simpl. by rewrite Hc, Ha.
Qed.

End StringFacts.

(* ===================================================================== *)
(** * utils/test_helpers.py: selector auto-detection *)
(* ===================================================================== *)

Section SelectorDetection.

Import PyStr Helpers.

(** C9, as amended: the branches of the auto-detection in their order of
    priority.  A leading [#] gives an ID locator and a leading [.] a
    class-name locator, each without that character; a leading [//] gives an
    XPath locator; otherwise a string holding both brackets gives a CSS
    locator; otherwise the prefix [name=] gives a name locator carrying the
    rest; everything else is a CSS locator. *)
Theorem auto_detect_selector_type_priority (s : string) :
  (forall rest, s = "#" ++ rest ->
     auto_detect_selector_type s = (ID, rest)) /\
  (forall rest, s = "." ++ rest ->
     auto_detect_selector_type s = (CLASS_NAME, rest)) /\
  (forall rest, s = "//" ++ rest ->
     auto_detect_selector_type s = (XPATH, s)) /\
  (startswith s "#" = false -> startswith s "." = false ->
   startswith s "//" = false -> bracketed s = true ->
     auto_detect_selector_type s = (CSS_SELECTOR, s)) /\
  (forall rest, s = "name=" ++ rest -> bracketed s = false ->
     auto_detect_selector_type s = (NAME, rest)) /\
  (startswith s "#" = false -> startswith s "." = false ->
   startswith s "//" = false -> startswith s "name=" = false ->
     auto_detect_selector_type s = (CSS_SELECTOR, s)).
Proof.
  unfold auto_detect_selector_type, bracketed.
  repeat split.
  - intros rest ->. by rewrite !app_cons, app_nil.
  - intros rest ->. by rewrite !app_cons, app_nil.
  - intros rest ->. by rewrite !app_cons, app_nil.
  - by intros -> -> -> ->.
  - intros rest -> Hb. rewrite Hb. by rewrite !app_cons, app_nil.
  - intros -> -> -> ->. by destruct (_ && _).
Qed.

(** The amended statement at work on the selectors the suite passes. *)
Lemma auto_detect_selector_type_priority_witness :
  auto_detect_selector_type "name=field-keywords" = (NAME, "field-keywords").
Proof.
  apply (auto_detect_selector_type_priority "name=field-keywords");
    reflexivity.
Defined.

(** C9 as stated fails: a string that starts with [name=] and holds both
    brackets is a CSS locator, not a name locator. *)
Lemma name_prefix_with_brackets_is_css :
  startswith "name=q[0]" "name=" = true /\
  auto_detect_selector_type "name=q[0]" = (CSS_SELECTOR, "name=q[0]") /\
  fst (auto_detect_selector_type "name=q[0]") <> NAME.
Proof. by repeat split. Qed.

End SelectorDetection.

(* ===================================================================== *)
(** * utils/browser_config.py: the headless check *)
(* ===================================================================== *)

Section Headless.

Import PyStr BrowserConfig.

Lemma has_headless_flag_lower (arg : string) :
  contains (lower arg) "--headless" = true <-> has_headless_flag arg.
Proof.
  rewrite contains_app. split.
  - intros (pre & post & H).
    destruct (lower_split _ _ _ H) as (pre' & tail & -> & _ & Htail).
    destruct (lower_split _ _ _ Htail) as (flag & post' & -> & Hflag & _).
    by exists pre', flag, post'.
  - intros (pre & flag & post & -> & Hflag).
    exists (lower pre), (lower post). by rewrite !lower_app, Hflag.
Qed.

Lemma scan_for_headless_raises (args : list string) :
  scan_for_headless args = Raise (ValueError headless_message) <->
  exists arg, arg ∈ args /\ has_headless_flag arg.
Proof.
  induction args as [|arg args IH]; simpl.
  - split; [done | intros (arg & Hin & _); by apply elem_of_nil in Hin].
  - destruct (contains (lower arg) "--headless") eqn:Hc.
    + split; [intros _ | done].
      exists arg. split; [left | by apply has_headless_flag_lower].
    + rewrite IH. split.
      * intros (a & Hin & Ha). exists a. split; [by right | done].
      * intros (a & Hin & Ha). apply elem_of_cons in Hin as [-> | Hin].
        -- apply has_headless_flag_lower in Ha. congruence.
        -- by exists a.
Qed.

Lemma scan_for_headless_total (args : list string) :
  scan_for_headless args = Ok true \/
  scan_for_headless args = Raise (ValueError headless_message).
Proof.
  induction args as [|arg args IH]; simpl; [by left |].
  destruct (contains _ _); [by right | done].
Qed.

(** C5: the options the repository builds (the full set and the fallback
    set) pass the headless check; and for any options, the check raises
    its configuration error exactly when some argument holds the headless
    flag in some capitalisation, and returns [True] otherwise. *)
Theorem validate_no_headless_mode_spec :
  validate_no_headless_mode get_visible_chrome_options = Ok true /\
  validate_no_headless_mode minimal_options = Ok true /\
  (forall arg, arg ∈ arguments get_visible_chrome_options ->
     ~ has_headless_flag arg) /\
  forall chrome_options,
    (validate_no_headless_mode chrome_options
       = Raise (ValueError headless_message) <->
     exists arg, arg ∈ arguments chrome_options /\ has_headless_flag arg) /\
    (validate_no_headless_mode chrome_options = Ok true <->
     ~ exists arg, arg ∈ arguments chrome_options /\ has_headless_flag arg).
Proof.
  assert (Hiff : forall o,
    validate_no_headless_mode o = Raise (ValueError headless_message) <->
    exists arg, arg ∈ arguments o /\ has_headless_flag arg)
    by (intros o; apply scan_for_headless_raises).
  assert (Hbuilt : validate_no_headless_mode get_visible_chrome_options = Ok true)
    by reflexivity.
  split; [exact Hbuilt |]. split; [reflexivity |]. split.
  - intros arg Hin Hflag.
    assert (Hr : validate_no_headless_mode get_visible_chrome_options
                 = Raise (ValueError headless_message))
      by (apply Hiff; by exists arg).
    congruence.
  - intros chrome_options. split; [apply Hiff |]. split.
    + intros Hok Hex. apply Hiff in Hex. congruence.
    + intros Hno.
      destruct (scan_for_headless_total (arguments chrome_options)) as [H | H];
        [exact H | by apply Hiff in H].
Qed.

(** An inserted flag, whatever its case, is caught. *)
Lemma validate_no_headless_mode_spec_witness :
  validate_no_headless_mode (add_argument "--Headless=new" minimal_options)
    = Raise (ValueError headless_message).
Proof.
  apply validate_no_headless_mode_spec.
  exists "--Headless=new". split.
  - vm_compute. apply list_elem_of_In. simpl. tauto.
  - exists "", "--Headless", "=new". by split.
Defined.

End Headless.

(* ===================================================================== *)
(** * tests/test_amazon_complete.py: Phase 4 of the combined workflow *)
(* ===================================================================== *)

Section WorkflowPhase4.

Import Workflow.

Local Open Scope Z_scope.


Lemma count_priced_acc (ps : list Validators.product) (acc : Z) :
  fold_left
    (fun acc p =>
       match Validators.truthy_price p with
       | Some _ => acc + 1
       | None => acc
       end) ps acc
  = acc + Z.of_nat (length (List.filter has_price ps)).
Proof.
  revert acc. induction ps as [|p ps IH]; intros acc; simpl; [lia |].
  rewrite IH. unfold has_price at 2.
  destruct (Validators.truthy_price p); simpl; lia.
Qed.

(** [products_with_prices] counts the products whose price is truthy. *)
Lemma products_with_prices_counts (ps : list Validators.product) :
  products_with_prices ps = Z.of_nat (length (List.filter has_price ps)).
Proof. unfold products_with_prices. rewrite count_priced_acc. lia. Qed.


(** C6 as stated fails: five basic products, one extracted product with a
    price and no successful interaction give the flags
    (true, true, false, true), three of four, and the test fails. *)
Lemma three_flags_without_interaction_fail :
  let m := {| basic_products := 5;
              products_data := [Validators.priced "book" 400];
              interaction_score := 0 |} in
  flags_of m = {| basic_success := true; advanced_success := true;
                  interaction_success := false;
                  price_data_success := true |} /\
  flags_set (flags_of m) = 3%nat /\
  phase4_passes (flags_of m) = true /\
  workflow_assertions m = AssertionError "Mouse interactions failed".
Proof. by vm_compute. Qed.

End WorkflowPhase4.

(* ===================================================================== *)
(** * utils/test_helpers.py: the range of extracted prices *)
(* ===================================================================== *)

Section PriceExtraction.

Import Text Prices.

Local Open Scope Z_scope.

Context (py : interpreter).

Lemma remove_char_free (c : N) (s : str) : c ∉ remove_char c s.
Proof.
  unfold remove_char. intros [_ H]%list_elem_of_In%filter_In.
  by rewrite N.eqb_refl in H.
Qed.

Lemma remove_char_id (c : N) (s : str) : c ∉ s -> remove_char c s = s.
Proof.
  induction s as [|x s IH]; simpl; [done |].
  intros [Hx Hs]%not_elem_of_cons.
  destruct (N.eqb_spec x c) as [-> | _]; [done |]. simpl. by rewrite IH.
Qed.

Lemma take_while_elem (p : N -> bool) (s : str) (x : N) :
  x ∈ take_while p s -> x ∈ s /\ p x = true.
Proof.
  induction s as [|c s IH]; simpl; [by intros ?%elem_of_nil |].
  destruct (p c) eqn:E; [| by intros ?%elem_of_nil].
  intros [-> | H]%elem_of_cons; [split; [left | done] |].
  destruct (IH H). split; [by right | done].
Qed.

Lemma take_while_ext (p q : N -> bool) (s : str) :
  (forall x, x ∈ s -> p x = q x) -> take_while p s = take_while q s.
Proof.
  induction s as [|c s IH]; simpl; [done |]. intros H.
  rewrite <- (H c) by left. destruct (p c); [| done].
  f_equal. apply IH. intros x Hx. apply H. by right.
Qed.

Lemma search_run_ext (p q : N -> bool) (s : str) :
  (forall x, x ∈ s -> p x = q x) -> search_run p s = search_run q s.
Proof.
  induction s as [|c s IH]; [done |]. intros H.
  change (search_run ?r (c :: s))
    with (if r c then Some (take_while r (c :: s)) else search_run r s).
  rewrite <- (H c) by left. destruct (p c).
  - f_equal. by apply take_while_ext.
  - apply IH. intros x Hx. apply H. by right.
Qed.

Lemma search_run_elem (p : N -> bool) (s g : str) :
  search_run p s = Some g ->
  truthy g = true /\ forall x, x ∈ g -> x ∈ s /\ p x = true.
Proof.
  induction s as [|c s IH]; [done |].
  change (search_run p (c :: s))
    with (if p c then Some (take_while p (c :: s)) else search_run p s).
  destruct (p c) eqn:E.
  - intros [= <-]. split; [simpl; by rewrite E |].
    intros x. exact (take_while_elem p (c :: s) x).
  - intros H. destruct (IH H) as [Ht Hx]. split; [done |].
    intros x Hin. destruct (Hx x Hin). split; [by right | done].
Qed.

(** Once the commas are gone, a run of digits or commas is a run of
    digits. *)
Lemma search_run_after_removal (t : str) :
  search_run (is_digit_or_comma py) (remove_char comma t)
  = search_run (is_digit py) (remove_char comma t).
Proof.
  apply search_run_ext. intros x Hx. unfold is_digit_or_comma.
  destruct (N.eqb_spec x comma) as [-> | _]; [| apply orb_false_r].
  by apply remove_char_free in Hx.
Qed.

(** What the code's double comma removal comes to: the first run of
    digits of the text without its commas, read as a decimal number
    unless it has more digits than [int()] accepts. *)
Lemma numeric_price_first_digit_run (t : str) :
  numeric_price py t
  = match search_run (is_digit py) (remove_char comma t) with
    | Some digits =>
        if too_many_digits py digits then None
        else Some (digits_value py 0 digits)
    | None => None
    end.
Proof.
  unfold numeric_price. rewrite search_run_after_removal.
  destruct (search_run (is_digit py) _) as [g|] eqn:E; [| done].
  destruct (search_run_elem _ _ _ E) as [Ht Hg].
  rewrite remove_char_id.
  - unfold int_of_digits. rewrite Ht.
    replace (forallb (is_digit py) g) with true.
    + simpl. by destruct (too_many_digits py g).
    + symmetry. apply forallb_forall. intros x Hx.
      by apply Hg, list_elem_of_In.
  - intros Hc. apply Hg in Hc as [Hc _]. by apply remove_char_free in Hc.
Qed.

Lemma price_of_text_inv (selector : string) (t : str) (r : price_data) :
  price_of_text py selector t = Some r ->
  (50 <= price r <= 10000000) /\ original_text r = t /\
  selector_used r = selector /\ numeric_price py t = Some (price r).
Proof.
  unfold price_of_text, in_price_range.
  destruct (truthy t); [| done].
  destruct (numeric_price py t) as [v|]; [| done].
  destruct (_ && _) eqn:E; [| done].
  intros [= <-]. simpl. apply andb_true_iff in E as [? ?].
  repeat split; try done; lia.
Qed.

Lemma scan_price_elements_inv (selector : string) (els : list price_element)
    (r : price_data) :
  scan_price_elements py selector els = Returned r ->
  exists el, el ∈ els /\
    read_price_text py el = Some (Some (original_text r)) /\
    price_of_text py selector (original_text r) = Some r.
Proof.
  induction els as [|el els IH]; simpl; [done |].
  destruct (read_price_text py el) as [[t|]|] eqn:Hread; [| | done].
  - destruct (price_of_text py selector t) as [r'|] eqn:Hp.
    + intros [= ->]. exists el.
      destruct (price_of_text_inv _ _ _ Hp) as (_ & <- & _).
      split; [left | done].
    + intros H. destruct (IH H) as (el' & Hin & ?). exists el'.
      split; [by right | done].
  - intros H. destruct (IH H) as (el' & Hin & ?). exists el'.
    split; [by right | done].
Qed.

Lemma extract_with_selectors_inv (product : product_element)
    (selectors : list string) (r : price_data) :
  extract_with_selectors py product selectors = Some r ->
  exists selector els, selector ∈ selectors /\
    find_elements product selector = Some els /\
    scan_price_elements py selector els = Returned r.
Proof.
  induction selectors as [|selector selectors IH]; simpl; [done |].
  assert (Hrest : extract_with_selectors py product selectors = Some r ->
    exists selector0 els, selector0 ∈ selector :: selectors /\
      find_elements product selector0 = Some els /\
      scan_price_elements py selector0 els = Returned r).
  { intros H. destruct (IH H) as (s0 & els & Hin & ?).
    exists s0, els. split; [by right | done]. }
  destruct (find_elements product selector) as [els|] eqn:Hfind; [| done].
  destruct (scan_price_elements py selector els) as [r'| |] eqn:Hscan;
    try done.
  intros [= ->]. exists selector, els. split; [left | done].
Qed.

(** C2, as amended: a returned record carries a price within
    [50, 10,000,000]; that price is the first run of digits of the node's
    text after all commas were removed from it, the record keeps the text,
    and its selector is the one of the list that found the node.  When
    no text found yields a value within the range the result is absent;
    so it is for the texts [10] and [50,000,001].  Digits and whitespace
    are those of the interpreter: a node whose text is a no-break space and
    whose [textContent] is [500] gives 500, and the Devanagari digits of
    1299 give 1299. *)
Theorem extract_price_from_element_range (product : product_element) :
  (forall r, extract_price_from_element py product = Some r ->
     (50 <= price r <= 10000000) /\
     selector_used r ∈ price_selectors /\
     (exists els el,
        find_elements product (selector_used r) = Some els /\ el ∈ els /\
        read_price_text py el = Some (Some (original_text r))) /\
     (exists digits,
        search_run (is_digit py) (remove_char comma (original_text r))
          = Some digits /\
        price r = digits_value py 0 digits)) /\
  ((forall selector els el text v,
      selector ∈ price_selectors ->
      find_elements product selector = Some els -> el ∈ els ->
      read_price_text py el = Some (Some text) ->
      numeric_price py text = Some v -> ~ (50 <= v <= 10000000)) ->
   extract_price_from_element py product = None) /\
  extract_price_from_element sample_interpreter (product_with_text "10")
  = None /\
  extract_price_from_element sample_interpreter
    (product_with_text "50,000,001") = None /\
  extract_price_from_element sample_interpreter
    (product_with_node [160%N] (Some (literal "500")))
  = Some {| price := 500; original_text := literal "500";
            selector_used := ".a-price-whole" |} /\
  extract_price_from_element sample_interpreter
    (product_with_node [2407; 2408; 2415; 2415]%N None)
  = Some {| price := 1299; original_text := [2407; 2408; 2415; 2415]%N;
            selector_used := ".a-price-whole" |}.
Proof.
  split; [| split; [| repeat split; by vm_compute]].
  - intros r H.
    destruct (extract_with_selectors_inv _ _ _ H) as (sel & els & Hsel & Hf & Hs).
    destruct (scan_price_elements_inv _ _ _ Hs) as (el & Hel & Hread & Hp).
    destruct (price_of_text_inv _ _ _ Hp) as (Hrange & _ & Hsu & Hnum).
    subst sel. split; [done |]. split; [done |]. split; [by exists els, el |].
    rewrite numeric_price_first_digit_run in Hnum.
    destruct (search_run (is_digit py) _) as [g|]; [| done].
    exists g. split; [done |].
    destruct (too_many_digits py g); congruence.
  - intros Hout.
    destruct (extract_price_from_element py product) as [r|] eqn:H; [| done].
    destruct (extract_with_selectors_inv _ _ _ H) as (sel & els & Hsel & Hf & Hs).
    destruct (scan_price_elements_inv _ _ _ Hs) as (el & Hel & Hread & Hp).
    destruct (price_of_text_inv _ _ _ Hp) as (Hrange & _ & _ & Hnum).
    exfalso. exact (Hout sel els el _ _ Hsel Hf Hel Hread Hnum Hrange).
Qed.

End PriceExtraction.

Section PriceExamples.

Import Text Prices.

Local Open Scope Z_scope.

(** The amended statement at a text with thousands separators. *)
Lemma extract_price_from_element_range_witness :
  extract_price_from_element sample_interpreter (product_with_text "1,299")
    = Some {| price := 1299; original_text := literal "1,299";
              selector_used := ".a-price-whole" |} /\
  (50 <= 1299 <= 10000000).
Proof.
  split; [by vm_compute |].
  apply (proj1 (extract_price_from_element_range sample_interpreter
                  (product_with_text "1,299"))
           {| price := 1299; original_text := literal "1,299";
              selector_used := ".a-price-whole" |}).
  by vm_compute.
Defined.

(** C2 as stated fails: in the text [Rs, 500] the first run of digits and
    commas is the lone comma, which holds no integer, yet the extractor
    returns a record, with price 500. *)
Lemma comma_before_digits_yields_record :
  spec_extracted_integer sample_interpreter (literal "Rs, 500") = None /\
  extract_price_from_element sample_interpreter (product_with_text "Rs, 500")
    = Some {| price := 500; original_text := literal "Rs, 500";
              selector_used := ".a-price-whole" |}.
Proof. split; by vm_compute. Qed.

End PriceExamples.

(* ===================================================================== *)
(** * utils/browser_config.py: single-tab enforcement *)
(* ===================================================================== *)

Section SingleTab.

Import BrowserConfig.

(** A command that succeeds leaves the windows as its body leaves them. *)
Lemma command_ok {A} (body : driver -> result A * driver) (d d' : driver) (a : A) :
  command body d = (Ok a, d') ->
  exists d0, window_handles d0 = window_handles d /\
             current_window d0 = current_window d /\
             body d0 = (Ok a, d').
Proof.
  unfold command. destruct (faults d) as [|[] later]; [| done |].
  - intros H. by exists d.
  - intros H. eexists. split; [| split; [| exact H]]; done.
Qed.

Lemma is_open_true (h : string) (d : driver) :
  is_open h d = true <-> h ∈ window_handles d.
Proof. unfold is_open. apply bool_decide_eq_true. Qed.

Lemma execute_script_ok (d d' : driver) :
  execute_script d = (Ok tt, d') ->
  window_handles d' = window_handles d /\
  current_window d' = current_window d /\
  current_window d ∈ window_handles d.
Proof.
  intros H. apply command_ok in H as (d0 & Hh & Hc & H).
  destruct (is_open (current_window d0) d0) eqn:E; [| done].
  injection H as <-. apply is_open_true in E. by rewrite <- Hh, <- Hc.
Qed.

Lemma get_window_handles_ok (d d' : driver) (hs : list string) :
  get_window_handles d = (Ok hs, d') ->
  hs = window_handles d /\
  window_handles d' = window_handles d /\
  current_window d' = current_window d.
Proof.
  intros H. apply command_ok in H as (d0 & Hh & Hc & H).
  injection H as <- <-. by rewrite Hh, Hc.
Qed.

Lemma switch_to_window_ok (h : string) (d d' : driver) :
  switch_to_window h d = (Ok tt, d') ->
  h ∈ window_handles d /\
  window_handles d' = window_handles d /\
  current_window d' = h.
Proof.
  intros H. apply command_ok in H as (d0 & Hh & Hc & H).
  destruct (is_open h d0) eqn:E; [| done].
  injection H as <-. apply is_open_true in E. simpl. by rewrite <- Hh.
Qed.

Lemma close_ok (d d' : driver) :
  close d = (Ok tt, d') ->
  window_handles d'
    = List.filter (fun h => negb (String.eqb h (current_window d)))
                  (window_handles d) /\
  current_window d' = current_window d.
Proof.
  intros H. apply command_ok in H as (d0 & Hh & Hc & H).
  destruct (is_open (current_window d0) d0); [| done].
  injection H as <-. simpl. by rewrite Hh, Hc.
Qed.

Lemma bind_ok {A B} (m : M A) (k : A -> M B) (d d' : driver) (b : B) :
  bind m k d = (Ok b, d') ->
  exists a d1, m d = (Ok a, d1) /\ k a d1 = (Ok b, d').
Proof.
  unfold bind. destruct (m d) as [[a | e] d1]; [| done].
  intros H. by exists a, d1.
Qed.

(** Removing a handle that occurs once, at the head of the rest. *)
Lemma filter_out_head (h : string) (pre rest : list string) :
  h ∉ pre -> h ∉ rest ->
  List.filter (fun x => negb (String.eqb x h)) (pre ++ h :: rest)
  = (pre ++ rest)%list.
Proof.
  intros Hpre Hrest.
  assert (Hkeep : forall l, h ∉ l ->
            List.filter (fun x => negb (String.eqb x h)) l = l).
  { induction l as [|x l IH]; simpl; [done |].
    intros [Hx Hl]%not_elem_of_cons.
    destruct (String.eqb_spec x h) as [->|]; [done |]. simpl. by rewrite IH. }
  rewrite List.filter_app. simpl. rewrite String.eqb_refl. simpl.
  by rewrite !Hkeep.
Qed.

(** The loop closes, one by one, the windows it is given and no other. *)
Lemma close_each_ok (to_close : list string) :
  forall (kept : list string) (d d' : driver),
    NoDup (kept ++ to_close)%list ->
    window_handles d = (kept ++ to_close)%list ->
    close_each to_close d = (Ok tt, d') ->
    window_handles d' = kept.
Proof.
  induction to_close as [|h rest IH]; intros kept d d' Hnd Hd H.
  - injection H as <-. by rewrite Hd, app_nil_r.
  - simpl in H.
    apply bind_ok in H as ([] & d1 & Hsw & H).
    apply bind_ok in H as ([] & d2 & Hcl & H).
    apply switch_to_window_ok in Hsw as (_ & Hh1 & Hc1).
    apply close_ok in Hcl as (Hh2 & Hc2).
    apply NoDup_app in Hnd as (Hk & Hdisj & Hr).
    apply NoDup_cons in Hr as (Hh & Hr).
    apply (IH kept d2 d'); [| | exact H].
    + apply NoDup_app. repeat split; [done | | done].
      intros x Hx Hx'. apply (Hdisj x Hx). by right.
    + rewrite Hh2, Hc1, Hh1, Hd. apply filter_out_head; [| done].
      intros Hin. apply (Hdisj h Hin). left.
Qed.

(** The body never answers [False]: failure is always an exception. *)
Lemma enforce_body_true (d d' : driver) (b : bool) :
  enforce_body d = (Ok b, d') -> b = true.
Proof.
  unfold enforce_body. intros H.
  apply bind_ok in H as ([] & d1 & _ & H).
  apply bind_ok in H as (hs & d2 & _ & H).
  destruct hs as [|main_handle [|second more]];
    [by injection H | by injection H |].
  apply bind_ok in H as ([] & d3 & _ & H).
  apply bind_ok in H as ([] & d4 & _ & H).
  by injection H.
Qed.

Lemma enforce_body_ok (d d' : driver) :
  NoDup (window_handles d) ->
  enforce_body d = (Ok true, d') ->
  exists main_handle others,
    window_handles d = main_handle :: others /\
    window_handles d' = [main_handle] /\
    current_window d' = main_handle.
Proof.
  unfold enforce_body. intros Hnd H.
  apply bind_ok in H as ([] & d1 & Hex & H).
  apply bind_ok in H as (hs & d2 & Hget & H).
  apply execute_script_ok in Hex as (Hh1 & Hc1 & Hopen).
  apply get_window_handles_ok in Hget as (-> & Hh2 & Hc2).
  rewrite Hh1 in *.
  destruct (window_handles d) as [|main_handle [|second more]] eqn:Hd.
  - by apply elem_of_nil in Hopen.
  - injection H as <-. exists main_handle, [].
    apply list_elem_of_singleton in Hopen.
    by rewrite Hh2, Hc2, Hc1.
  - apply bind_ok in H as ([] & d3 & Hloop & H).
    apply bind_ok in H as ([] & d4 & Hsw & H).
    injection H as <-.
    apply (close_each_ok _ [main_handle]) in Hloop; [| done | done].
    apply switch_to_window_ok in Hsw as (_ & Hh4 & Hc4).
    exists main_handle, (second :: more). by rewrite Hh4, Hloop.
Qed.

(** With a driver that does not fail on its own and a current window
    that is open, the enforcement succeeds. *)
Lemma command_no_faults {A} (body : driver -> result A * driver) (d : driver) :
  faults d = [] -> command body d = body d.
Proof. unfold command. by intros ->. Qed.

Lemma close_each_succeeds (to_close : list string) :
  forall (kept : list string) (d : driver),
    NoDup (kept ++ to_close)%list ->
    window_handles d = (kept ++ to_close)%list ->
    faults d = [] ->
    exists d', close_each to_close d = (Ok tt, d') /\ faults d' = [] /\
               window_handles d' = kept.
Proof.
  induction to_close as [|h rest IH]; intros kept d Hnd Hd Hf.
  - exists d. by rewrite Hd, app_nil_r.
  - simpl. unfold bind at 1. unfold switch_to_window.
    rewrite (command_no_faults _ _ Hf).
    assert (Hopen : is_open h d = true).
    { apply is_open_true. rewrite Hd. apply elem_of_app. right. left. }
    rewrite Hopen. unfold bind at 1. unfold close.
    rewrite command_no_faults by done. simpl.
    rewrite (proj2 (is_open_true h _)) by (simpl; by apply is_open_true).
    apply NoDup_app in Hnd as (Hk & Hdisj & Hr).
    apply NoDup_cons in Hr as (Hh & Hr).
    apply IH; simpl; [| | done].
    + apply NoDup_app. repeat split; [done | | done].
      intros x Hx Hx'. apply (Hdisj x Hx). by right.
    + rewrite Hd. apply filter_out_head; [| done].
      intros Hin. apply (Hdisj h Hin). left.
Qed.

Lemma enforce_body_succeeds (d : driver) :
  NoDup (window_handles d) ->
  faults d = [] ->
  current_window d ∈ window_handles d ->
  exists d', enforce_body d = (Ok true, d').
Proof.
  intros Hnd Hf Hopen. unfold enforce_body.
  unfold bind at 1. unfold execute_script.
  rewrite command_no_faults by done.
  rewrite (proj2 (is_open_true _ _) Hopen).
  unfold bind at 1. unfold get_window_handles.
  rewrite command_no_faults by done.
  destruct (window_handles d) as [|main_handle [|second more]] eqn:Hd;
    [by eexists | by eexists |].
  destruct (close_each_succeeds (second :: more) [main_handle] d)
    as (d1 & Hloop & Hf1 & Hh1); [done | done | done |].
  unfold bind at 1. rewrite Hloop.
  unfold bind at 1. unfold switch_to_window.
  rewrite command_no_faults by done.
  rewrite (proj2 (is_open_true main_handle d1))
    by (rewrite Hh1; apply list_elem_of_singleton; done).
  by eexists.
Qed.

(** C4: from any set of distinct open handles, a call that reports
    success leaves exactly one window open, the first the driver listed,
    and the driver on it.  The call answers with a boolean in every case:
    it is [False] exactly when the body raised, and with a driver that
    does not fail on its own and an open current window it is [True]. *)
Theorem enforce_single_tab_mode_keeps_first (d : driver) :
  NoDup (window_handles d) ->
  (forall d', enforce_single_tab_mode d = (true, d') ->
     exists main_handle others,
       window_handles d = main_handle :: others /\
       window_handles d' = [main_handle] /\
       current_window d' = main_handle) /\
  (fst (enforce_single_tab_mode d) = false <->
     exists e d', enforce_body d = (Raise e, d')) /\
  (faults d = [] -> current_window d ∈ window_handles d ->
     fst (enforce_single_tab_mode d) = true).
Proof.
  intros Hnd. unfold enforce_single_tab_mode. repeat split.
  - intros d' H. destruct (enforce_body d) as [[b | e] d1] eqn:Hb; [| done].
    injection H as -> ->. by apply enforce_body_ok.
  - destruct (enforce_body d) as [[b | e] d1] eqn:Hb; simpl.
    + intros ->. by apply enforce_body_true in Hb.
    + intros _. by exists e, d1.
  - intros (e & d' & ->). done.
  - intros Hf Hopen.
    destruct (enforce_body_succeeds d Hnd Hf Hopen) as (d' & ->). done.
Qed.

(** Three windows, the driver on the last one opened. *)
Lemma enforce_single_tab_mode_keeps_first_witness :
  exists main_handle others,
    ["main"; "popup"; "ad"] = main_handle :: others /\
    ["main"] = [main_handle] /\ "main" = main_handle.
Proof.
  pose (d := {| window_handles := ["main"; "popup"; "ad"];
                current_window := "ad"; faults := [] |}).
  assert (Hnd : NoDup (window_handles d)).
  { apply NoDup_ListNoDup. repeat constructor; simpl; intuition discriminate. }
  exact (proj1 (enforce_single_tab_mode_keeps_first d Hnd)
           {| window_handles := ["main"]; current_window := "main";
              faults := [] |} eq_refl).
Defined.

End SingleTab.

(* ===================================================================== *)
(** * utils/enhanced_reporting.py: the summary numbers *)
(* ===================================================================== *)

Section ReportSummary.

Import PyNum Reporting.

Local Open Scope Z_scope.

Lemma count_status_acc (wanted : string) (results : list test_result) (acc : Z) :
  fold_left
    (fun acc r => if String.eqb (status r) wanted then acc + 1 else acc)
    results acc
  = acc + Z.of_nat (length (with_status wanted results)).
Proof.
  revert acc. induction results as [|r results IH]; intros acc; simpl; [lia |].
  rewrite IH. destruct (String.eqb (status r) wanted); simpl; lia.
Qed.

(** The generator sum counts the results that have the status. *)
Lemma count_status_length (wanted : string) (results : list test_result) :
  count_status wanted results
  = Z.of_nat (length (with_status wanted results)).
Proof. unfold count_status. rewrite count_status_acc. lia. Qed.

(** The count only reads the statuses. *)
Lemma with_status_statuses (wanted : string) (results : list test_result) :
  length (with_status wanted results)
  = length (List.filter (fun s => String.eqb s wanted) (map status results)).
Proof.
  induction results as [|r results IH]; simpl; [done |].
  destruct (String.eqb (status r) wanted); simpl; by rewrite IH.
Qed.

Lemma count_status_statuses (wanted : string) (results : list test_result) :
  count_status wanted results
  = Z.of_nat (length (List.filter (fun s => String.eqb s wanted)
                                  (map status results))).
Proof. by rewrite count_status_length, with_status_statuses. Qed.

Lemma len_statuses (results : list test_result) :
  len results = Z.of_nat (length (map status results)).
Proof. unfold len. by rewrite length_map. Qed.

(** C1, as amended: the JSON summary holds the number of results, the
    number of results with each of the three statuses, and the success
    rate passed/total*100 (0 without results); for the statuses passed,
    passed, failed, skipped these are 4, 2, 1, 1 and 50.0.  The HTML
    generator computes the same total, counts, success rate and session
    duration from the same state.  The total duration, the sum of the
    result durations, is computed for the HTML report only: the JSON report
    has no entry for it. *)
Theorem report_summaries_agree (fs : filesystem) (self : EnhancedReporter) :
  let results := test_results self in
  let report := generate_json_report self in
  let html := summary (generate_enhanced_html_report fs self) in
  (report_number "summary" "total_tests" report
     = Some (Int (Z.of_nat (length results))) /\
   report_number "summary" "passed" report
     = Some (Int (Z.of_nat (length (with_status "passed" results)))) /\
   report_number "summary" "failed" report
     = Some (Int (Z.of_nat (length (with_status "failed" results)))) /\
   report_number "summary" "skipped" report
     = Some (Int (Z.of_nat (length (with_status "skipped" results)))) /\
   report_number "summary" "success_rate" report
     = Some match results with
            | [] => Int 0
            | _ => mul (truediv
                          (Int (Z.of_nat (length (with_status "passed" results))))
                          (Int (Z.of_nat (length results))))
                       (Int 100)
            end) /\
  (map status results = ["passed"; "passed"; "failed"; "skipped"] ->
   report_number "summary" "total_tests" report = Some (Int 4) /\
   report_number "summary" "passed" report = Some (Int 2) /\
   report_number "summary" "failed" report = Some (Int 1) /\
   report_number "summary" "skipped" report = Some (Int 1) /\
   report_number "summary" "success_rate" report = Some fifty) /\
  (report_number "summary" "total_tests" report = Some (Int (total_tests html)) /\
   report_number "summary" "passed" report = Some (Int (passed_tests html)) /\
   report_number "summary" "failed" report = Some (Int (failed_tests html)) /\
   report_number "summary" "skipped" report = Some (Int (skipped_tests html)) /\
   report_number "summary" "success_rate" report = Some (success_rate html) /\
   report_number "session" "duration" report = Some (session_duration html)) /\
  total_duration html = sum (map duration results) /\
  report_number "summary" "total_duration" report = None /\
  report_number "session" "total_duration" report = None.
Proof.
  intros results report html.
  assert (Hrate : report_number "summary" "success_rate" report
                  = Some (success_rate html)).
  { subst report html results. unfold report_number; simpl.
    unfold len. destruct (test_results self); [done |].
    by replace (0 <? Z.of_nat (length (t :: l))) with true
      by (symmetry; apply Z.ltb_lt; simpl; lia). }
  split; [| split; [| split; [| by repeat split]]].
  - subst report results. unfold report_number; simpl.
    rewrite !count_status_length. by repeat split.
  - intros Hst. subst report results. unfold report_number; simpl.
    rewrite !count_status_statuses, len_statuses, Hst.
    destruct (test_results self); [done |]. by repeat split.
  - by repeat split.
Qed.

(** The statement at the sample session. *)
Lemma report_summaries_agree_witness :
  report_number "summary" "passed" (generate_json_report sample_session)
    = Some (Int 2) /\
  report_number "summary" "success_rate" (generate_json_report sample_session)
    = Some fifty.
Proof.
  destruct (report_summaries_agree ∅ sample_session)
    as (_ & Hexample & _).
  destruct (Hexample eq_refl) as (_ & Hpassed & _ & _ & Hrate).
  exact (conj Hpassed Hrate).
Defined.

(** C1 as stated fails: the HTML generator computes a total duration
    (here 12 seconds), and none of the numbers of the JSON report's summary
    and session is a total duration. *)
Lemma json_report_has_no_total_duration :
  total_duration (summary (generate_enhanced_html_report ∅ sample_session))
    = Int 12 /\
  numbers_of (section "summary" (generate_json_report sample_session))
    = [Int 4; Int 2; Int 1; Int 1; fifty] /\
  numbers_of (section "session" (generate_json_report sample_session))
    = [Float (float_of_int 20)] /\
  report_number "summary" "total_duration"
    (generate_json_report sample_session) = None.
Proof. by vm_compute. Qed.

End ReportSummary.

(* ===================================================================== *)
(** * utils/enhanced_reporting.py: screenshots *)
(* ===================================================================== *)

Section Screenshots.

Import Reporting.

Lemma path_exists_true (fs : filesystem) (p : string) :
  path_exists fs p = true <-> p ∈ fs.
Proof. unfold path_exists. apply bool_decide_eq_true. Qed.

(** The gallery shows, in order, the recorded screenshots whose file
    exists when the report is rendered. *)
Lemma gallery_items_paths (fs : filesystem) (shots : list screenshot) :
  map src (gallery_items fs shots)
  = List.filter (path_exists fs) (map path shots).
Proof.
  induction shots as [|shot shots IH]; simpl; [done |].
  destruct (path_exists fs (path shot)); simpl; by rewrite IH.
Qed.

Lemma gallery_items_exist (fs : filesystem) (shots : list screenshot)
    (item : gallery_item) :
  item ∈ gallery_items fs shots ->
  src item ∈ fs /\ exists shot, shot ∈ shots /\ path shot = src item.
Proof.
  induction shots as [|shot shots IH]; simpl.
  - intros H. by apply elem_of_nil in H.
  - destruct (path_exists fs (path shot)) eqn:E.
    + intros [-> | H]%elem_of_cons.
      * simpl. split; [by apply path_exists_true |].
        exists shot. split; [left | done].
      * destruct (IH H) as (? & shot' & ? & ?).
        split; [done |]. exists shot'. split; [by right | done].
    + intros H. destruct (IH H) as (? & shot' & ? & ?).
      split; [done |]. exists shot'. split; [by right | done].
Qed.

(** C7: recording a screenshot whose file does not exist changes nothing;
    every card of the rendered gallery shows a recorded screenshot whose
    file exists at render time, and the cards are exactly those; so a
    screenshot recorded while its file existed and rendered after the file
    was deleted has no card. *)
Theorem gallery_references_existing_files
    (fs_recorded fs_rendered : filesystem) (now : datetime)
    (path description : string) (self : EnhancedReporter) :
  (path ∉ fs_recorded ->
     add_screenshot fs_recorded now path description self = self) /\
  (forall items,
     gallery (generate_enhanced_html_report fs_rendered self) = Some items ->
     map src items
       = List.filter (path_exists fs_rendered)
                     (map Reporting.path (screenshots self)) /\
     forall item, item ∈ items ->
       src item ∈ fs_rendered /\
       exists shot, shot ∈ screenshots self /\ Reporting.path shot = src item) /\
  (path ∈ fs_recorded -> path ∉ fs_rendered ->
   forall items,
     gallery (generate_enhanced_html_report fs_rendered
                (add_screenshot fs_recorded now path description self))
       = Some items ->
     forall item, item ∈ items -> src item <> path).
Proof.
  assert (Hgallery : forall r items,
    gallery (generate_enhanced_html_report fs_rendered r) = Some items ->
    items = gallery_items fs_rendered (screenshots r)).
  { intros r items. unfold generate_enhanced_html_report; simpl.
    destruct (screenshots r); [done | by intros [= <-]]. }
  split; [| split].
  - intros Hno. unfold add_screenshot.
    destruct (path_exists fs_recorded path) eqn:E; [| done].
    by apply path_exists_true in E.
  - intros items ->%Hgallery. split; [apply gallery_items_paths |].
    intros item. apply gallery_items_exist.
  - intros _ Hgone items ->%Hgallery item Hin Heq.
    apply gallery_items_exist in Hin as [Hex _]. by rewrite Heq in Hex.
Qed.

(** A screenshot whose file is missing is not recorded; one recorded
    while its file existed and rendered after the file was deleted leaves
    the gallery without cards. *)
Lemma gallery_references_existing_files_witness :
  add_screenshot ∅ 7%Z "screenshots/FAILED_test.png" "failure" new_reporter
    = new_reporter /\
  map src []
    = List.filter (path_exists ∅)
        (map Reporting.path
           (screenshots
              (add_screenshot {[ "screenshots/FAILED_test.png" ]} 7%Z
                 "screenshots/FAILED_test.png" "failure" new_reporter))).
Proof.
  split.
  - apply (gallery_references_existing_files ∅ ∅ 7%Z
             "screenshots/FAILED_test.png" "failure" new_reporter).
    set_solver.
  - apply (gallery_references_existing_files ∅ ∅ 7%Z
             "screenshots/FAILED_test.png" "failure"
             (add_screenshot {[ "screenshots/FAILED_test.png" ]} 7%Z
                "screenshots/FAILED_test.png" "failure" new_reporter)).
    reflexivity.
Defined.

End Screenshots.

(* ===================================================================== *)
(** * run_tests.py: exit codes *)
(* ===================================================================== *)

Section ExitCodes.

Import Runner.

Local Open Scope Z_scope.

Lemma launches_log_launched (cmd : list string) (st : state) :
  launches (log (Launched cmd) st) = (launches st ++ [cmd])%list.
Proof. unfold launches, log; simpl. by rewrite omap_app. Qed.

Lemma makedirs_quiet (directory : string) (st : state) :
  launches (snd (makedirs directory st)) = launches st /\
  stdin (snd (makedirs directory st)) = stdin st.
Proof.
  unfold makedirs. destruct (bool_decide _); [done |].
  unfold launches, log; simpl. rewrite omap_app; simpl.
  by rewrite app_nil_r.
Qed.

Lemma make_directories_quiet (names : list string) (st : state) :
  launches (snd (make_directories names st)) = launches st /\
  stdin (snd (make_directories names st)) = stdin st.
Proof.
  revert st. induction names as [|directory rest IH]; intros st; [done |].
  cbn [make_directories].
  destruct (makedirs_quiet directory st) as [Hl Hi].
  destruct (makedirs directory st) as [[[] | e] st1]; simpl in *; [| done].
  destruct (IH st1) as [Hl' Hi']. split; congruence.
Qed.

(** The pre-flight check starts no process and reads no input. *)
Lemma check_environment_quiet (env : environment) (st : state) :
  launches (snd (check_environment env st)) = launches st /\
  stdin (snd (check_environment env st)) = stdin st /\
  (fst (check_environment env st) = Ok false ->
   snd (check_environment env st) = st).
Proof.
  unfold check_environment.
  destruct (version_too_old _); [done |].
  destruct (negb (forallb (importable env) _)); [done |].
  destruct (negb (forallb _ test_files)); [done |].
  destruct (make_directories_quiet directories st) as [Hl Hi].
  by destruct (make_directories directories st) as [[[] | e] st1].
Qed.

Lemma clean_directory_quiet (directory : string) (st : state) :
  launches (snd (clean_directory directory st)) = launches st /\
  stdin (snd (clean_directory directory st)) = stdin st.
Proof.
  unfold clean_directory.
  destruct (bool_decide (directory ∈ existing st)); [| done].
  by destruct (bool_decide (directory ∈ files st)).
Qed.

(** Cleaning starts no process and reads no input. *)
Lemma clean_artifacts_quiet (st : state) :
  launches (snd (clean_artifacts st)) = launches st /\
  stdin (snd (clean_artifacts st)) = stdin st.
Proof.
  unfold clean_artifacts.
  destruct (clean_directory_quiet "reports" st) as [Hl Hi].
  destruct (clean_directory "reports" st) as [[[] | e] st1]; simpl in *;
    [| done].
  destruct (clean_directory_quiet "screenshots" st1) as [Hl' Hi'].
  split; congruence.
Qed.

Lemma run_launches (env : environment) (cmd : list string) (st : state) :
  launches (snd (run env cmd st)) = (launches st ++ [cmd])%list /\
  forall c, subprocess_run env cmd = Completed c ->
            fst (run env cmd st) = Ok c.
Proof.
  unfold run. destruct (subprocess_run env cmd); simpl;
    (split; [apply launches_log_launched | congruence]).
Qed.

(** The interactive loop returns 0 whenever it returns. *)
Lemma interactive_loop_returns_zero (fuel : nat) (env : environment)
    (st st' : state) (c : Z) :
  interactive_loop fuel env st = (Ok c, st') -> c = 0.
Proof.
  revert st. induction fuel as [|fuel IH]; intros st; simpl;
    destruct (interactive_step env st) as [[[c0 | e] |] st1] eqn:Hstep;
    try congruence; try apply IH.
  all: intros [= <- <-]; unfold interactive_step in Hstep;
    destruct (input st) as [[choice | e] st0]; [| done];
    destruct (dispatch env choice st0) as [[[] | e] st2];
    [ congruence | done | by destruct (input st2) as [[? | ?] ?] ].
Qed.

(** A recognized flag selects one command line. *)
Lemma recognized_flag_runs (env : environment) (a : string) (st1 : state) :
  recognized_flag a = true ->
  exists cmd,
    head cmd = Some "pytest" /\
    (if String.eqb (PyStr.lower a) "--basic" then run_basic_tests env st1
     else if String.eqb (PyStr.lower a) "--advanced"
          then run_advanced_tests env st1
     else if String.eqb (PyStr.lower a) "--both"
             || String.eqb (PyStr.lower a) "--all"
          then run_both_tests env st1
     else (Ok 1, st1))
    = run env cmd st1.
Proof.
  unfold recognized_flag. intros Hrec.
  destruct (String.eqb (PyStr.lower a) "--basic");
    [eexists; split; [| reflexivity]; done |].
  destruct (String.eqb (PyStr.lower a) "--advanced");
    [eexists; split; [| reflexivity]; done |].
  simpl in Hrec. rewrite Hrec. eexists; split; [| reflexivity]; done.
Qed.

(** C8: with a flag that is not recognized the runner ends with status 1
    and starts no process; when the pre-flight check fails, by answering
    [False] or by raising, it ends with status 1, whatever the arguments,
    and no process has been started; with a recognized flag and a passing
    check it starts one process, the test runner, and returns that run's
    return code, which is the exit status when it is an exit code
    (0..255); the interactive mode returns 0 whenever it returns, and does
    so on the choice 0. *)
Theorem cli_exit_codes (env : environment) (st : state) :
  (forall prog a rest,
     recognized_flag a = false ->
     fst (cli env (prog :: a :: rest) st) = 1 /\
     launches (snd (cli env (prog :: a :: rest) st)) = launches st) /\
  (forall argv,
     fst (check_environment env st) = Ok false ->
     cli env argv st = (1, st)) /\
  (forall argv e,
     fst (check_environment env st) = Raise e ->
     fst (cli env argv st) = 1 /\
     launches (snd (cli env argv st)) = launches st) /\
  (forall prog a rest,
     fst (check_environment env st) = Ok true ->
     recognized_flag a = true ->
     exists cmd,
       head cmd = Some "pytest" /\
       launches (snd (cli env (prog :: a :: rest) st))
         = (launches st ++ [cmd])%list /\
       forall c, subprocess_run env cmd = Completed c ->
         fst (main env (prog :: a :: rest) st) = Ok c /\
         fst (cli env (prog :: a :: rest) st) = c mod 256 /\
         (0 <= c < 256 -> fst (cli env (prog :: a :: rest) st) = c)) /\
  (forall prog c st',
     main env [prog] st = (Ok c, st') ->
     fst (check_environment env st) = Ok true -> c = 0) /\
  (forall prog line rest,
     fst (check_environment env st) = Ok true ->
     stdin st = line :: rest -> PyStr.strip line = "0" ->
     fst (cli env [prog] st) = 0 /\
     launches (snd (cli env [prog] st)) = launches st).
Proof.
  destruct (check_environment_quiet env st) as (Hl & Hin & Hsame).
  unfold cli, main, recognized_flag.
  destruct (check_environment env st) as [[[] | e] st1] eqn:Hcheck;
    simpl in *.
  - split; [| split; [done | split; [done | split; [| split]]]].
    + intros prog a rest Hrec.
      apply orb_false_iff in Hrec as [Hrec Hall].
      apply orb_false_iff in Hrec as [Hrec Hboth].
      apply orb_false_iff in Hrec as [Hbasic Hadv].
      by rewrite Hbasic, Hadv, Hboth, Hall.
    + intros prog a rest _ Hrec.
      destruct (recognized_flag_runs env a st1 Hrec) as (cmd & Hhead & ->).
      exists cmd. destruct (run_launches env cmd st1) as [Hrun Hcode].
      destruct (run env cmd st1) as [r st2] eqn:Hr. simpl in *.
      rewrite Hl in Hrun. split; [exact Hhead |]. split; [exact Hrun |].
      intros c Hc. rewrite (Hcode c Hc). simpl.
      repeat split. intros Hc'. by apply Z.mod_small.
    + intros prog c st' H _. by apply interactive_loop_returns_zero in H.
    + intros prog line rest _ Hst Hstrip.
      assert (Hst1 : stdin st1 = line :: rest) by congruence.
      rewrite Hst1. simpl.
      unfold interactive_step, input. rewrite Hst1, Hstrip.
      unfold dispatch. simpl. by rewrite <- Hl.
  - split; [| split; [| split; [| split; [| split]]]]; try done.
    intros argv _. by rewrite Hsame.
  - split; [| split; [| split; [| split; [| split]]]]; try done.
Qed.

(** The statement on a machine that passes the check: an unknown flag, a
    recognized one, and the interactive choice 0; and on the machine where
    a regular file is named [reports], with a recognized flag. *)
Lemma cli_exit_codes_witness :
  fst (cli sample_environment ["run_tests.py"; "--fast"] (sample_state [])) = 1 /\
  fst (cli sample_environment ["run_tests.py"] (sample_state [" 0 "])) = 0 /\
  fst (cli sample_environment ["run_tests.py"; "--basic"] blocked_state) = 1 /\
  launches (snd (cli sample_environment ["run_tests.py"; "--basic"]
                   blocked_state)) = [].
Proof.
  destruct (cli_exit_codes sample_environment (sample_state []))
    as (Hunknown & _).
  destruct (cli_exit_codes sample_environment (sample_state [" 0 "]))
    as (_ & _ & _ & _ & _ & Hquit).
  destruct (cli_exit_codes sample_environment blocked_state)
    as (_ & _ & Hraise & _).
  split; [| split].
  - exact (proj1 (Hunknown "run_tests.py" "--fast" [] eq_refl)).
  - exact (proj1 (Hquit "run_tests.py" " 0 " [] eq_refl eq_refl eq_refl)).
  - exact (Hraise ["run_tests.py"; "--basic"] FileExistsError eq_refl).
Defined.

End ExitCodes.

(* ===================================================================== *)
(** * tests/test_amazon_complete.py: the price-accuracy validators *)
(* ===================================================================== *)

Section PriceAccuracy.

Import PyNum Validators.

Local Open Scope Z_scope.

Variables (ceiling expected_max_price : num).

Lemma invalid_entry_eq (p : product) (n : num) (t : string) :
  truthy_price p = Some n -> title_prefix p = Ok t ->
  [ ("title", VStr t); ("price", VNum n);
    ("expected_max", VNum expected_max_price) ]
  = invalid_entry expected_max_price p.
Proof.
  unfold invalid_entry, title_prefix. intros ->.
  destruct (title p); [by intros [= <-] | done | by intros [= <-]].
Qed.

Lemma titled_prefix (p : product) :
  titled p = true -> exists t, title_prefix p = Ok t.
Proof. unfold titled, title_prefix. destruct (title p); by eauto. Qed.

Lemma untitled_prefix (p : product) :
  titled p = false -> title_prefix p = Raise TypeError.
Proof. unfold titled, title_prefix. by destruct (title p). Qed.

(** The loop appends, in order, the prices within the ceiling to one
    list and an entry for each product above it to the other. *)
Lemma partition_prices_ok (products_data : list product) :
  forall valid_prices invalid_prices,
    (forall p, p ∈ products_data ->
       over_ceiling ceiling p = true -> titled p = true) ->
    partition_prices products_data ceiling expected_max_price
      valid_prices invalid_prices
    = Ok ((valid_prices ++ prices_within ceiling products_data)%list,
          (invalid_prices
             ++ map (invalid_entry expected_max_price)
                    (products_over ceiling products_data))%list).
Proof.
  induction products_data as [|p ps IH]; intros valid invalid Htitled.
  - simpl. by rewrite !app_nil_r.
  - assert (Hps : forall q, q ∈ ps ->
              over_ceiling ceiling q = true -> titled q = true)
      by (intros q Hq; apply Htitled; by right).
    pose proof (Htitled p ltac:(left)) as Hp.
    simpl. unfold products_over, prices_within, over_ceiling in *. simpl.
    destruct (truthy_price p) as [n|] eqn:Hprice; [| by apply IH].
    destruct (le n ceiling); simpl.
    + rewrite IH by done. by rewrite <- !app_assoc.
    + destruct (titled_prefix p (Hp eq_refl)) as [t Ht]. rewrite Ht.
      rewrite IH by done. rewrite <- !app_assoc. simpl.
      by rewrite (invalid_entry_eq p n t).
Qed.

(** A product above the ceiling whose title is [None] makes the loop
    raise. *)
Lemma partition_prices_raise (products_data : list product) :
  forall valid_prices invalid_prices,
    (exists p, p ∈ products_data /\
       over_ceiling ceiling p = true /\ titled p = false) ->
    partition_prices products_data ceiling expected_max_price
      valid_prices invalid_prices
    = Raise TypeError.
Proof.
  induction products_data as [|p ps IH]; intros valid invalid (q & Hq & Hover & Hun).
  - by apply elem_of_nil in Hq.
  - simpl. unfold over_ceiling in Hover.
    apply elem_of_cons in Hq as [-> | Hq].
    + destruct (truthy_price p) as [n|]; [| done].
      destruct (le n ceiling); [done |].
      by rewrite (untitled_prefix p Hun).
    + assert (Hex : exists p0, p0 ∈ ps /\
                over_ceiling ceiling p0 = true /\ titled p0 = false)
        by (exists q; by unfold over_ceiling).
      destruct (truthy_price p) as [n|]; [| by apply IH].
      destruct (le n ceiling); [by apply IH |].
      destruct (title_prefix p) as [t | []]; [by apply IH | done].
Qed.

End PriceAccuracy.

Section ValidatorReports.

Import PyNum Validators.

Local Open Scope Z_scope.

Lemma len_map {A B} (f : A -> B) (l : list A) : len (map f l) = len l.
Proof. unfold len. by rewrite length_map. Qed.

(** C3 at the input on which the code departs from it: one product,
    priced 1000 against an expected maximum of 500, whose title is
    [None].  The enhanced validator raises instead of reporting. *)
Lemma validate_price_accuracy_enhanced_untitled :
  validate_price_accuracy_enhanced
    [ {| title := Null; price := Value (Int 1000) |} ]
    (Int 500) default_tolerance_enhanced
  = Raise TypeError.
Proof. reflexivity. Qed.


(** The enhanced validator on a non-empty list whose products above the
    ceiling all have a title, for a ceiling that is a finite double (where
    the conversion of an integer to a double overflows, Python raises
    [OverflowError] and the model has an infinity): the ceiling is
    expected + expected * (tolerance / 100); the priced products are split
    into those within the ceiling and those above it; the accuracy is
    valid / (valid + invalid) * 100, or 0 when no product is priced; and
    [passed] holds exactly when the accuracy is at least 40 or at least two
    prices are valid.  Prices 400, 450, 600 against 500 give 100.0 and
    pass; prices 400, 1000 give 50.0 and pass. *)
Theorem validate_price_accuracy_enhanced_report
    (products_data : list product) (expected_max_price tolerance_percent : num) :
  let ceiling := max_allowed expected_max_price tolerance_percent in
  let valid := prices_within ceiling products_data in
  let over := products_over ceiling products_data in
  let accuracy := accuracy_of (len valid) (len valid + len over) in
  products_data <> [] ->
  finite ceiling = true ->
  all_titled_over ceiling products_data ->
  ceiling = add expected_max_price
              (mul expected_max_price (truediv tolerance_percent (Int 100))) /\
  validate_price_accuracy_enhanced products_data
      expected_max_price tolerance_percent
    = Ok (report products_data valid
            (map (invalid_entry expected_max_price) over) accuracy
            (ge accuracy (Int 40) || (2 <=? len valid))) /\
  accuracy = (if 0 <? len valid + len over
              then mul (truediv (Int (len valid)) (Int (len valid + len over)))
                       (Int 100)
              else Int 0) /\
  validate_price_accuracy_enhanced
      [priced "a" 400; priced "b" 450; priced "c" 600]
      (Int 500) default_tolerance_enhanced
    = Ok (report [priced "a" 400; priced "b" 450; priced "c" 600]
            [Int 400; Int 450; Int 600] [] hundred true) /\
  validate_price_accuracy_enhanced
      [priced "a" 400; priced "b" 1000]
      (Int 500) default_tolerance_enhanced
    = Ok (report [priced "a" 400; priced "b" 1000]
            [Int 400] [invalid_entry (Int 500) (priced "b" 1000)]
            (Float (float_of_int 50)) true).
Proof.
  intros ceiling valid over accuracy Hne _ Htitled.
  split; [done |]. split; [| by split].
  unfold validate_price_accuracy_enhanced.
  destruct products_data as [|p ps]; [done |].
  rewrite (partition_prices_ok _ _ (p :: ps) [] [] Htitled). simpl.
  by rewrite len_map.
Qed.

(** The statement at two books against an expected maximum of 500. *)
Lemma validate_price_accuracy_enhanced_report_witness :
  validate_price_accuracy_enhanced
      [priced "a" 400; priced "b" 1000] (Int 500) default_tolerance_enhanced
    = Ok (report [priced "a" 400; priced "b" 1000]
            [Int 400] [invalid_entry (Int 500) (priced "b" 1000)]
            (Float (float_of_int 50)) true).
Proof.
  refine (proj1 (proj2 (validate_price_accuracy_enhanced_report
            [priced "a" 400; priced "b" 1000] (Int 500)
            default_tolerance_enhanced _ _ _))).
  - done.
  - reflexivity.
  - intros p Hp _.
    apply elem_of_cons in Hp as [-> | Hp]; [done |].
    apply list_elem_of_singleton in Hp as ->. done.
Defined.

(** C10: on the empty list the strict validator returns an accuracy of 0
    and a message, without a [passed] entry, where the enhanced one
    returns [passed] false.  On a non-empty list every result the strict
    validator returns holds the accuracy and a [passed] entry that tells
    whether the accuracy is at least 70; and it does return one whenever
    the ceiling is a finite double and every product above the ceiling
    has a title other than [None], as the products its caller passes
    have. *)
Theorem validate_price_accuracy_result_shapes
    (products_data : list product) (expected_max_price tolerance_percent : num) :
  let ceiling := max_allowed expected_max_price tolerance_percent in
  validate_price_accuracy [] expected_max_price tolerance_percent
    = Ok [ ("accuracy", VNum (Int 0));
           ("details", VStr "No products to validate") ] /\
  has_key "passed"
    [ ("accuracy", VNum (Int 0));
      ("details", VStr "No products to validate") ] = false /\
  (exists d, validate_price_accuracy_enhanced []
               expected_max_price tolerance_percent = Ok d /\
             lookup "passed" d = Some (VBool false) /\
             lookup "accuracy" d = Some (VNum (Int 0))) /\
  (forall d,
     products_data <> [] ->
     validate_price_accuracy products_data
       expected_max_price tolerance_percent = Ok d ->
     exists accuracy,
       lookup "accuracy" d = Some (VNum accuracy) /\
       lookup "passed" d = Some (VBool (ge accuracy (Int 70))) /\
       has_key "passed" d = true) /\
  (products_data <> [] -> finite ceiling = true ->
   all_titled_over ceiling products_data ->
   exists d,
     validate_price_accuracy products_data
       expected_max_price tolerance_percent = Ok d) /\
  (exists d,
     validate_price_accuracy [priced "a" 400; priced "b" 1000]
       (Int 500) default_tolerance = Ok d /\
     lookup "accuracy" d = Some (VNum (Float (float_of_int 50))) /\
     lookup "passed" d = Some (VBool false)).
Proof.
  intros ceiling. split; [done |]. split; [done |].
  split; [by eexists |]. split; [| split].
  - intros d Hne. unfold validate_price_accuracy.
    destruct products_data as [|p ps]; [done |].
    destruct (partition_prices (p :: ps) _ expected_max_price [] [])
      as [[valid invalid] | e]; [| done].
    intros [= <-]. by eexists.
  - intros Hne _ Htitled. unfold validate_price_accuracy.
    destruct products_data as [|p ps]; [done |].
    rewrite (partition_prices_ok _ _ (p :: ps) [] [] Htitled). simpl.
    by eexists.
  - exists (report [priced "a" 400; priced "b" 1000] [Int 400]
              [invalid_entry (Int 500) (priced "b" 1000)]
              (Float (float_of_int 50)) false).
    split; [by vm_compute |]. by vm_compute.
Qed.

End ValidatorReports.

(* ===================================================================== *)
(** * tests/test_amazon_complete.py: the assertions of the workflow test *)
(* ===================================================================== *)

Section WorkflowAssertions.

Import Workflow.

Local Open Scope Z_scope.

(** By the time the combined workflow test reaches its final assertion
    the three assertions before it have set three of the four flags: the
    test passes exactly when those three hold, and the final assertion
    never fails.  The price flag is never set without the extraction
    flag. *)
Theorem workflow_final_assertion_implied (m : measurements) :
  (workflow_assertions m = TestPassed <->
     1 <= basic_products m /\ 1 <= len (products_data m) /\
     1 <= interaction_score m) /\
  workflow_assertions m <> AssertionError "Insufficient workflow success" /\
  (price_data_success (flags_of m) = true ->
   advanced_success (flags_of m) = true).
Proof.
  assert (Hprice : price_data_success (flags_of m) = true ->
                   advanced_success (flags_of m) = true).
  { unfold flags_of, len; simpl. rewrite products_with_prices_counts.
    pose proof (List.filter_length_le has_price (products_data m)).
    intros [H' | H']%orb_true_iff; apply Z.leb_le in H'; apply Z.leb_le; lia. }
  enough (Hmain :
    (workflow_assertions m = TestPassed <->
       1 <= basic_products m /\ 1 <= len (products_data m) /\
       1 <= interaction_score m) /\
    workflow_assertions m <> AssertionError "Insufficient workflow success")
    by (destruct Hmain as [H1 H2]; exact (conj H1 (conj H2 Hprice))).
  clear Hprice.
  unfold workflow_assertions, phase4_passes, total_phases_passed, flags_of.
  simpl.
  destruct (1 <=? basic_products m) eqn:Hb; simpl;
    [| split; [split; [done | lia] | done]].
  destruct (1 <=? len (products_data m)) eqn:Ha; simpl;
    [| split; [split; [done | lia] | done]].
  destruct (1 <=? interaction_score m) eqn:Hi; simpl;
    [| split; [split; [done | lia] | done]].
  destruct (_ || _); simpl; (split; [split; [lia | done] | done]).
Qed.

End WorkflowAssertions.

(* ===================================================================== *)
(** * run_tests.py: the menus read every line at most once *)
(* ===================================================================== *)

Section MenuFuel.

Import Runner.

Implicit Types (env : environment) (st : state).

Lemma input_ok st st' (s : string) :
  input st = (Ok s, st') -> S (lines_left st') = lines_left st.
Proof.
  unfold input, lines_left. destruct (stdin st) as [|line rest]; [done |].
  by intros [= _ <-].
Qed.

Lemma input_raise st st' (e : exception) :
  input st = (Raise e, st') -> st' = st.
Proof.
  unfold input. destruct (stdin st); [by intros [= _ <-] | done].
Qed.

Lemma run_lines env (cmd : list string) st :
  lines_left (snd (run env cmd st)) = lines_left st.
Proof. unfold run. by destruct (subprocess_run env cmd). Qed.

(** A pass through the selection menu that goes round again has read a
    line; any pass leaves no more lines than it found. *)
Lemma selection_step_lines env st st' (r : option (result unit)) :
  selection_step env st = (r, st') ->
  (lines_left st' <= lines_left st)%nat /\
  (r = None -> (lines_left st' < lines_left st)%nat).
Proof.
  unfold selection_step.
  destruct (input st) as [[category_choice | e] st1] eqn:Hin.
  - apply input_ok in Hin.
    assert (Hpick : forall test_class tests,
      match input st1 with
      | (Raise e, st2) => (Some (Raise e), st2)
      | (Ok test_choice, st2) =>
          match menu_pick 1 test_choice tests with
          | Some test_name =>
              match run_specific_test_category env test_class test_name st2 with
              | (Ok _, st3) => (Some (Ok tt), st3)
              | (Raise e, st3) => (Some (Raise e), st3)
              end
          | None => (None, st2)
          end
      end = (r, st') ->
      (lines_left st' <= lines_left st)%nat /\
      (r = None -> (lines_left st' < lines_left st)%nat)).
    { intros test_class tests.
      destruct (input st1) as [[test_choice | e] st2] eqn:Hin2.
      - apply input_ok in Hin2.
        destruct (menu_pick 1 test_choice tests) as [test_name|].
        + unfold run_specific_test_category.
          pose proof (run_lines env
            [ "pytest";
              "tests/test_amazon_complete.py::" ++ test_class ++ "::" ++ test_name;
              "-v"; "--tb=short"; "-s" ] st2) as Hrun.
          destruct (run env _ st2) as [[c | e] st3]; simpl in Hrun;
            intros [= <- <-]; (split; [lia | done]).
        + intros [= <- <-]. split; lia.
      - apply input_raise in Hin2 as ->. intros [= <- <-]. split; [lia | done]. }
    destruct (String.eqb category_choice "0");
      [intros [= <- <-]; split; [lia | done] |].
    destruct (String.eqb category_choice "1"); [apply Hpick |].
    destruct (String.eqb category_choice "2"); [apply Hpick |].
    destruct (String.eqb category_choice "3"); [apply Hpick |].
    intros [= <- <-]. split; lia.
  - apply input_raise in Hin as ->. intros [= <- <-]. split; [lia | done].
Qed.

Lemma selection_loop_lines (fuel : nat) env st :
  (lines_left (snd (selection_loop fuel env st)) <= lines_left st)%nat.
Proof.
  revert st. induction fuel as [|fuel IH]; intros st; simpl;
    destruct (selection_step env st) as [[r |] st1] eqn:Hstep;
    apply selection_step_lines in Hstep as [Hle _]; simpl; try done.
  etrans; [apply IH | done].
Qed.

(** Fuel beyond the number of lines left changes nothing. *)
Lemma selection_loop_fuel (n m : nat) env st :
  (lines_left st <= n)%nat -> (lines_left st <= m)%nat ->
  selection_loop n env st = selection_loop m env st.
Proof.
  revert m st. induction n as [|n IH]; intros m st Hn Hm;
    destruct m as [|m]; simpl;
    destruct (selection_step env st) as [[r |] st1] eqn:Hstep; try done;
    apply selection_step_lines in Hstep as [_ Hlt];
    specialize (Hlt eq_refl); try lia.
  apply IH; lia.
Qed.

Lemma run_tests_lines env st :
  lines_left (snd (run_basic_tests env st)) = lines_left st /\
  lines_left (snd (run_advanced_tests env st)) = lines_left st /\
  lines_left (snd (run_both_tests env st)) = lines_left st.
Proof. repeat split; apply run_lines. Qed.

Lemma dispatch_lines env (choice : string) st :
  (lines_left (snd (dispatch env choice st)) <= lines_left st)%nat.
Proof.
  unfold dispatch.
  set (chosen := if String.eqb choice "1" then _ else _).
  assert (Hchosen : (lines_left (snd chosen) <= lines_left st)%nat).
  { subst chosen. destruct (run_tests_lines env st) as (Hb & Ha & Hall).
    destruct (String.eqb choice "1").
    { destruct (run_basic_tests env st) as [[c | e] st0]; simpl in *; lia. }
    destruct (String.eqb choice "2").
    { destruct (run_advanced_tests env st) as [[c | e] st0]; simpl in *; lia. }
    destruct (String.eqb choice "3").
    { destruct (run_both_tests env st) as [[c | e] st0]; simpl in *; lia. }
    destruct (String.eqb choice "4"); [apply selection_loop_lines |].
    destruct (String.eqb choice "5"); [done |].
    destruct (String.eqb choice "6").
    { pose proof (proj1 (proj2 (check_environment_quiet env st))) as Hq.
      unfold lines_left.
      destruct (check_environment env st) as [[b | e] st0]; simpl in *;
        by rewrite Hq. }
    destruct (String.eqb choice "7"); [| done].
    unfold lines_left. by rewrite (proj2 (clean_artifacts_quiet st)). }
  destruct chosen as [[[] | e] st1]; simpl in *; [| done].
  destruct (String.eqb choice "0"); [done |].
  destruct (_ || _); [| done].
  destruct (input st1) as [[s | e] st2] eqn:Hin; simpl.
  - apply input_ok in Hin. lia.
  - by apply input_raise in Hin as ->.
Qed.

Lemma interactive_step_lines env st st' :
  interactive_step env st = (None, st') ->
  (lines_left st' < lines_left st)%nat.
Proof.
  unfold interactive_step.
  destruct (input st) as [[choice | e] st1] eqn:Hin; [| done].
  apply input_ok in Hin.
  pose proof (dispatch_lines env choice st1) as Hd.
  destruct (dispatch env choice st1) as [[[] | e] st2]; simpl in Hd.
  - done.
  - intros [= <-]. lia.
  - destruct (input st2) as [[s | e'] st3] eqn:Hin2; [| done].
    apply input_ok in Hin2. intros [= <-]. lia.
Qed.

(** The fuel [main] and [handle_specific_test_selection] give their loops
    is enough: with any larger amount the loops end the same way. *)
Theorem menu_loops_have_enough_fuel env st (extra : nat) :
  interactive_loop (lines_left st + extra) env st
    = interactive_loop (lines_left st) env st /\
  selection_loop (lines_left st + extra) env st
    = handle_specific_test_selection env st.
Proof.
  split; [| apply selection_loop_fuel; unfold lines_left; lia].
  assert (H : forall n m s, (lines_left s <= n)%nat -> (lines_left s <= m)%nat ->
                            interactive_loop n env s = interactive_loop m env s).
  { induction n as [|n IH]; intros m s Hn Hm;
      destruct m as [|m]; simpl;
      destruct (interactive_step env s) as [[r |] s1] eqn:Hstep; try done;
      apply interactive_step_lines in Hstep; try lia.
    apply IH; lia. }
  apply H; lia.
Qed.

End MenuFuel.

(* ===================================================================== *)
(** * tests/test_amazon_complete.py: the legacy price extractor *)
(* ===================================================================== *)

Section LegacyPrice.

Import PyStr Helpers Suite.

Local Open Scope Z_scope.

(** A non-empty run of backslashes and letters d is no decimal number. *)
Lemma backslash_d_run_not_int (s : string) :
  int_of_string
    (remove_char ","%char (take_while is_backslash_d_or_comma s)) = None.
Proof.
  unfold int_of_string.
  induction s as [|c s IH]; [done |].
  destruct (Ascii.eqb_spec c "\"%char) as [->|Hb]; [done |].
  destruct (Ascii.eqb_spec c "d"%char) as [->|Hd]; [done |].
  destruct (Ascii.eqb_spec c ","%char) as [->|Hc]; [simpl; exact IH |].
  assert (Hcls : is_backslash_d_or_comma c = false).
  { unfold is_backslash_d_or_comma.
    by rewrite !(proj2 (Ascii.eqb_neq _ _)) by done. }
  simpl. by rewrite Hcls.
Qed.

Lemma search_run_take_while (p : ascii -> bool) (s g : string) :
  search_run p s = Some g -> exists s', g = take_while p s'.
Proof.
  induction s as [|c s IH]; [done |].
  change (search_run p (String c s))
    with (if p c then Some (take_while p (String c s)) else search_run p s).
  destruct (p c); [| exact IH]. intros [= <-]. by exists (String c s).
Qed.

Lemma price_attempt_backslash (product : product_node) (selector : string)
    (price : Z) :
  price_attempt is_backslash_d_or_comma product selector <> Got price.
Proof.
  unfold price_attempt.
  destruct (find_element product selector) as [| | el]; [done | done |].
  destruct (text_or_content el) as [t | |]; [| done | done].
  destruct (search_run _ _) as [g|] eqn:E; [| done].
  apply search_run_take_while in E as [s' ->].
  by rewrite backslash_d_run_not_int.
Qed.

Lemma price_loop_range (in_class : ascii -> bool) (product : product_node)
    (selectors : list string) (price : Z) :
  price_loop in_class product selectors = Return (Some price) ->
  50 <= price <= 1000000.
Proof.
  induction selectors as [|selector rest IH]; simpl; [done |].
  destruct (price_attempt in_class product selector) as [p | |] eqn:E;
    [| exact IH | done].
  intros [= ->]. unfold price_attempt in E.
  destruct (find_element product selector) as [| | el]; [done | done |].
  destruct (text_or_content el) as [t | |]; [| done | done].
  destruct (search_run _ _) as [g|]; [| done].
  destruct (int_of_string _) as [v|]; [| done].
  destruct (_ && _) eqn:Hr; [| done].
  injection E as ->. apply andb_true_iff in Hr as [? ?]. lia.
Qed.

(** [extract_product_price] of the advanced suite never returns a price:
    the character class of its pattern holds the backslash and the letter
    d instead of the digits, so every match fails to parse and is skipped.
    The method of the backup suite, with the class of digits, returns
    prices, each within 50..1,000,000; on the text [1,299] it gives 1299
    where the advanced suite gives nothing. *)
Theorem extract_product_price_never_finds (product : product_node) :
  (extract_product_price product = Return None \/
   extract_product_price product = Uncaught) /\
  (forall price,
     backup_extract_product_price product = Return (Some price) ->
     50 <= price <= 1000000) /\
  backup_extract_product_price (node_with_text "1,299") = Return (Some 1299) /\
  extract_product_price (node_with_text "1,299") = Return None.
Proof.
  split; [| split; [apply price_loop_range | by split]].
  unfold extract_product_price.
  induction legacy_price_selectors as [|selector rest IH]; simpl; [by left |].
  pose proof (price_attempt_backslash product selector) as Hno.
  destruct (price_attempt _ product selector) as [p | |];
    [by destruct (Hno p) | exact IH | by right].
Qed.

End LegacyPrice.

(* ===================================================================== *)
(** * utils/test_helpers.py: the list of extracted prices *)
(* ===================================================================== *)

Section SmartPriceExtractor.

Import Text Prices.

Local Open Scope Z_scope.

Context (py : interpreter).

Lemma smart_price_extractor_omap (products : list product_element) :
  smart_price_extractor py products
  = omap (extract_price_from_element py) products.
Proof.
  induction products as [|p ps IH]; simpl; [done |].
  destruct (extract_price_from_element py p); by rewrite IH.
Qed.

Lemma extract_price_from_element_bounds (product : product_element)
    (r : price_data) :
  extract_price_from_element py product = Some r ->
  50 <= price r <= 10000000.
Proof.
  intros H.
  destruct (extract_with_selectors_inv py _ _ _ H)
    as (sel & els & _ & _ & Hs).
  destruct (scan_price_elements_inv py _ _ _ Hs) as (el & _ & _ & Hp).
  by destruct (price_of_text_inv py _ _ _ Hp) as (Hrange & _).
Qed.

(** [smart_price_extractor] keeps, in the order of the products, exactly
    the records [extract_price_from_element] finds: no more records than
    products, every record is the record of one of the products and has a
    price within the range, and no product that has a record is left
    out. *)
Theorem smart_price_extractor_records (products : list product_element) :
  smart_price_extractor py products
  = omap (extract_price_from_element py) products /\
  (length (smart_price_extractor py products) <= length products)%nat /\
  (forall r, r ∈ smart_price_extractor py products ->
     50 <= price r <= 10000000 /\
     exists product, product ∈ products /\
       extract_price_from_element py product = Some r) /\
  (forall product r, product ∈ products ->
     extract_price_from_element py product = Some r ->
     r ∈ smart_price_extractor py products).
Proof.
  assert (Hlen : (length (smart_price_extractor py products)
                  <= length products)%nat).
  { induction products as [|product rest IH]; simpl; [done |].
    destruct (extract_price_from_element py product); simpl; lia. }
  rewrite smart_price_extractor_omap in *. split; [done |]. split.
  - exact Hlen.
  - split.
    + intros r (product & Hin & Hr)%list_elem_of_omap.
      split; [by eapply extract_price_from_element_bounds |].
      by exists product.
    + intros product r Hin Hr. apply list_elem_of_omap. by exists product.
Qed.

End SmartPriceExtractor.

(* ===================================================================== *)
(** * utils/browser_config.py: what single-tab enforcement leaves alone *)
(* ===================================================================== *)

Section SingleTabFrame.

Import BrowserConfig Navigation.

(** However a command ends, it either failed before its body, leaving
    the windows untouched, or ran its body on the same windows. *)
Lemma command_inv {A} (body : driver -> result A * driver) (d d' : driver)
    (r : result A) :
  command body d = (r, d') ->
  (window_handles d' = window_handles d /\
   current_window d' = current_window d /\ exists e, r = Raise e) \/
  exists d0, window_handles d0 = window_handles d /\
             current_window d0 = current_window d /\
             body d0 = (r, d').
Proof.
  unfold command. destruct (faults d) as [|[] later].
  - intros H. right. by exists d.
  - intros [= <- <-]. left. simpl. repeat split. by eexists.
  - intros H. right.
    by exists {| window_handles := window_handles d;
                 current_window := current_window d;
                 faults := later |}.
Qed.

Lemma execute_script_same (d d' : driver) (r : result unit) :
  execute_script d = (r, d') -> window_handles d' = window_handles d.
Proof.
  intros [(Hh & _) | (d0 & Hh & _ & H)]%command_inv; [done |].
  by destruct (is_open _ d0); injection H as <- <-.
Qed.

Lemma get_window_handles_same (d d' : driver) (r : result (list string)) :
  get_window_handles d = (r, d') ->
  window_handles d' = window_handles d /\
  (forall hs, r = Ok hs -> hs = window_handles d).
Proof.
  intros [(Hh & _ & e & ->) | (d0 & Hh & _ & H)]%command_inv; [done |].
  injection H as <- <-. split; [done |]. by intros hs [= <-].
Qed.

Lemma switch_to_window_same (h : string) (d d' : driver) (r : result unit) :
  switch_to_window h d = (r, d') ->
  window_handles d' = window_handles d /\
  (r = Ok tt -> current_window d' = h).
Proof.
  intros [(Hh & _ & e & ->) | (d0 & Hh & _ & H)]%command_inv; [done |].
  by destruct (is_open h d0); injection H as <- <-.
Qed.

Lemma keeps_refl (main : string) (rest : list string) :
  keeps main (main :: rest) (main :: rest).
Proof. by exists rest, rest. Qed.

Lemma sublist_list_filter (p : string -> bool) (l : list string) :
  sublist (List.filter p l) l.
Proof.
  induction l as [|x l IH]; simpl; [constructor |].
  destruct (p x); by constructor.
Qed.

(** Closing a window other than [main]. *)
Lemma close_keeps (main : string) (l0 : list string) (d d' : driver)
    (r : result unit) :
  current_window d <> main ->
  keeps main l0 (window_handles d) ->
  close d = (r, d') -> keeps main l0 (window_handles d').
Proof.
  intros Hne Hk [(Hh & _) | (d0 & Hh & Hc & H)]%command_inv;
    [by rewrite Hh |].
  destruct (is_open _ d0); injection H as <- <-; [| by rewrite Hh].
  simpl. rewrite Hh, Hc.
  destruct Hk as (rest & rest' & -> & -> & Hsub). simpl.
  destruct (String.eqb_spec main (current_window d)) as [E | _];
    [congruence |]. simpl.
  eexists rest, _. repeat split.
  etrans; [apply sublist_list_filter | done].
Qed.

Lemma close_each_keeps (main : string) (l0 to_close : list string) :
  forall (d d' : driver) (r : result unit),
    main ∉ to_close ->
    keeps main l0 (window_handles d) ->
    close_each to_close d = (r, d') -> keeps main l0 (window_handles d').
Proof.
  induction to_close as [|h rest IH]; intros d d' r Hmain Hk H.
  - by injection H as <- <-.
  - apply not_elem_of_cons in Hmain as [Hne Hrest].
    simpl in H. unfold bind in H.
    destruct (switch_to_window h d) as [[[] | e] d1] eqn:Hsw;
      apply switch_to_window_same in Hsw as [Hh1 Hc1];
      [| injection H as <- <-; by rewrite Hh1].
    specialize (Hc1 eq_refl). rewrite <- Hh1 in Hk.
    destruct (close d1) as [[[] | e] d2] eqn:Hcl;
      apply (close_keeps main l0) in Hcl; try congruence; try done.
    by apply (IH d2 d' r).
Qed.

Lemma enforce_body_keeps (main : string) (others : list string)
    (d d' : driver) (r : result bool) :
  NoDup (window_handles d) ->
  window_handles d = main :: others ->
  enforce_body d = (r, d') ->
  keeps main (main :: others) (window_handles d').
Proof.
  intros Hnd Hd H. unfold enforce_body, bind in H.
  pose proof (keeps_refl main others) as Hk.
  destruct (execute_script d) as [[[] | e] d1] eqn:Hex;
    apply execute_script_same in Hex;
    [| injection H as <- <-; congruence].
  destruct (get_window_handles d1) as [[hs | e] d2] eqn:Hget;
    apply get_window_handles_same in Hget as [Hh2 Hhs];
    [| injection H as <- <-; congruence].
  rewrite (Hhs hs eq_refl), Hex, Hd in H.
  assert (Hk2 : keeps main (main :: others) (window_handles d2))
    by congruence.
  destruct others as [|second more]; [by injection H as <- <- |].
  rewrite Hd in Hnd. apply NoDup_cons in Hnd as [Hmain _].
  destruct (close_each (second :: more) d2) as [[[] | e] d3] eqn:Hloop;
    apply (close_each_keeps main (main :: second :: more)) in Hloop;
    try done.
  - destruct (switch_to_window main d3) as [[[] | e] d4] eqn:Hsw;
      apply switch_to_window_same in Hsw as [Hh4 _];
      injection H as <- <-; by rewrite Hh4.
  - by injection H as <- <-.
Qed.

(** A driver without failures of its own stays so. *)
Lemma command_faults {A} (body : driver -> result A * driver) (d d' : driver)
    (r : result A) :
  faults d = [] ->
  (forall d0 r0 d1, faults d0 = [] -> body d0 = (r0, d1) -> faults d1 = []) ->
  command body d = (r, d') -> faults d' = [].
Proof. intros Hf Hbody. rewrite command_no_faults by done. by apply Hbody. Qed.

Lemma close_each_faults (to_close : list string) :
  forall (d d' : driver) (r : result unit),
    faults d = [] -> close_each to_close d = (r, d') -> faults d' = [].
Proof.
  induction to_close as [|h rest IH]; intros d d' r Hf H.
  - by injection H as <- <-.
  - simpl in H. unfold bind in H.
    destruct (switch_to_window h d) as [[[] | e] d1] eqn:Hsw;
      apply command_faults in Hsw; try done;
      try (intros d0 r0 d3 Hf0; destruct (is_open h d0);
           by intros [= <- <-]).
    + destruct (close d1) as [[[] | e] d2] eqn:Hcl;
        apply command_faults in Hcl; try done;
        try (intros d0 r0 d3 Hf0; destruct (is_open _ d0);
             by intros [= <- <-]).
      * by apply (IH d2 d' r).
      * by injection H as <- <-.
    + by injection H as <- <-.
Qed.

Lemma enforce_body_faults (d d' : driver) (r : result bool) :
  faults d = [] -> enforce_body d = (r, d') -> faults d' = [].
Proof.
  intros Hf H. unfold enforce_body, bind in H.
  destruct (execute_script d) as [[[] | e] d1] eqn:Hex;
    apply command_faults in Hex; try done;
    try (intros d0 r0 d5 Hf0; destruct (is_open _ d0); by intros [= <- <-]);
    [| by injection H as <- <-].
  destruct (get_window_handles d1) as [[hs | e] d2] eqn:Hget;
    apply command_faults in Hget; try done;
    try (intros d0 r0 d5 Hf0; by intros [= <- <-]);
    [| by injection H as <- <-].
  destruct hs as [|main_handle [|second more]];
    try by injection H as <- <-.
  destruct (close_each (second :: more) d2) as [[[] | e] d3] eqn:Hloop;
    apply close_each_faults in Hloop; try done;
    [| by injection H as <- <-].
  destruct (switch_to_window main_handle d3) as [[[] | e] d4] eqn:Hsw;
    apply command_faults in Hsw; try done;
    try (intros d0 r0 d5 Hf0; destruct (is_open _ d0); by intros [= <- <-]);
    by injection H as <- <-.
Qed.

(** The run of the enforcement on a healthy driver, with the state it
    ends in. *)
Lemma enforce_healthy (d : driver) (main : string) (others : list string) :
  healthy d -> window_handles d = main :: others ->
  enforce_single_tab_mode d
  = (true, {| window_handles := [main]; current_window := main;
              faults := [] |}).
Proof.
  intros (Hf & Hnd & Hopen) Hd.
  destruct (enforce_body_succeeds d Hnd Hf Hopen) as [d' Hb].
  pose proof (enforce_body_faults _ _ _ Hf Hb) as Hf'.
  destruct (enforce_body_ok _ _ Hnd Hb) as (m & o & Hd' & Hh & Hc).
  unfold enforce_single_tab_mode. rewrite Hb.
  rewrite Hd in Hd'. injection Hd' as <- <-.
  destruct d'. simpl in *. by subst.
Qed.

Lemma enforce_single_tab_mode_keeps (d d' : driver) (b : bool)
    (main : string) (others : list string) :
  NoDup (window_handles d) ->
  window_handles d = main :: others ->
  enforce_single_tab_mode d = (b, d') ->
  exists left,
    window_handles d' = main :: left /\ sublist left others /\
    NoDup (window_handles d').
Proof.
  intros Hnd Hd He. unfold enforce_single_tab_mode in He.
  destruct (enforce_body d) as [r d0] eqn:Hb.
  assert (d0 = d') as -> by (destruct r; congruence).
  pose proof (enforce_body_keeps main others d d' r Hnd Hd Hb)
    as (rest & left & [= <-] & Hd' & Hsub).
  exists left. repeat split; [done | done |].
  rewrite Hd'. rewrite Hd in Hnd. apply NoDup_cons in Hnd as [Hm Ho].
  apply NoDup_cons. split.
  - intros Hin. apply Hm. by eapply elem_of_sublist.
  - by eapply sublist_NoDup.
Qed.

Lemma enforce_single_tab_mode_faults (d d' : driver) (b : bool) :
  faults d = [] -> enforce_single_tab_mode d = (b, d') -> faults d' = [].
Proof.
  intros Hf He. unfold enforce_single_tab_mode in He.
  destruct (enforce_body d) as [r d0] eqn:Hb.
  assert (d0 = d') as -> by (destruct r; congruence).
  by eapply enforce_body_faults.
Qed.

(** Single-tab enforcement, whether it succeeds or fails midway, never
    closes the first window and opens none: the windows left are the first
    one followed by some of the others, in their order.  After a success a
    further call on a driver that no longer fails changes nothing. *)
Theorem enforce_single_tab_mode_frame (d : driver) (main : string)
    (others : list string) :
  NoDup (window_handles d) ->
  window_handles d = main :: others ->
  let d' := snd (enforce_single_tab_mode d) in
  (exists left, window_handles d' = main :: left /\ sublist left others) /\
  NoDup (window_handles d') /\
  (fst (enforce_single_tab_mode d) = true -> faults d' = [] ->
   enforce_single_tab_mode d' = (true, d')).
Proof.
  intros Hnd Hd d'. subst d'.
  destruct (enforce_single_tab_mode d) as [b d'] eqn:He. simpl.
  destruct (enforce_single_tab_mode_keeps _ _ _ _ _ Hnd Hd He)
    as (left & Hd' & Hsub & Hnd').
  split; [by exists left |]. split; [done |].
  intros -> Hf'. unfold enforce_single_tab_mode in He.
  destruct (enforce_body d) as [[b | e] d0] eqn:Hb; [| done].
  injection He as -> ->.
  destruct (enforce_body_ok _ _ Hnd Hb) as (m & o & Hd0 & Hh & Hc).
  rewrite Hd in Hd0. injection Hd0 as <- <-.
  assert (Hhealthy : healthy d').
  { repeat split; [done | done |]. rewrite Hh, Hc. left. }
  rewrite (enforce_healthy d' main [] Hhealthy Hh).
  destruct d'. simpl in *. by rewrite Hh, Hc, Hf'.
Qed.

(** Three windows and a driver that fails on its fourth command. *)
Lemma enforce_single_tab_mode_frame_witness :
  exists left,
    window_handles
      (snd (enforce_single_tab_mode
              {| window_handles := ["main"; "popup"; "ad"];
                 current_window := "main";
                 faults := [false; false; false; true] |}))
    = "main" :: left /\ sublist left ["popup"; "ad"].
Proof.
  refine (proj1 (enforce_single_tab_mode_frame
            {| window_handles := ["main"; "popup"; "ad"];
               current_window := "main";
               faults := [false; false; false; true] |}
            "main" ["popup"; "ad"] _ eq_refl)).
  apply NoDup_ListNoDup. repeat constructor; simpl; intuition discriminate.
Defined.

(** The page load of [driver.get]: it fails without touching the windows,
    or appends the windows the page opens. *)
Lemma get_inv (url : string) (opened : list string) (d d' : driver)
    (r : result unit) :
  get url opened d = (r, d') ->
  (window_handles d' = window_handles d /\ exists e, r = Raise e) \/
  (window_handles d' = (window_handles d ++ opened)%list /\ r = Ok tt).
Proof.
  intros [(Hh & _ & He) | (d0 & Hh & _ & H)]%command_inv; [by left |].
  destruct (is_open _ d0); injection H as <- <-.
  - right. simpl. by rewrite Hh.
  - left. split; [done | by eexists].
Qed.

Lemma click_is_navigate (url : string) (opened : list string) (d : driver) :
  click_element_single_tab opened d = navigate_single_tab url opened d.
Proof. reflexivity. Qed.

(** [navigate_single_tab] and [click_element_single_tab] on a driver that
    does not fail, whose page opens the windows [opened]: both answer
    [True] and leave exactly the first window, which is the current one. *)
Theorem navigate_single_tab_healthy (url : string) (opened : list string)
    (d : driver) (main : string) (others : list string) :
  healthy d ->
  window_handles d = main :: others ->
  NoDup (main :: opened) ->
  let single := {| window_handles := [main]; current_window := main;
                   faults := [] |} in
  navigate_single_tab url opened d = (true, single) /\
  click_element_single_tab opened d = (true, single).
Proof.
  intros Hd Hh Hnew single.
  assert (H : navigate_single_tab url opened d = (true, single)).
  { unfold navigate_single_tab.
    rewrite (enforce_healthy d main others Hd Hh).
    unfold get. rewrite command_no_faults by done.
    rewrite (proj2 (is_open_true _ _)) by left.
    rewrite (enforce_healthy _ main opened); [done | | done].
    by repeat split; [| left]. }
  split; [done |]. by rewrite (click_is_navigate url).
Qed.

Lemma navigate_single_tab_healthy_witness :
  let d := {| window_handles := ["main"; "old popup"];
              current_window := "old popup"; faults := [] |} in
  let single := {| window_handles := ["main"]; current_window := "main";
                   faults := [] |} in
  navigate_single_tab "https://www.amazon.in" ["new popup"] d
  = (true, single) /\
  click_element_single_tab ["new popup"] d = (true, single).
Proof.
  refine (navigate_single_tab_healthy "https://www.amazon.in" ["new popup"]
            {| window_handles := ["main"; "old popup"];
               current_window := "old popup"; faults := [] |}
            "main" ["old popup"] _ eq_refl _).
  - repeat split; [| right; left].
    apply NoDup_ListNoDup. repeat constructor; simpl; intuition discriminate.
  - apply NoDup_ListNoDup. repeat constructor; simpl; intuition discriminate.
Defined.

(** With a driver that may fail at any command, [navigate_single_tab]
    still never closes the first window: what is left is the first window
    followed by some of the old windows and of those the page opened.  Its
    answer only tells whether [driver.get] raised; it is [True] also when
    an enforcement failed and further windows are left open. *)
Theorem navigate_single_tab_frame (url : string) (opened : list string)
    (d : driver) (main : string) (others : list string) :
  NoDup (window_handles d ++ opened)%list ->
  window_handles d = main :: others ->
  (exists left,
     window_handles (snd (navigate_single_tab url opened d)) = main :: left /\
     sublist left (others ++ opened)%list) /\
  (fst (navigate_single_tab url opened d) = false <->
   exists e d2,
     get url opened (snd (enforce_single_tab_mode d)) = (Raise e, d2)) /\
  (exists failing,
     faults failing <> [] /\
     fst (navigate_single_tab url ["popup"] failing) = true /\
     (1 < length (window_handles
                    (snd (navigate_single_tab url ["popup"] failing))))%nat).
Proof.
  intros Hnd Hd. split; [| split].
  - unfold navigate_single_tab.
    destruct (enforce_single_tab_mode d) as [b1 d1] eqn:He1.
    assert (Hnd0 : NoDup (window_handles d))
      by (by apply NoDup_app in Hnd as [? _]).
    destruct (enforce_single_tab_mode_keeps _ _ _ _ _ Hnd0 Hd He1)
      as (left1 & Hd1 & Hsub1 & Hnd1).
    destruct (get url opened d1) as [[[] | e] d2] eqn:Hget; simpl.
    + apply get_inv in Hget as [(_ & e & He) | (Hd2 & _)]; [done |].
      rewrite Hd1 in Hd2. simpl in Hd2.
      assert (Hsub2 : sublist (main :: left1 ++ opened)%list
                        (window_handles d ++ opened)%list).
      { rewrite Hd. simpl. constructor. by apply sublist_app. }
      assert (Hnd2 : NoDup (window_handles d2)).
      { rewrite Hd2. exact (sublist_NoDup _ _ Hnd Hsub2). }
      destruct (enforce_single_tab_mode d2) as [b3 d3] eqn:He3. simpl.
      destruct (enforce_single_tab_mode_keeps _ _ _ _ _ Hnd2 Hd2 He3)
        as (left3 & Hd3 & Hsub3 & _).
      exists left3. split; [done |].
      etrans; [done |]. by apply sublist_app.
    + apply get_inv in Hget as [(Hd2 & _) | (_ & He)]; [| done].
      exists left1. split; [congruence |].
      etrans; [done |]. by apply sublist_inserts_r.
  - unfold navigate_single_tab.
    destruct (enforce_single_tab_mode d) as [b1 d1]. simpl.
    destruct (get url opened d1) as [[[] | e] d2]; simpl.
    + destruct (enforce_single_tab_mode d2). simpl.
      split; [done |]. by intros (e & d3 & ?).
    + split; [| done]. intros _. by exists e, d2.
  - exists {| window_handles := ["main"]; current_window := "main";
              faults := [false; false; false; true] |}.
    split; [done |]. by vm_compute.
Qed.

Lemma navigate_single_tab_frame_witness :
  exists left,
    window_handles
      (snd (navigate_single_tab "https://www.amazon.in" ["popup"]
              {| window_handles := ["main"; "ad"]; current_window := "ad";
                 faults := [false; false; true] |}))
    = "main" :: left /\
    sublist left (["ad"] ++ ["popup"])%list.
Proof.
  refine (proj1 (navigate_single_tab_frame "https://www.amazon.in" ["popup"]
            {| window_handles := ["main"; "ad"]; current_window := "ad";
               faults := [false; false; true] |}
            "main" ["ad"] _ eq_refl)).
  apply NoDup_ListNoDup. repeat constructor; simpl; intuition discriminate.
Defined.

End SingleTabFrame.
(* ===================================================================== *)
(** * utils/enhanced_reporting.py: the metrics dict and the counters *)
(* ===================================================================== *)

Section ReporterState.

Import PyNum Reporting Conftest.

Local Open Scope Z_scope.

Lemma dict_set_assoc {V} (k : string) (v : V) (d : list (string * V)) :
  assoc k (dict_set k v d) = Some v.
Proof.
  induction d as [|[k' v'] d IH]; simpl.
  - by rewrite String.eqb_refl.
  - destruct (String.eqb_spec k k') as [<- | Hne]; simpl.
    + by rewrite String.eqb_refl.
    + destruct (String.eqb_spec k' k) as [-> | _]; [done | apply IH].
Qed.

Lemma dict_set_assoc_other {V} (k other : string) (v : V)
    (d : list (string * V)) :
  other <> k -> assoc other (dict_set k v d) = assoc other d.
Proof.
  intros Hne. induction d as [|[k' v'] d IH]; simpl.
  - by destruct (String.eqb_spec k other) as [-> | _].
  - destruct (String.eqb_spec k k') as [<- | Hkk]; simpl.
    + by destruct (String.eqb_spec k other) as [-> | _].
    + by rewrite IH.
Qed.

Lemma dict_set_keys {V} (k : string) (v : V) (d : list (string * V)) :
  map fst (dict_set k v d)
  = if bool_decide (k ∈ map fst d) then map fst d
    else (map fst d ++ [k])%list.
Proof.
  induction d as [|[k' v'] d IH]; simpl; [done |].
  destruct (String.eqb_spec k k') as [<- | Hkk]; simpl.
  - rewrite bool_decide_eq_true_2; [done | left].
  - rewrite IH. destruct (bool_decide (k ∈ map fst d)) eqn:E.
    + apply bool_decide_eq_true in E.
      rewrite bool_decide_eq_true_2; [done | by right].
    + apply bool_decide_eq_false in E.
      rewrite bool_decide_eq_false_2; [done |].
      by intros [? | ?]%elem_of_cons.
Qed.

Lemma dict_set_NoDup {V} (k : string) (v : V) (d : list (string * V)) :
  NoDup (map fst d) -> NoDup (map fst (dict_set k v d)).
Proof.
  intros Hnd. rewrite dict_set_keys.
  destruct (bool_decide (k ∈ map fst d)) eqn:E; [done |].
  apply bool_decide_eq_false in E.
  apply NoDup_app. repeat split; [done | | apply NoDup_singleton].
  intros x Hx ->%list_elem_of_singleton. done.
Qed.

Lemma dict_set_length {V} (k : string) (v : V) (d : list (string * V)) :
  length (dict_set k v d)
  = if bool_decide (k ∈ map fst d) then length d else S (length d).
Proof.
  rewrite <- (length_map fst (dict_set k v d)), dict_set_keys.
  destruct (bool_decide (k ∈ map fst d)).
  - by rewrite length_map.
  - rewrite length_app, length_map. simpl. lia.
Qed.

(** Recording a metric is an assignment in a dict: the metric can be
    read back under its name, the metrics of other names are untouched, a
    name recorded again keeps its place and its only entry (the report
    shows the last value), the names stay distinct, and nothing else of the
    reporter changes. *)
Theorem add_performance_metric_assigns (now : datetime)
    (metric_name : string) (value : num) (unit : string)
    (self : EnhancedReporter) :
  let self' := add_performance_metric now metric_name value unit self in
  let recorded := bool_decide (metric_name ∈ map fst (performance_metrics self)) in
  assoc metric_name (performance_metrics self')
  = Some {| Reporting.value := value; Reporting.unit := unit;
            metric_timestamp := now |} /\
  (forall other, other <> metric_name ->
     assoc other (performance_metrics self')
     = assoc other (performance_metrics self)) /\
  map fst (performance_metrics self')
  = (if recorded then map fst (performance_metrics self)
     else map fst (performance_metrics self) ++ [metric_name])%list /\
  (NoDup (map fst (performance_metrics self)) ->
   NoDup (map fst (performance_metrics self'))) /\
  (forall now' value' unit',
     map fst (performance_metrics
                (add_performance_metric now' metric_name value' unit' self'))
     = map fst (performance_metrics self')) /\
  test_results self' = test_results self /\
  screenshots self' = screenshots self /\
  html_summary_of self' = html_summary_of self.
Proof.
  simpl. split; [apply dict_set_assoc |].
  split; [intros other Hne; by apply dict_set_assoc_other |].
  split; [apply dict_set_keys |].
  split; [apply dict_set_NoDup |].
  split; [| done].
  intros now' value' unit'. rewrite dict_set_keys.
  rewrite bool_decide_eq_true_2; [done |].
  rewrite dict_set_keys.
  destruct (bool_decide (metric_name ∈ map fst (performance_metrics self)))
    eqn:E.
  - by apply bool_decide_eq_true in E.
  - apply elem_of_app. right. left.
Qed.

Lemma count_status_app (wanted : string) (results : list test_result)
    (r : test_result) :
  count_status wanted (results ++ [r])
  = count_status wanted results
    + (if String.eqb (status r) wanted then 1 else 0).
Proof.
  rewrite !count_status_length. unfold with_status.
  rewrite List.filter_app, length_app. simpl.
  destruct (String.eqb (status r) wanted); simpl; lia.
Qed.

Lemma counts_partition (results : list test_result) :
  count_status "passed" results + count_status "failed" results
  + count_status "skipped" results <= len results /\
  (count_status "passed" results + count_status "failed" results
   + count_status "skipped" results = len results
   <-> Forall known_status results).
Proof.
  induction results as [|r results IH] using rev_ind.
  - split; [done |]. split; [constructor | done].
  - rewrite !count_status_app. unfold len in *. rewrite length_app. simpl.
    destruct IH as [IHle IHeq].
    rewrite Forall_app, Forall_singleton. unfold known_status at 2.
    destruct (String.eqb_spec (status r) "passed") as [-> | Hp]; simpl.
    { split; [lia |]. split.
      - intros H. split; [apply IHeq; lia | by left].
      - intros [H _]. apply IHeq in H. lia. }
    destruct (String.eqb_spec (status r) "failed") as [-> | Hf]; simpl.
    { split; [lia |]. split.
      - intros H. split; [apply IHeq; lia | by right; left].
      - intros [H _]. apply IHeq in H. lia. }
    destruct (String.eqb_spec (status r) "skipped") as [-> | Hs]; simpl.
    { split; [lia |]. split.
      - intros H. split; [apply IHeq; lia | by right; right].
      - intros [H _]. apply IHeq in H. lia. }
    split; [lia |]. split; [lia |].
    intros [_ [? | [? | ?]]]; done.
Qed.

Lemma count_status_nonneg (wanted : string) (results : list test_result) :
  0 <= count_status wanted results.
Proof. rewrite count_status_length. lia. Qed.

(** The three counters of the summary never exceed the number of results
    together, and they add up to it exactly when every status is one of
    passed, failed and skipped: a result recorded with any other word,
    or another spelling, is counted in the total only.  A new result
    adds one to the total and to the counter of its status. *)
Theorem summary_counters_partition (self : EnhancedReporter) :
  let s := html_summary_of self in
  0 <= passed_tests s /\ 0 <= failed_tests s /\ 0 <= skipped_tests s /\
  passed_tests s + failed_tests s + skipped_tests s <= total_tests s /\
  (passed_tests s + failed_tests s + skipped_tests s = total_tests s
   <-> forall r, r ∈ test_results self ->
         status r = "passed" \/ status r = "failed" \/ status r = "skipped") /\
  (forall now name st duration error_message screenshot_path,
     let s' := html_summary_of
                 (add_test_result now name st duration error_message
                    screenshot_path self) in
     total_tests s' = total_tests s + 1 /\
     passed_tests s'
     = passed_tests s + (if String.eqb st "passed" then 1 else 0) /\
     failed_tests s'
     = failed_tests s + (if String.eqb st "failed" then 1 else 0) /\
     skipped_tests s'
     = skipped_tests s + (if String.eqb st "skipped" then 1 else 0)).
Proof.
  simpl. destruct (counts_partition (test_results self)) as [Hle Heq].
  repeat split; try apply count_status_nonneg; try done.
  - intros H. apply Heq in H. by apply Forall_forall.
  - intros H. apply Heq. by apply Forall_forall.
  - unfold len. rewrite length_app. simpl. lia.
  - by rewrite count_status_app.
  - by rewrite count_status_app.
  - by rewrite count_status_app.
Qed.

End ReporterState.

(* ===================================================================== *)
(** * tests/conftest.py: what the hook records *)
(* ===================================================================== *)

Section HookSessions.

Import PyNum Reporting Conftest.

Local Open Scope Z_scope.

Lemma add_screenshot_frame (fs : filesystem) (now : datetime)
    (path description : string) (self : EnhancedReporter) :
  let self' := add_screenshot fs now path description self in
  test_results self' = test_results self /\
  performance_metrics self' = performance_metrics self /\
  (length (screenshots self') <= S (length (screenshots self)))%nat.
Proof.
  unfold add_screenshot. destruct (path_exists fs path); simpl.
  - repeat split. rewrite length_app. simpl. lia.
  - repeat split. lia.
Qed.

Lemma hook_invariant_new : hook_invariant new_reporter.
Proof.
  unfold hook_invariant. simpl.
  split; [apply Forall_nil_2 |]. split; [done |].
  split; [apply NoDup_nil_2 | lia].
Qed.

Lemma hook_invariant_metric (now : datetime) (k : string) (v : num)
    (u : string) (self : EnhancedReporter) :
  (length (performance_metrics self) < length (test_results self))%nat ->
  NoDup (map fst (performance_metrics self)) ->
  NoDup (map fst (performance_metrics
                    (add_performance_metric now k v u self))) /\
  (length (performance_metrics (add_performance_metric now k v u self))
   <= length (test_results self))%nat.
Proof.
  intros Hlen Hnd. simpl. split; [by apply dict_set_NoDup |].
  rewrite dict_set_length.
  destruct (bool_decide (k ∈ map fst (performance_metrics self))); lia.
Qed.

Lemma hook_invariant_step save clock shot_now result_now metric_now duration
    item rep (s s' : session) :
  hook_invariant (reporter s) ->
  pytest_runtest_makereport save clock shot_now result_now metric_now
    duration item rep s = Done s' ->
  hook_invariant (reporter s').
Proof.
  intros (Hres & Hshots & Hnd & Hlen) H.
  unfold pytest_runtest_makereport in H.
  destruct (String.eqb (when rep) "call"); [| by injection H as <-].
  set (r0 := reporter s) in *.
  assert (Hstep : forall status error_message screenshot_path reporter1,
    test_results reporter1 = test_results r0 ->
    performance_metrics reporter1 = performance_metrics r0 ->
    recorded_by_hook
      {| test_name := name item; status := status;
         duration := duration_or_zero (Some (Float duration));
         timestamp := result_now; error_message := error_message;
         screenshot_path := screenshot_path |} ->
    (len (screenshots reporter1)
     <= count_status "failed" (test_results r0)
        + (if String.eqb status "failed" then 1 else 0)) ->
    hook_invariant
      (if positive duration then
         add_performance_metric metric_now
           ("test_" ++ name item ++ "_duration") (Float duration) "seconds"
           (add_test_result result_now (name item) status
              (Some (Float duration)) error_message screenshot_path reporter1)
       else
         add_test_result result_now (name item) status
           (Some (Float duration)) error_message screenshot_path reporter1)).
  { intros st em sp r1 Hr1 Hm1 Hrec Hcount.
    assert (Hbase : hook_invariant
                      (add_test_result result_now (name item) st
                         (Some (Float duration)) em sp r1)).
    { unfold hook_invariant. simpl. rewrite Hr1, Hm1.
      repeat split.
      - apply Forall_app. split; [done | by apply Forall_singleton].
      - by rewrite count_status_app.
      - done.
      - rewrite length_app. simpl. lia. }
    destruct (positive duration); [| done].
    destruct Hbase as (Hres' & Hshots' & Hnd' & Hlen').
    unfold hook_invariant.
    destruct (hook_invariant_metric metric_now
                ("test_" ++ name item ++ "_duration") (Float duration)
                "seconds"
                (add_test_result result_now (name item) st
                   (Some (Float duration)) em sp r1)) as [Hnd2 Hlen2].
    - simpl. rewrite Hr1, Hm1, length_app. simpl. lia.
    - done.
    - repeat split; done. }
  destruct (rep_outcome rep).
  - injection H as <-. simpl. apply Hstep; try done.
    + unfold recorded_by_hook. simpl. repeat split; try done.
      by left.
    + simpl. lia.
  - destruct (has_browser item).
    + destruct (take_screenshot save clock ("FAILED_" ++ name item) (files s))
        as [[p |] fs1]; [| done].
      injection H as <-. simpl.
      destruct (add_screenshot_frame fs1 shot_now p
                  ("Failure screenshot for " ++ name item) r0)
        as (Hr & Hm & Hl).
      apply Hstep; try done.
      * unfold recorded_by_hook. simpl.
        repeat split; try done; [by right; left |].
        intros _. unfold longrepr_or.
        by destruct (longrepr rep) as [[[] ?] |].
      * simpl. unfold len in *. lia.
    + injection H as <-. simpl. apply Hstep; try done.
      * unfold recorded_by_hook. simpl.
        repeat split; try done; [by right; left |].
        intros _. unfold longrepr_or.
        by destruct (longrepr rep) as [[[] ?] |].
      * simpl. lia.
  - injection H as <-. simpl. apply Hstep; try done.
    + unfold recorded_by_hook. simpl. repeat split; try done.
      by right; right.
    + simpl. lia.
Qed.

Lemma fed_by_hook_invariant (s : session) :
  fed_by_hook s -> hook_invariant (reporter s).
Proof.
  induction 1 as [fs | now s _ IH | now s _ IH | fs s _ IH
                 | ? ? ? ? ? ? ? ? s s' _ IH Hstep].
  - apply hook_invariant_new.
  - exact IH.
  - exact IH.
  - exact IH.
  - by eapply hook_invariant_step.
Qed.

(** In a session whose results all come from the hook, the three counters
    of the report add up to the total; a passed result carries neither an
    error message nor a screenshot, a failed one always carries an error
    message, and only failed ones carry a screenshot; there are no more
    recorded screenshots than failed tests; and the metrics have distinct
    names and are no more than the results, tests of the same name sharing
    one entry. *)
Theorem hook_sessions_add_up (s : session) :
  fed_by_hook s ->
  let self := reporter s in
  let sm := html_summary_of self in
  passed_tests sm + failed_tests sm + skipped_tests sm = total_tests sm /\
  (forall r, r ∈ test_results self ->
     (status r = "passed" ->
      error_message r = None /\ screenshot_path r = None) /\
     (status r = "failed" -> error_message r <> None) /\
     (screenshot_path r <> None -> status r = "failed")) /\
  len (screenshots self) <= failed_tests sm /\
  NoDup (map fst (performance_metrics self)) /\
  (length (performance_metrics self) <= length (test_results self))%nat.
Proof.
  intros (Hres & Hshots & Hnd & Hlen)%fed_by_hook_invariant. simpl.
  split; [| split; [| done]].
  - apply counts_partition.
    eapply Forall_impl; [exact Hres |]. by intros r (? & _).
  - intros r Hr.
    pose proof (proj1 (Forall_forall _ _) Hres r Hr) as (_ & Hp & Hf & Hs).
    repeat split; try done; by apply Hp.
Qed.

Lemma hook_sessions_add_up_witness :
  fed_by_hook sample_hook_session /\
  failed_tests (html_summary_of (reporter sample_hook_session)) = 1 /\
  passed_tests (html_summary_of (reporter sample_hook_session))
  + failed_tests (html_summary_of (reporter sample_hook_session))
  + skipped_tests (html_summary_of (reporter sample_hook_session))
  = total_tests (html_summary_of (reporter sample_hook_session)).
Proof.
  assert (H : fed_by_hook sample_hook_session).
  { apply (fed_step (fun _ => Some true) "20240101_120000" 3 4 5
             (float_of_int 2)
             {| name := "test_homepage_load"; has_browser := true |}
             {| when := "call"; rep_outcome := Failed;
                longrepr := Some (true, "AssertionError") |}
             {| files := ∅; reporter := start_session 1 new_reporter |});
      [| by vm_compute].
    apply (fed_start_session 1 {| files := ∅; reporter := new_reporter |}),
      fed_new. }
  split; [exact H |]. split; [by vm_compute |].
  exact (proj1 (hook_sessions_add_up sample_hook_session H)).
Defined.

End HookSessions.
(* ===================================================================== *)
(** * run_tests.py: what the menus start *)
(* ===================================================================== *)

Section RunnerLaunches.

Import Runner Launches.

Implicit Types (env : environment) (st : state).

Lemma input_launches st st' (r : result string) :
  input st = (r, st') -> launches st' = launches st.
Proof.
  unfold input. destruct (stdin st); by intros [= _ <-].
Qed.

Lemma menu_pick_elem (tests : list string) :
  forall (position : Z) (choice test_name : string),
    menu_pick position choice tests = Some test_name -> test_name ∈ tests.
Proof.
  induction tests as [|t tests IH]; intros position choice test_name; simpl;
    [done |].
  destruct (String.eqb choice (pretty position)).
  - intros [= <-]. left.
  - intros H. right. by eapply IH.
Qed.

Lemma offered_basic (t : string) :
  t ∈ basic_tests -> ("TestAmazonBasic", t) ∈ offered.
Proof.
  intros H. unfold offered. apply elem_of_app. left.
  by apply list_elem_of_fmap_2.
Qed.

Lemma offered_advanced (t : string) :
  t ∈ advanced_tests -> ("TestAmazonAdvanced", t) ∈ offered.
Proof.
  intros H. unfold offered. apply elem_of_app. right.
  apply elem_of_app. left. by apply list_elem_of_fmap_2.
Qed.

Lemma offered_both (t : string) :
  t ∈ ["test_complete_workflow_basic_to_advanced"] ->
  ("TestAmazonBoth", t) ∈ offered.
Proof.
  intros ->%list_elem_of_singleton. unfold offered.
  apply elem_of_app. right. apply elem_of_app. right. left.
Qed.

Lemma pick_outcome env (test_class : string) (tests : list string)
    st st' (r : option (result unit)) :
  (forall t, t ∈ tests -> (test_class, t) ∈ offered) ->
  match input st with
  | (Raise e, st2) => (Some (Raise e), st2)
  | (Ok test_choice, st2) =>
      match menu_pick 1 test_choice tests with
      | Some test_name =>
          match run_specific_test_category env test_class test_name st2 with
          | (Ok _, st3) => (Some (Ok tt), st3)
          | (Raise e, st3) => (Some (Raise e), st3)
          end
      | None => (None, st2)
      end
  end = (r, st') ->
  pass_outcome st st' r.
Proof.
  intros Hoffered.
  destruct (input st) as [[test_choice | e] st2] eqn:Hin.
  - pose proof (input_launches _ _ _ Hin) as Hl.
    destruct (menu_pick 1 test_choice tests) as [test_name |] eqn:Hpick.
    + apply menu_pick_elem, Hoffered in Hpick.
      unfold run_specific_test_category, run.
      change ["pytest";
              "tests/test_amazon_complete.py::" ++ test_class ++ "::" ++ test_name;
              "-v"; "--tb=short"; "-s"]
        with (specific_command test_class test_name).
      destruct (subprocess_run env _); intros [= <- <-]; right;
        exists test_class, test_name;
        (split; [done |]); rewrite launches_log_launched, Hl;
        (split; [done |]); [by left | by right].
    + intros [= <- <-]. left. split; [done | by left].
  - pose proof (input_launches _ _ _ Hin) as Hl.
    unfold input in Hin. destruct (stdin st); [| done].
    injection Hin as <- <-. intros [= <- <-]. left.
    split; [done |]. by right; right.
Qed.

Lemma selection_step_outcome env st st' (r : option (result unit)) :
  selection_step env st = (r, st') -> pass_outcome st st' r.
Proof.
  unfold selection_step.
  destruct (input st) as [[category_choice | e] st1] eqn:Hin.
  - pose proof (input_launches _ _ _ Hin) as Hl. cbv zeta.
    assert (Hshift : pass_outcome st1 st' r -> pass_outcome st st' r)
      by (unfold pass_outcome; by rewrite Hl).
    destruct (String.eqb category_choice "0").
    { intros [= <- <-]. left. split; [done |]. by right; left. }
    destruct (String.eqb category_choice "1").
    { intros H. apply Hshift.
      by apply (pick_outcome env "TestAmazonBasic" basic_tests _ _ _
                  offered_basic). }
    destruct (String.eqb category_choice "2").
    { intros H. apply Hshift.
      by apply (pick_outcome env "TestAmazonAdvanced" advanced_tests _ _ _
                  offered_advanced). }
    destruct (String.eqb category_choice "3").
    { intros H. apply Hshift.
      by apply (pick_outcome env "TestAmazonBoth"
                  ["test_complete_workflow_basic_to_advanced"] _ _ _
                  offered_both). }
    intros [= <- <-]. left. split; [done | by left].
  - pose proof (input_launches _ _ _ Hin) as Hl.
    unfold input in Hin. destruct (stdin st); [| done].
    injection Hin as <- <-. intros [= <- <-]. left.
    split; [done |]. by right; right.
Qed.

Lemma selection_loop_outcome (fuel : nat) env st st' (r : result unit) :
  selection_loop fuel env st = (r, st') ->
  pass_outcome st st' (Some r).
Proof.
  revert st. induction fuel as [|fuel IH]; intros st; simpl;
    destruct (selection_step env st) as [[r1 |] st1] eqn:Hstep;
    apply selection_step_outcome in Hstep.
  - intros [= <- <-]. done.
  - intros [= <- <-].
    destruct Hstep as [[Hl _] | (c & t & _ & _ & [? | ?])]; [| done | done].
    left. split; [done |]. by right; right.
  - intros [= <- <-]. done.
  - intros H. apply IH in H.
    destruct Hstep as [[Hl _] | (c & t & _ & _ & [? | ?])]; [| done | done].
    unfold pass_outcome in *. by rewrite <- Hl.
Qed.





Lemma started_refl st st' :
  launches st' = launches st -> started_suite_only st st'.
Proof. intros H. exists []. by rewrite app_nil_r. Qed.

Lemma started_trans st1 st2 st3 :
  started_suite_only st1 st2 -> started_suite_only st2 st3 ->
  started_suite_only st1 st3.
Proof.
  intros (n1 & H1 & F1) (n2 & H2 & F2). exists (n1 ++ n2)%list.
  split; [by rewrite H2, H1, app_assoc | by apply Forall_app].
Qed.

Lemma started_one st st' (cmd : list string) :
  runs_the_suite cmd -> launches st' = (launches st ++ [cmd])%list ->
  started_suite_only st st'.
Proof. intros Hc H. exists [cmd]. split; [done | by apply Forall_singleton]. Qed.

Lemma specific_command_runs_the_suite (test_class test_name : string) :
  runs_the_suite (specific_command test_class test_name).
Proof.
  eexists _, _. split; [reflexivity |]. apply startswith_app.
  exists ("::" ++ test_class ++ "::" ++ test_name). reflexivity.
Qed.

Lemma run_tests_started env st :
  started_suite_only st (snd (run_basic_tests env st)) /\
  started_suite_only st (snd (run_advanced_tests env st)) /\
  started_suite_only st (snd (run_both_tests env st)).
Proof.
  repeat split;
    (eapply started_one; [| apply run_launches]);
    by eexists _, _.
Qed.

Lemma selection_started env st :
  started_suite_only st (snd (handle_specific_test_selection env st)).
Proof.
  unfold handle_specific_test_selection.
  destruct (selection_loop _ env st) as [r st'] eqn:H.
  apply selection_loop_outcome in H. simpl.
  destruct H as [[Hl _] | (c & t & _ & Hl & _)].
  - by apply started_refl.
  - eapply started_one; [apply specific_command_runs_the_suite | done].
Qed.

Lemma dispatch_started env (choice : string) st :
  started_suite_only st (snd (dispatch env choice st)).
Proof.
  unfold dispatch.
  set (chosen := if String.eqb choice "1" then _ else _).
  assert (Hchosen : started_suite_only st (snd chosen)).
  { subst chosen. destruct (run_tests_started env st) as (Hb & Ha & Hall).
    destruct (String.eqb choice "1");
      [by destruct (run_basic_tests env st) as [[] ?] |].
    destruct (String.eqb choice "2");
      [by destruct (run_advanced_tests env st) as [[] ?] |].
    destruct (String.eqb choice "3");
      [by destruct (run_both_tests env st) as [[] ?] |].
    destruct (String.eqb choice "4"); [apply selection_started |].
    destruct (String.eqb choice "5"); [by apply started_refl |].
    destruct (String.eqb choice "6").
    { pose proof (proj1 (check_environment_quiet env st)) as Hq.
      destruct (check_environment env st) as [[b | e] st0];
        by apply started_refl. }
    destruct (String.eqb choice "7"); [| by apply started_refl].
    apply started_refl, clean_artifacts_quiet. }
  destruct chosen as [[[] | e] st1]; simpl in *; [| done].
  destruct (String.eqb choice "0"); [done |].
  destruct (_ || _); [| done].
  destruct (input st1) as [[line | e] st2] eqn:Hin;
    apply input_launches in Hin; simpl;
    (eapply started_trans; [exact Hchosen | by apply started_refl]).
Qed.

Lemma interactive_step_started env st :
  started_suite_only st (snd (interactive_step env st)).
Proof.
  unfold interactive_step.
  destruct (input st) as [[choice | e] st1] eqn:Hin;
    apply input_launches in Hin; [| by apply started_refl].
  pose proof (dispatch_started env choice st1) as Hd.
  assert (H0 : started_suite_only st st1) by (by apply started_refl).
  destruct (dispatch env choice st1) as [[[] | e] st2]; simpl in *;
    try (by eapply started_trans).
  destruct (input st2) as [[line | e'] st3] eqn:Hin2;
    apply input_launches in Hin2; simpl;
    (eapply started_trans; [by eapply started_trans | by apply started_refl]).
Qed.

Lemma interactive_loop_started (fuel : nat) env st :
  started_suite_only st (snd (interactive_loop fuel env st)).
Proof.
  revert st. induction fuel as [|fuel IH]; intros st; simpl;
    pose proof (interactive_step_started env st) as Hs;
    destruct (interactive_step env st) as [[r |] st1]; simpl in *;
    try done.
  eapply started_trans; [exact Hs | apply IH].
Qed.

(** Whatever the arguments and the answers typed at the menus, every
    process the runner starts is pytest on the complete suite or on a part
    of it; when the environment check answers [False] it starts none and
    changes nothing, when the check raises it starts none and ends with
    status 1; with an argument it starts at most one. *)
Theorem runner_starts_only_the_suite env (argv : list string) st :
  started_suite_only st (snd (cli env argv st)) /\
  (fst (check_environment env st) = Ok false ->
   cli env argv st = (1%Z, st)) /\
  (forall e, fst (check_environment env st) = Raise e ->
     fst (cli env argv st) = 1%Z /\
     launches (snd (cli env argv st)) = launches st) /\
  (forall program a rest,
     argv = program :: a :: rest ->
     (length (launches (snd (cli env argv st)))
      <= S (length (launches st)))%nat).
Proof.
  unfold cli, main.
  destruct (check_environment_quiet env st) as (Hl & _ & Hfalse).
  destruct (check_environment env st) as [[[] | e0] st1] eqn:Hcheck;
    simpl in *.
  - assert (H1 : started_suite_only st st1) by (by apply started_refl).
    assert (Hflag : forall a,
      let (r, st') :=
        (if String.eqb (PyStr.lower a) "--basic" then run_basic_tests env st1
         else if String.eqb (PyStr.lower a) "--advanced"
              then run_advanced_tests env st1
         else if String.eqb (PyStr.lower a) "--both"
                 || String.eqb (PyStr.lower a) "--all"
              then run_both_tests env st1
         else (Ok 1%Z, st1)) in
      started_suite_only st st' /\
      (length (launches st') <= S (length (launches st)))%nat).
    { intros a. destruct (run_tests_started env st1) as (Hb & Ha & Hall).
      pose proof (proj1 (run_launches env
        [ "pytest"; "tests/test_amazon_complete.py::TestAmazonBasic";
          "-m"; "basic"; "-v"; "--tb=short";
          "--html=reports/basic_test_report_" ++ clock env ++ ".html";
          "--self-contained-html" ] st1)) as Lb.
      pose proof (proj1 (run_launches env
        [ "pytest"; "tests/test_amazon_complete.py::TestAmazonAdvanced";
          "-m"; "advanced"; "-v"; "--tb=short";
          "--html=reports/advanced_test_report_" ++ clock env ++ ".html";
          "--self-contained-html" ] st1)) as La.
      pose proof (proj1 (run_launches env
        [ "pytest"; "tests/test_amazon_complete.py";
          "-v"; "--tb=short";
          "--html=reports/complete_test_report_" ++ clock env ++ ".html";
          "--self-contained-html" ] st1)) as Lall.
      fold (run_basic_tests env st1) in Lb.
      fold (run_advanced_tests env st1) in La.
      fold (run_both_tests env st1) in Lall.
      destruct (String.eqb (PyStr.lower a) "--basic").
      { destruct (run_basic_tests env st1) as [r st']; simpl in *.
        split; [by eapply started_trans |].
        rewrite Lb, length_app, Hl. simpl. lia. }
      destruct (String.eqb (PyStr.lower a) "--advanced").
      { destruct (run_advanced_tests env st1) as [r st']; simpl in *.
        split; [by eapply started_trans |].
        rewrite La, length_app, Hl. simpl. lia. }
      destruct (_ || _).
      { destruct (run_both_tests env st1) as [r st']; simpl in *.
        split; [by eapply started_trans |].
        rewrite Lall, length_app, Hl. simpl. lia. }
      split; [done |]. rewrite Hl. lia. }
    split; [| split; [done | split; [done |]]].
    + destruct argv as [|program [|a rest]].
      * pose proof (interactive_loop_started (length (stdin st1)) env st1).
        destruct (interactive_loop _ env st1); simpl in *.
        by eapply started_trans.
      * pose proof (interactive_loop_started (length (stdin st1)) env st1).
        destruct (interactive_loop _ env st1); simpl in *.
        by eapply started_trans.
      * specialize (Hflag a).
        destruct (if String.eqb _ _ then _ else _) as [r st']; simpl.
        by destruct Hflag.
    + intros program a rest ->. specialize (Hflag a). cbv iota.
      destruct (if String.eqb _ _ then _ else _) as [r st']; simpl.
      by destruct Hflag.
  - rewrite (Hfalse eq_refl).
    split; [by apply started_refl |]. split; [done |]. split; [done |].
    intros program a rest _. lia.
  - split; [by apply started_refl |]. split; [done |].
    split; [by intros e [= <-] |].
    intros program a rest _. rewrite Hl. lia.
Qed.

End RunnerLaunches.
(* ===================================================================== *)
(** * run_tests.py: the environment check *)
(* ===================================================================== *)

Section EnvironmentCheck.

Import Runner Launches.

Local Open Scope Z_scope.






End EnvironmentCheck.
(* ===================================================================== *)
(** * utils/test_helpers.py: bounds of the click and finder helpers *)
(* ===================================================================== *)

Section FinderBounds.

Import Finder.

Local Open Scope Z_scope.

Context {W : Type} (driver : browser W).

Lemma click_attempts_more (el : element) (n : nat) :
  forall (m : nat) (w w' : W),
    (n <= m)%nat ->
    click_attempts driver el n w = (true, w') ->
    click_attempts driver el m w = (true, w').
Proof.
  induction n as [|n IH]; intros m w w' Hle; simpl; [done |].
  destruct m as [|m]; [lia |]. simpl.
  destruct (click_attempt driver el w) as [[] w1]; [done |].
  apply IH. lia.
Qed.

(** Giving [robust_element_click] more attempts never loses a click:
    what succeeds within [n] attempts succeeds, in the same state, with
    any larger number, and what fails with [m] attempts fails with any
    smaller number.  Without attempts (a number of zero or less) it
    answers [False] and does not touch the driver. *)
Theorem robust_element_click_more_attempts (el : element) (n m : Z) (w : W) :
  (n <= m ->
   (fst (robust_element_click driver el n w) = true ->
    robust_element_click driver el m w = robust_element_click driver el n w) /\
   (fst (robust_element_click driver el m w) = false ->
    fst (robust_element_click driver el n w) = false)) /\
  (n <= 0 -> robust_element_click driver el n w = (false, w)).
Proof.
  unfold robust_element_click. split.
  - intros Hle.
    assert (Hmore : fst (click_attempts driver el (Z.to_nat n) w) = true ->
                    click_attempts driver el (Z.to_nat m) w
                    = click_attempts driver el (Z.to_nat n) w).
    { destruct (click_attempts driver el (Z.to_nat n) w) as [[] w'] eqn:Hn;
        [| done].
      intros _. apply (click_attempts_more el (Z.to_nat n)); [lia | done]. }
    split; [done |]. intros Hm.
    destruct (fst (click_attempts driver el (Z.to_nat n) w)) eqn:Hn; [| done].
    rewrite (Hmore eq_refl), Hn in Hm. done.
  - intros Hle. by replace (Z.to_nat n) with O by lia.
Qed.

Lemma dismissal_rounds_bounds (rounds : nat) :
  forall (dismissed_count : Z) (w : W),
    let count := fst (dismissal_rounds driver rounds dismissed_count w) in
    let w' := snd (dismissal_rounds driver rounds dismissed_count w) in
    dismissed_count <= count <= dismissed_count + Z.of_nat rounds /\
    (count < dismissed_count + Z.of_nat rounds ->
     exists w0, dismiss_with driver popup_selectors w0 = (false, w')).
Proof.
  induction rounds as [|rounds IH]; intros c w; cbn zeta.
  - cbn [dismissal_rounds fst snd]. split; lia.
  - change (dismissal_rounds driver (S rounds) c w)
      with (match dismiss_with driver popup_selectors w with
            | (true, w1) => dismissal_rounds driver rounds (c + 1) w1
            | (false, w1) => (c, w1)
            end).
    destruct (dismiss_with driver popup_selectors w) as [[] w1] eqn:Hd.
    + destruct (IH (c + 1) w1) as [Hb He]. split; [lia |].
      intros Hlt. apply He. lia.
    + cbn [fst snd]. split; [lia |]. intros _. by exists w.
Qed.

(** [intelligent_popup_dismissal] dismisses at most one popup per round:
    its count is between 0 and [max_attempts]; it stops before
    [max_attempts] rounds only after a round in which none of the
    selectors led to a click; and with [max_attempts] of zero or less it
    returns 0 without touching the driver. *)
Theorem intelligent_popup_dismissal_bounded (max_attempts : Z) (w : W) :
  let count := fst (intelligent_popup_dismissal driver max_attempts w) in
  let w' := snd (intelligent_popup_dismissal driver max_attempts w) in
  0 <= count <= Z.max 0 max_attempts /\
  (count < max_attempts ->
   exists w0, dismiss_with driver popup_selectors w0 = (false, w')) /\
  (max_attempts <= 0 ->
   intelligent_popup_dismissal driver max_attempts w = (0, w)).
Proof.
  cbn zeta. unfold intelligent_popup_dismissal.
  destruct (dismissal_rounds_bounds (Z.to_nat max_attempts) 0 w) as [Hb He].
  split; [lia |]. split.
  - intros Hlt. apply He. lia.
  - intros Hle. by replace (Z.to_nat max_attempts) with O by lia.
Qed.

Lemma slice_to_length {A} (n : Z) (l : list A) :
  0 <= n -> len (slice_to n l) <= n.
Proof.
  intros Hn. unfold slice_to, len.
  destruct (n <? 0) eqn:E; [apply Z.ltb_lt in E; lia |].
  rewrite length_take. lia.
Qed.

Lemma product_containers_length (searches : list (list container)) :
  len (product_containers searches) <= 10.
Proof.
  induction searches as [|found rest IH]; simpl; [done |].
  destruct (3 <=? len found); [by apply slice_to_length | done].
Qed.

Lemma selenium_products_length (containers : list container) :
  forall (i : nat) (found products : list element) (w w' : W),
    selenium_products driver i containers found w = (Ok products, w') ->
    len products <= len found + len containers.
Proof.
  induction containers as [|c rest IH]; intros i found products w w'; simpl.
  - intros [= <- _]. unfold len. simpl. lia.
  - unfold len in *. simpl.
    destruct (negb _ && negb _).
    + intros H. apply IH in H. lia.
    + destruct (find_element driver _ _ w) as [[el | []] w1]; try done;
        intros H; apply IH in H; rewrite ?length_app in H; simpl in H; lia.
Qed.

Lemma web_scraping_product_fallback_length (w : W) :
  len (fst (web_scraping_product_fallback driver w)) <= 10.
Proof.
  unfold web_scraping_product_fallback.
  destruct (page_source driver w) as [[searches | e] w1]; [| done].
  pose proof (product_containers_length searches) as Hc.
  destruct (product_containers searches) as [|c cs] eqn:E; [done |].
  destruct (selenium_products driver 0 (c :: cs) [] w1)
    as [[products | e] w2] eqn:Hs; [| done].
  apply selenium_products_length in Hs. simpl. unfold len in *. simpl in *.
  lia.
Qed.

Lemma products_by_selector_found (max_products : Z) (selectors : list string) :
  forall (w w' : W) (products : list element),
    products_by_selector driver max_products selectors w
    = (Ok products, w') ->
    products = [] \/
    exists found_products,
      3 <= len found_products /\
      products = slice_to max_products found_products.
Proof.
  induction selectors as [|selector rest IH]; intros w w' products; simpl.
  - intros [= <- _]. by left.
  - destruct (wait_all driver selector w) as [[found | []] w1]; try done;
      [| apply IH].
    destruct (3 <=? len found) eqn:E; [| apply IH].
    intros [= <- _]. right. exists found. split; [by apply Z.leb_le | done].
Qed.

Lemma products_by_selector_raise (max_products : Z) (selectors : list string) :
  forall (w w' : W) (e : exception),
    products_by_selector driver max_products selectors w = (Raise e, w') ->
    e <> TimeoutException.
Proof.
  induction selectors as [|selector rest IH]; intros w w' e; simpl; [done |].
  destruct (wait_all driver selector w) as [[found | []] w1];
    try (by intros [= <- _]); [| apply IH].
  destruct (3 <=? len found); [done | apply IH].
Qed.

(** What [smart_product_finder] returns is either a non-empty slice
    [found[:max_products]] of what one selector found, which had at least
    three elements, or the result of the scraping fallback, which has at
    most ten elements whatever [max_products] is: so at most
    [max(max_products, 10)] products for a [max_products] of zero or more.
    A timeout is never passed on.  On a page where only the fallback finds
    products, asking for one product gives ten. *)
Theorem smart_product_finder_bound (max_products : Z) (w : W) :
  match fst (smart_product_finder driver max_products w) with
  | Ok products =>
      ((products <> [] /\
        exists found_products,
          3 <= len found_products /\
          products = slice_to max_products found_products) \/
       products = fst (web_scraping_product_fallback driver
                         (snd (products_by_selector driver max_products
                                 product_selectors w))) /\
       len products <= 10) /\
      (0 <= max_products -> len products <= Z.max max_products 10)
  | Raise e => e <> TimeoutException
  end /\
  len (fst (web_scraping_product_fallback driver w)) <= 10 /\
  exists products,
    smart_product_finder scraped_page 1 tt = (Ok products, tt) /\
    len products = 10.
Proof.
  split; [| split; [apply web_scraping_product_fallback_length |]].
  - unfold smart_product_finder.
    destruct (products_by_selector driver max_products product_selectors w)
      as [[products | e] w1] eqn:Hp; simpl.
    + pose proof (web_scraping_product_fallback_length w1) as Hf.
      destruct products as [|p ps].
      * destruct (web_scraping_product_fallback driver w1) as [fb w2].
        simpl in *. split; [by right | lia].
      * apply products_by_selector_found in Hp
          as [? | (found & H3 & Hs)]; [done |].
        simpl. split.
        -- left. split; [done |]. by exists found.
        -- intros Hmax. rewrite Hs.
           pose proof (slice_to_length max_products found Hmax). lia.
    + by eapply products_by_selector_raise.
  - eexists. split; [by vm_compute | done].
Qed.

End FinderBounds.
(* ===================================================================== *)
(** * tests/test_amazon_complete.py: what the relevance score ignores *)
(* ===================================================================== *)

Section SearchRelevance.

Import Text PyNum Relevance.

Local Open Scope Z_scope.

Context (py : interpreter).





End SearchRelevance.
